(** * ThotsakanStatistics: controllers and core, shallow embedding

    The Python sources embedded here are
    - [controllers/linear_regression_controller.py]
    - [controllers/hypothesis_controller.py]
    - [controllers/estimation/descriptive_controller.py]
    - [core/linear_regression.py]
    - [core/data_stats.py]
    - the input parsers of [ui/tabs/]
    - [tests/test_no_tabular_rounding_in_core.py]

    Conventions of the embedding.
    - A Python [str] is a [string] of bytes (ASCII text).
    - A Python [float] is a [pyfloat]: the rational a binary64 number
      denotes, or one of the IEEE specials.  [float(text)] and the
      arithmetic round to the nearest binary64 number, ties to even, with
      overflow to the infinities and gradual underflow; the sign of zero is
      not represented.
    - [raise ValueError(msg)] is [Err (ValueError msg)]; a function that may
      raise returns a [Result].
    - A pandas [DataFrame] is a list of typed column headers and a list of
      labelled rows; the column types are [float64], [int64] and [object].
    - [statsmodels], the test routines of [core/hypothesis_tests.py] and the
      engine of [core/estimation/descriptive.py] are interfaces (classes);
      the properties hold for every implementation of them.
    - The hypothesis-test dispatcher runs in a world that holds the
      dataframe objects by address (the one its [df] argument refers to
      among them) and the log of the routines called; [table.copy()] makes
      a new object and an assignment to columns writes into an object. *)

From Stdlib Require Import String Ascii List ZArith QArith Qround Bool Lia.
From Stdlib Require Import Sorted Permutation.
Import ListNotations.

Set Implicit Arguments.
Open Scope string_scope.

(* ===================================================================== *)
(** * Part I. Definitions                                                 *)
(* ===================================================================== *)

(** ** Python primitives *)

Module Py.

(** The error kinds of spec section 7.  The sources only ever raise
    [ValueError]; the kinds are used by the routines that are modelled from
    the specification. *)
Inductive ErrorKind :=
| MissingDataset | ColumnNotFound | NonNumericColumn | EmptyAfterFiltering
| InvalidParameter | InvalidInput | InsufficientData | InsufficientGroups
| InvalidConfiguration.

Inductive exn :=
| ValueError (msg : string)          (* raise ValueError(msg) *)
| KeyError (key : string)            (* a missing column label *)
| IndexError                         (* an index out of bounds *)
| ExternalError (msg : string)       (* raised inside pandas / statsmodels *)
| SpecError (kind : ErrorKind).      (* raised by a spec-modelled routine *)

Inductive Result (A : Type) :=
| Ok (a : A)
| Err (e : exn).
Arguments Ok {A} a.
Arguments Err {A} e.

Definition bind {A B} (r : Result A) (k : A -> Result B) : Result B :=
  match r with
  | Ok a => k a
  | Err e => Err e
  end.

Definition is_ok {A} (r : Result A) : bool :=
  match r with Ok _ => true | Err _ => false end.

Definition fails {A} (r : Result A) : Prop := exists e, r = Err e.

(** [x in xs] for strings. *)
Definition str_in (x : string) (xs : list string) : bool :=
  existsb (String.eqb x) xs.

(** *** [str.strip], [str.split] *)

(** ASCII characters for which [str.isspace] holds: 0x09-0x0D, 0x1C-0x1F
    and the blank. *)
Definition is_space (c : ascii) : bool :=
  let n := nat_of_ascii c in
  ((9 <=? n) && (n <=? 13) || (28 <=? n) && (n <=? 31) || (n =? 32))%nat.

Fixpoint lstrip_list (l : list ascii) : list ascii :=
  match l with
  | c :: r => if is_space c then lstrip_list r else l
  | [] => []
  end.

Definition rstrip_list (l : list ascii) : list ascii :=
  rev (lstrip_list (rev l)).

Definition strip (s : string) : string :=
  string_of_list_ascii (rstrip_list (lstrip_list (list_ascii_of_string s))).

(** [s.split(sep)] for a one-character separator: never returns []. *)
Fixpoint split (sep : ascii) (s : string) : list string :=
  match s with
  | EmptyString => [EmptyString]
  | String c r =>
      if Ascii.eqb c sep then EmptyString :: split sep r
      else match split sep r with
           | h :: t => String c h :: t
           | [] => [String c EmptyString]
           end
  end.

(** [not s] for a string. *)
Definition str_falsy (s : string) : bool :=
  match s with EmptyString => true | _ => false end.

(** [repr(s)]: the text between quotes, the backslash, the quote and the
    control characters escaped.  The quote is the apostrophe, unless the
    text has an apostrophe and no double quote. *)
Definition hex_digit (n : nat) : ascii :=
  if (n <? 10)%nat then ascii_of_nat (48 + n) else ascii_of_nat (87 + n).

Definition escape (quote c : ascii) : list ascii :=
  let n := nat_of_ascii c in
  let bs := ascii_of_nat 92 in
  if Ascii.eqb c bs then [bs; bs]
  else if Ascii.eqb c quote then [bs; quote]
  else if (n =? 9)%nat then [bs; "t"%char]
  else if (n =? 10)%nat then [bs; "n"%char]
  else if (n =? 13)%nat then [bs; "r"%char]
  else if ((n <? 32) || (n =? 127))%nat
       then [bs; "x"%char; hex_digit (n / 16); hex_digit (n mod 16)]
  else [c].

Definition repr (s : string) : string :=
  let l := list_ascii_of_string s in
  let dq := ascii_of_nat 34 in
  let sq := "'"%char in
  let quote :=
    if existsb (Ascii.eqb sq) l && negb (existsb (Ascii.eqb dq) l) then dq else sq in
  string_of_list_ascii (quote :: flat_map (escape quote) l ++ [quote])%list.

(** *** Floats *)

Inductive pyfloat :=
| Fin (q : Q)
| PInf
| NInf
| NaN.

Definition f0 : pyfloat := Fin 0.
Definition f1 : pyfloat := Fin 1.

Definition Qlt_bool (a b : Q) : bool := negb (Qle_bool b a).

(** [a < b]: false as soon as one side is NaN. *)
Definition flt (a b : pyfloat) : bool :=
  match a, b with
  | NaN, _ | _, NaN => false
  | Fin x, Fin y => Qlt_bool x y
  | NInf, NInf => false
  | NInf, _ => true
  | _, NInf => false
  | PInf, _ => false
  | Fin _, PInf => true
  end.

(** [a <= b]. *)
Definition fle (a b : pyfloat) : bool :=
  match a, b with
  | NaN, _ | _, NaN => false
  | Fin x, Fin y => Qle_bool x y
  | NInf, _ => true
  | _, PInf => true
  | _, NInf => false
  | PInf, Fin _ => false
  end.

(** [a >= b] and [a == b]. *)
Definition fge (a b : pyfloat) : bool := fle b a.
Definition feq (a b : pyfloat) : bool := fle a b && fle b a.

Definition is_nan (a : pyfloat) : bool :=
  match a with NaN => true | _ => false end.

Definition fneg (a : pyfloat) : pyfloat :=
  match a with
  | Fin x => Fin (- x)
  | PInf => NInf
  | NInf => PInf
  | NaN => NaN
  end.

(** *** Rounding to binary64 *)

(** The integer nearest to [q], ties to the even one. *)
Definition rint (q : Q) : Z :=
  let f := Qfloor q in
  match ((q - inject_Z f) ?= (1 # 2))%Q with
  | Lt => f
  | Gt => (f + 1)%Z
  | Eq => if Z.even f then f else (f + 1)%Z
  end.

(** [q * 2^k] *)
Definition Qshift (q : Q) (k : Z) : Q :=
  match k with
  | Z0 => q
  | Zpos p => Qmake (Qnum q * 2 ^ Zpos p) (Qden q)
  | Zneg p => Qmake (Qnum q) (Qden q * Z.to_pos (2 ^ Zpos p))
  end.

(** The binary exponent of the positive rational [n/d]: the floor of its
    logarithm in base 2. *)
Definition exponent2 (n d : positive) : Z :=
  let k := (Z.log2 (Zpos n) - Z.log2 (Zpos d))%Z in
  if Qle_bool 1 (Qshift (Zpos n # d) (- k)) then k else (k - 1)%Z.

(** The binary64 number nearest to the positive rational [n/d]: 53
    significant bits, the last place not below [2^-1074], ties to the even
    significand, the infinity from [2^1024] on. *)
Definition round_mag (n d : positive) : pyfloat :=
  let e := exponent2 n d in
  let u := Z.max (e - 52) (-1074) in
  let m := rint (Qshift (Zpos n # d) (- u)) in
  if (1024 - u <=? Z.log2 m)%Z then PInf
  else Fin (Qred (Qshift (inject_Z m) u)).

Definition b64 (q : Q) : pyfloat :=
  match Qnum q with
  | Z0 => Fin 0
  | Zpos n => round_mag n (Qden q)
  | Zneg n => fneg (round_mag n (Qden q))
  end.

(** [float(z)] for an integer. *)
Definition of_Z (z : Z) : pyfloat := b64 (inject_Z z).

Definition fadd (a b : pyfloat) : pyfloat :=
  match a, b with
  | NaN, _ | _, NaN => NaN
  | Fin x, Fin y => b64 (x + y)
  | PInf, NInf | NInf, PInf => NaN
  | PInf, _ | _, PInf => PInf
  | NInf, _ | _, NInf => NInf
  end.

Definition fsub (a b : pyfloat) : pyfloat := fadd a (fneg b).

Definition Qsign (x : Q) : comparison := (0 ?= x)%Q.

(** The infinity carrying the sign of [x], NaN for [x = 0]. *)
Definition signed_inf (pos : bool) (x : Q) : pyfloat :=
  match Qsign x with
  | Lt => if pos then PInf else NInf
  | Gt => if pos then NInf else PInf
  | Eq => NaN
  end.

Definition fmul (a b : pyfloat) : pyfloat :=
  match a, b with
  | NaN, _ | _, NaN => NaN
  | Fin x, Fin y => b64 (x * y)
  | PInf, Fin y | Fin y, PInf => signed_inf true y
  | NInf, Fin y | Fin y, NInf => signed_inf false y
  | PInf, PInf | NInf, NInf => PInf
  | PInf, NInf | NInf, PInf => NInf
  end.

(** [numpy.rint]: the nearest integer, ties to even. *)
Definition frint (a : pyfloat) : pyfloat :=
  match a with
  | Fin x => of_Z (rint x)
  | _ => a
  end.

(** numpy division: dividing by zero gives an infinity or NaN. *)
Definition fdiv (a b : pyfloat) : pyfloat :=
  match a, b with
  | NaN, _ | _, NaN => NaN
  | Fin x, Fin y =>
      match Qsign y with
      | Eq => signed_inf true x
      | _ => b64 (x / y)
      end
  | Fin _, _ => Fin 0
  | PInf, Fin y => match Qsign y with Gt => NInf | _ => PInf end
  | NInf, Fin y => match Qsign y with Gt => PInf | _ => NInf end
  | _, _ => NaN
  end.

(** *** [float(text)] *)

Definition digit_val (c : ascii) : option Z :=
  let n := nat_of_ascii c in
  if ((48 <=? n) && (n <=? 57))%nat then Some (Z.of_nat (n - 48)) else None.

(** The digits after a first digit; an underscore is accepted between two
    digits only.  Returns the value, the number of digits and the rest. *)
Fixpoint digits_loop (acc : Z) (n : nat) (l : list ascii) : Z * nat * list ascii :=
  match l with
  | c :: r =>
      match digit_val c with
      | Some d => digits_loop (10 * acc + d) (S n) r
      | None =>
          if Ascii.eqb c "_" then
            match r with
            | c2 :: r2 =>
                match digit_val c2 with
                | Some d => digits_loop (10 * acc + d) (S n) r2
                | None => (acc, n, l)
                end
            | [] => (acc, n, l)
            end
          else (acc, n, l)
      end
  | [] => (acc, n, l)
  end.

Definition digitpart (l : list ascii) : option (Z * nat * list ascii) :=
  match l with
  | c :: r =>
      match digit_val c with
      | Some d => Some (digits_loop d 1 r)
      | None => None
      end
  | [] => None
  end.

Definition lower (c : ascii) : ascii :=
  let n := nat_of_ascii c in
  if ((65 <=? n) && (n <=? 90))%nat then ascii_of_nat (n + 32) else c.

Definition lower_string (l : list ascii) : string :=
  string_of_list_ascii (map lower l).

(** An optional sign: [true] for a minus. *)
Definition take_sign (l : list ascii) : bool * list ascii :=
  match l with
  | c :: r =>
      if Ascii.eqb c "-" then (true, r)
      else if Ascii.eqb c "+" then (false, r)
      else (false, l)
  | [] => (false, l)
  end.

(** The exponent part: [e] or [E], a sign and digits, up to the end. *)
Definition exponent (l : list ascii) : option Z :=
  match l with
  | [] => Some 0%Z
  | c :: r =>
      if Ascii.eqb (lower c) "e" then
        let '(neg, r1) := take_sign r in
        match digitpart r1 with
        | Some (v, _, []) => Some (if neg then (- v)%Z else v)
        | _ => None
        end
      else None
  end.

(** The mantissa: digits, a point and digits, with a digit on one side of
    the point at least.  Returns the digits read as an integer, the number
    of them after the point, the number of them in all, and the rest. *)
Definition mantissa (l : list ascii) : option (Z * nat * nat * list ascii) :=
  match digitpart l with
  | Some (i, n, r) =>
      match r with
      | c :: r1 =>
          if Ascii.eqb c "." then
            match digitpart r1 with
            | Some (_, k, r2) =>
                let '(v, _, _) := digits_loop i 0 r1 in Some (v, k, (n + k)%nat, r2)
            | None => Some (i, 0%nat, n, r1)
            end
          else Some (i, 0%nat, n, r)
      | [] => Some (i, 0%nat, n, r)
      end
  | None =>
      match l with
      | c :: r1 =>
          if Ascii.eqb c "." then
            match digitpart r1 with
            | Some (v, k, r2) => Some (v, k, k, r2)
            | None => None
            end
          else None
      | [] => None
      end
  end.

(** [m * 10^e] as a rational. *)
Definition scale10 (m e : Z) : Q :=
  if (0 <=? e)%Z then inject_Z (m * 10 ^ e)
  else Qmake m (Z.to_pos (10 ^ (- e))).

(** The binary64 number nearest to [m * 10^e], for [m >= 0] written with
    [digits] digits.  Beyond [10^400] it is the infinity and below
    [10^-400] it is zero, whatever the digits: the powers of ten are not
    computed there. *)
Definition decimal_to_b64 (m : Z) (digits : nat) (e : Z) : pyfloat :=
  if (m =? 0)%Z then f0
  else if (400 <? e)%Z then PInf
  else if (e + Z.of_nat digits <? - 400)%Z then f0
  else b64 (scale10 m e).

Definition float_literal (l : list ascii) : option pyfloat :=
  let '(neg, r) := take_sign l in
  let low := lower_string r in
  if String.eqb low "inf" || String.eqb low "infinity" then
    Some (if neg then NInf else PInf)
  else if String.eqb low "nan" then Some NaN
  else
    match mantissa r with
    | Some (m, k, digits, r1) =>
        match exponent r1 with
        | Some e =>
            let x := decimal_to_b64 m digits (e - Z.of_nat k) in
            Some (if neg then fneg x else x)
        | None => None
        end
    | None => None
    end.

(** [float(s)]: [None] stands for the [ValueError] it raises. *)
Definition float (s : string) : option pyfloat :=
  float_literal (list_ascii_of_string (strip s)).

End Py.
Import Py.

Declare Scope result_scope.
Notation "x <- c ;; k" := (bind c (fun x => k))
  (at level 61, c at next level, right associativity) : result_scope.
Notation "c ;;; k" := (bind c (fun _ => k))
  (at level 61, right associativity) : result_scope.
Notation "'raise' e" := (Err e) (at level 10, only parsing) : result_scope.
Open Scope result_scope.

(** [if cond: raise ValueError(msg)] *)
Definition raise_if (cond : bool) (msg : string) : Result unit :=
  if cond then Err (ValueError msg) else Ok tt.

(** ** pandas: the part of [DataFrame] and [Series] the sources use *)

Module Pd.

(** Column types.  [float64] and [int64] are the numeric ones. *)
Inductive dtype := float64 | int64 | object_.

Definition is_numeric_dtype (d : dtype) : bool :=
  match d with
  | float64 | int64 => true
  | object_ => false
  end.

(** A cell: a number (NaN is the missing number), a string, or [None]. *)
Inductive Cell :=
| Flt (x : pyfloat)
| Str (s : string)
| PyNone.

Definition isna (c : Cell) : bool :=
  match c with
  | Flt NaN | PyNone => true
  | _ => false
  end.

Definition notna (c : Cell) : bool := negb (isna c).

(** A row carries its index label and one cell per column. *)
Definition Row : Type := nat * list Cell.

Record DataFrame := {
  columns : list (string * dtype);
  rows : list Row
}.

(** A series carries the type of its column and labelled cells. *)
Record Series := {
  s_dtype : dtype;
  s_items : list (nat * Cell)
}.

Definition column_names (df : DataFrame) : list string := map fst (columns df).

(** [name in df.columns] *)
Definition has_column (name : string) (df : DataFrame) : bool :=
  str_in name (column_names df).

(** [df.empty]: one of the two axes has length 0. *)
Definition empty (df : DataFrame) : bool :=
  match columns df, rows df with
  | [], _ | _, [] => true
  | _, _ => false
  end.

(** [series.empty] *)
Definition s_empty (s : Series) : bool :=
  match s_items s with [] => true | _ => false end.

Fixpoint position (name : string) (cols : list (string * dtype)) : option (nat * dtype) :=
  match cols with
  | [] => None
  | (c, d) :: r =>
      if String.eqb c name then Some (0%nat, d)
      else match position name r with
           | Some (i, d') => Some (S i, d')
           | None => None
           end
  end.

Definition cell_at (i : nat) (r : Row) : Cell := nth i (snd r) PyNone.

(** [df[name]] *)
Definition getitem (df : DataFrame) (name : string) : Result Series :=
  match position name (columns df) with
  | Some (i, d) =>
      Ok {| s_dtype := d; s_items := map (fun r => (fst r, cell_at i r)) (rows df) |}
  | None => Err (KeyError name)
  end.

(** [series.dropna()] *)
Definition dropna (s : Series) : Series :=
  {| s_dtype := s_dtype s;
     s_items := filter (fun it => notna (snd it)) (s_items s) |}.

(** [series.to_numpy()], [series.values] *)
Definition to_numpy (s : Series) : list Cell := map snd (s_items s).

(** [series.index] *)
Definition index (s : Series) : list nat := map fst (s_items s).

(** Equality of hashed values, as [isin] uses it: NaN matches NaN. *)
Definition cell_eqb (a b : Cell) : bool :=
  match a, b with
  | Flt NaN, Flt NaN => true
  | Flt x, Flt y => feq x y
  | Str s, Str t => String.eqb s t
  | PyNone, PyNone => true
  | _, _ => false
  end.

Definition cell_in (c : Cell) (values : list Cell) : bool :=
  existsb (cell_eqb c) values.

(** [series.isin(values)]: a boolean mask, one entry per row. *)
Definition isin (s : Series) (values : list Cell) : list bool :=
  map (fun it => cell_in (snd it) values) (s_items s).

(** Keep the elements whose mask entry is [True]. *)
Fixpoint select {A} (mask : list bool) (l : list A) : list A :=
  match mask, l with
  | b :: m, x :: r => if b then x :: select m r else select m r
  | _, _ => []
  end.

(** [df[mask]] *)
Definition getitem_mask (df : DataFrame) (mask : list bool) : DataFrame :=
  {| columns := columns df; rows := select mask (rows df) |}.

(** [df.loc[mask, name]] *)
Definition loc_mask (df : DataFrame) (mask : list bool) (name : string) : Result Series :=
  getitem (getitem_mask df mask) name.

(** [df.loc[labels, name]]: per label, the rows carrying it. *)
Definition loc_labels (df : DataFrame) (labels : list nat) (name : string) : Result Series :=
  getitem
    {| columns := columns df;
       rows := flat_map (fun l => filter (fun r => Nat.eqb (fst r) l) (rows df)) labels |}
    name.

Fixpoint positions (names : list string) (cols : list (string * dtype))
  : Result (list (nat * (string * dtype))) :=
  match names with
  | [] => Ok []
  | n :: r =>
      match position n cols with
      | Some (i, d) => ps <- positions r cols ;; Ok ((i, (n, d)) :: ps)
      | None => Err (KeyError n)
      end
  end.

(** [df[[name1; name2; ...]]] *)
Definition getitem_list (df : DataFrame) (names : list string) : Result DataFrame :=
  ps <- positions names (columns df) ;;
  Ok {| columns := map snd ps;
        rows := map (fun r => (fst r, map (fun p => cell_at (fst p) r) ps)) (rows df) |}.

(** [df.dropna()]: rows with a missing cell are dropped. *)
Definition row_complete (r : Row) : bool := forallb notna (snd r).

Definition dropna_frame (df : DataFrame) : DataFrame :=
  {| columns := columns df; rows := filter row_complete (rows df) |}.

(** [int(s)] for the [int64] cast of a string. *)
Definition int_literal (s : string) : option Z :=
  let '(neg, r) := take_sign (list_ascii_of_string (strip s)) in
  match digitpart r with
  | Some (v, _, []) => Some (if neg then (- v)%Z else v)
  | _ => None
  end.

(** The cast of one selected category to the type of the column. *)
Definition astype_cell (d : dtype) (s : string) : Result Cell :=
  match d with
  | object_ => Ok (Str s)
  | float64 =>
      match float s with
      | Some x => Ok (Flt x)
      | None => Err (ExternalError ("could not convert string to float: " ++ repr s))
      end
  | int64 =>
      match int_literal s with
      | Some z =>
          if ((- 2 ^ 63 <=? z) && (z <? 2 ^ 63))%Z then Ok (Flt (Fin (inject_Z z)))
          else Err (ExternalError "OverflowError: Python int too large to convert to C long")
      | None => Err (ExternalError ("invalid literal for int() with base 10: " ++ repr s))
      end
  end.

(** [pd.Series(values).astype(d)] for a list of strings. *)
Fixpoint astype (values : list string) (d : dtype) : Result (list Cell) :=
  match values with
  | [] => Ok []
  | v :: r => c <- astype_cell d v ;; cs <- astype r d ;; Ok (c :: cs)
  end.

(** Insertion of a row by the value of column [i]; NaN keys go last, as
    [sort_values] places them. *)
Definition key_le (a b : Cell) : bool :=
  match a, b with
  | Flt x, Flt y => fle x y || is_nan y
  | Str s, Str t => match String.compare s t with Gt => false | _ => true end
  | _, _ => isna b
  end.

Fixpoint insert_row (i : nat) (r : Row) (l : list Row) : list Row :=
  match l with
  | [] => [r]
  | h :: t =>
      if key_le (cell_at i r) (cell_at i h) then r :: l
      else h :: insert_row i r t
  end.

Fixpoint sort_rows (i : nat) (l : list Row) : list Row :=
  match l with
  | [] => []
  | h :: t => insert_row i h (sort_rows i t)
  end.

(** [df.sort_values(name)], ascending. *)
Definition sort_values (df : DataFrame) (name : string) : Result DataFrame :=
  match position name (columns df) with
  | Some (i, _) => Ok {| columns := columns df; rows := sort_rows i (rows df) |}
  | None => Err (KeyError name)
  end.

(** [df.reset_index(drop=True)]: labels 0, 1, 2, ... *)
Definition reset_index (df : DataFrame) : DataFrame :=
  {| columns := columns df;
     rows := combine (seq 0 (length (rows df))) (map snd (rows df)) |}.

(** [series.min()] and [series.max()], missing cells skipped; NaN when
    nothing is left. *)
Definition s_min (s : Series) : Cell :=
  fold_left (fun m c => if isna m then c else if key_le m c then m else c)
            (to_numpy (dropna s)) (Flt NaN).

Definition s_max (s : Series) : Cell :=
  fold_left (fun m c => if isna m then c else if key_le m c then c else m)
            (to_numpy (dropna s)) (Flt NaN).

(** [pd.DataFrame({name: values})] *)
Definition frame_of_array (name : string) (values : list pyfloat) : DataFrame :=
  {| columns := [(name, float64)];
     rows := combine (seq 0 (length values)) (map (fun v => [Flt v]) values) |}.

(** *** Rounding *)

(** [power_of_ten(n)] of numpy: 1.0 multiplied [n] times by 10.0. *)
Fixpoint power_of_ten (n : nat) : pyfloat :=
  match n with
  | O => f1
  | S k => fmul (power_of_ten k) (of_Z 10)
  end.

(** [numpy.round(x, decimals)] on a float: multiply by the power of ten,
    round to the nearest integer, divide; divide and multiply for negative
    [decimals]; the nearest integer for no decimal.  Each step is a
    binary64 operation. *)
Definition round_float (decimals : Z) (x : pyfloat) : pyfloat :=
  let f := power_of_ten (Z.abs_nat decimals) in
  if (decimals =? 0)%Z then frint x
  else if (0 <? decimals)%Z then fdiv (frint (fmul x f)) f
  else fmul (frint (fdiv x f)) f.

Definition round_cell (decimals : Z) (c : Cell) : Cell :=
  match c with
  | Flt x => Flt (round_float decimals x)
  | _ => c
  end.

(** Round the cells of the columns selected by [sel], leave the others. *)
Fixpoint round_row (sel : list bool) (decimals : Z) (cells : list Cell) {struct cells}
  : list Cell :=
  match cells with
  | [] => []
  | c :: cs =>
      match sel with
      | b :: bs => (if b then round_cell decimals c else c) :: round_row bs decimals cs
      | [] => c :: cs
      end
  end.

Definition round_where (sel : string * dtype -> bool) (decimals : Z) (df : DataFrame)
  : DataFrame :=
  {| columns := columns df;
     rows := map (fun r => (fst r, round_row (map sel (columns df)) decimals (snd r)))
                 (rows df) |}.

(** The columns that [round] changes: the float columns, and the integer
    columns when [decimals] is negative (an integer array comes back as it
    is when it is not). *)
Definition rounds_dtype (decimals : Z) (d : dtype) : bool :=
  match d with
  | float64 => true
  | int64 => (decimals <? 0)%Z
  | object_ => false
  end.

(** [df.round(decimals)]: every numeric column. *)
Definition round (df : DataFrame) (decimals : Z) : DataFrame :=
  round_where (fun c => rounds_dtype decimals (snd c)) decimals df.

End Pd.
Import Pd.

(** ** numpy *)

Module Np.

(** [y[-1] = stop] *)
Definition set_last (y : list pyfloat) (stop : pyfloat) : list pyfloat :=
  match y with
  | [] => []
  | _ => removelast y ++ [stop]
  end.

(** [np.linspace(start, stop, num)] with the end point included. *)
Definition linspace (start stop : pyfloat) (num : nat) : list pyfloat :=
  let div := (num - 1)%nat in
  let delta := fsub stop start in
  let y := map (fun i => of_Z (Z.of_nat i)) (seq 0 num) in
  let y :=
    if (0 <? div)%nat then
      let step := fdiv delta (of_Z (Z.of_nat div)) in
      if feq step f0 then
        map (fun v => fmul (fdiv v (of_Z (Z.of_nat div))) delta) y
      else map (fun v => fmul v step) y
    else map (fun v => fmul v delta) y in
  let y := map (fun v => fadd v start) y in
  if (1 <? num)%nat then set_last y stop else y.

End Np.

(** ** The session state ([state/app_state.py]) *)

Definition DEFAULT_DISPLAY_PRECISION : Z := 4.

Record AppState := {
  df : option DataFrame;
  filtered_df : option DataFrame;
  numeric_cols : list string;
  categorical_cols : list string;
  display_precision : Z
}.

Definition AppState_init : AppState :=
  {| df := None; filtered_df := None; numeric_cols := []; categorical_cols := [];
     display_precision := DEFAULT_DISPLAY_PRECISION |}.

(** ** statsmodels, as the regression code calls it

    The fit and the prediction tables are computed by [statsmodels]; the
    embedding takes them as an interface. *)

Class Statsmodels := {
  Model : Type;
  (** [sm.add_constant(X)] *)
  add_constant : DataFrame -> DataFrame;
  (** [smf.ols(data=data, formula=text).fit()] *)
  ols_formula_fit : DataFrame -> string -> Result Model;
  (** [sm.OLS(y, X).fit()] *)
  OLS_fit : Series -> DataFrame -> Result Model;
  (** [model.summary2(alpha=alpha).as_html()] *)
  summary2_html : Model -> pyfloat -> string;
  (** [model.summary2(alpha=alpha).tables[1]], index reset and renamed *)
  summary2_params : Model -> pyfloat -> DataFrame;
  (** [model.get_prediction(X).summary_frame(alpha=alpha)] *)
  get_prediction : Model -> option DataFrame -> pyfloat -> Result DataFrame;
  (** [getattr(model, "rsquared", None)] *)
  rsquared : Model -> option pyfloat
}.

(** What a figure shows: the arguments of the drawing commands. *)
Record SimpleRegressionPlot := {
  x_plot : list Cell;
  pred_table : DataFrame;
  ci_band : bool;
  pi_band : bool;
  extrapolation : option ((Cell * Cell) * (Cell * Cell));
  title : string;
  r2_label : option pyfloat
}.

Inductive Figure :=
| SimpleRegressionFigure (p : SimpleRegressionPlot)
| ObservedVsPredictedFigure (y_true : Series) (pred : DataFrame) (r2 : option pyfloat).

(** ** [core/linear_regression.py] *)

Module Core.
Section LinearRegression.
Context {SM : Statsmodels}.

(** The block "Prepare prediction input" of [plot_simple_regression]:
    the abscissae of the plot and the frame given to the model. *)
Definition prediction_input (data : DataFrame) (x y : string) (fit_to_obs : bool)
           (x_vector : option (list pyfloat)) : Result (list Cell * DataFrame) :=
  if fit_to_obs then
    xy <- getitem_list data [x; y] ;;
    sorted <- sort_values (dropna_frame xy) x ;;
    let work := reset_index sorted in
    wx <- getitem work x ;;
    X_pred <- getitem_list work [x] ;;
    Ok (to_numpy wx, X_pred)
  else
    match x_vector with
    | None => raise (ValueError "x_vector must be provided when 'fit_to_obs' is False.")
    | Some x_arr => Ok (map Flt x_arr, frame_of_array x x_arr)
    end.

Definition plot_simple_regression (data : DataFrame) (x y : string) (intercept : bool)
           (use_formula : bool) (formula_latex : string) (model : Model)
           (alpha : pyfloat) (show_ci show_pi : bool) (fit_to_obs : bool)
           (x_vector : option (list pyfloat)) : Result Figure :=
  inp <- prediction_input data x y fit_to_obs x_vector ;;
  let '(x_plot, X_pred) := inp in
  (* Add intercept if needed (only relevant for non-formula fits) *)
  let X_pred := if negb use_formula && intercept then add_constant X_pred else X_pred in
  pred_table <- get_prediction model (Some X_pred) alpha ;;
  (* Highlight extrapolation region when using x_vector *)
  spans <-
    (if negb fit_to_obs then
       dx <- getitem data x ;;
       match x_plot with
       | [] => raise IndexError
       | first :: _ => Ok (Some ((first, s_min dx), (s_max dx, last x_plot first)))
       end
     else Ok None) ;;
  let title :=
    if use_formula && negb (str_falsy formula_latex)
    then "Linear Regression: $" ++ formula_latex ++ "$"
    else "Linear Regression: " ++ y ++ " ~ " ++ x in
  Ok (SimpleRegressionFigure
        {| x_plot := x_plot; pred_table := pred_table;
           ci_band := show_ci; pi_band := show_pi;
           extrapolation := spans; title := title;
           r2_label := rsquared model |}).

Definition plot_observed_vs_predicted (data : DataFrame) (y : string) (model : Model)
           (alpha : pyfloat) : Result Figure :=
  pred_table <- get_prediction model None alpha ;;
  y_true <- getitem data y ;;
  Ok (ObservedVsPredictedFigure y_true pred_table (rsquared model)).

(** The keyword arguments of [run_linear_regression]. *)
Record Args := {
  a_df : option DataFrame;
  formula_check : bool;
  formula_text : string;
  formula_latex : string;
  dependent_var : string;
  independent_vars : list string;
  alpha : pyfloat;
  intercept : bool;
  create_graph : bool;
  graph_type : string;
  show_ci : bool;
  show_pi : bool;
  fit_to_obs : bool;
  x_vector : option (list pyfloat)
}.

(** The first selected column that the frame does not have. *)
Definition first_missing (d : DataFrame) (cols : list string) : option string :=
  find (fun c => negb (has_column c d)) cols.

(** The block "Fit model": the fitted model and [use_formula]. *)
Definition fit_model (a : Args) (data : DataFrame) (y : Series) (X : DataFrame)
  : Result (Model * bool) :=
  if formula_check a then
    (* When using a formula, the intercept is fully controlled by the formula. *)
    raise_if (str_falsy (formula_text a))
             "Formula is enabled but no formula text was provided." ;;;
    model <- ols_formula_fit data (formula_text a) ;;
    Ok (model, true)
  else
    let X := if intercept a then add_constant X else X in
    model <- OLS_fit y X ;;
    Ok (model, false).

Definition run_linear_regression (a : Args)
  : Result (string * DataFrame * option Figure) :=
  match a_df a with
  | None => raise (ValueError "No dataset loaded.")
  | Some d =>
  raise_if (empty d) "No dataset loaded." ;;;
  raise_if (negb (has_column (dependent_var a) d))
           "Invalid dependent variable selection." ;;;
  match first_missing d (independent_vars a) with
  | Some col => raise (ValueError ("Invalid independent variable: " ++ repr col))
  | None =>
  raise_if (length (independent_vars a) =? 0)%nat
           "At least one independent variable is required." ;;;
  (* Drop rows with missing values in the relevant columns *)
  let cols := dependent_var a :: independent_vars a in
  sub <- getitem_list d cols ;;
  let data := dropna_frame sub in
  raise_if (empty data) "No valid rows remaining after dropping missing values." ;;;
  y <- getitem data (dependent_var a) ;;
  X <- getitem_list data (independent_vars a) ;;
  fitted <- fit_model a data y X ;;
  let '(model, use_formula) := fitted in
  (* Build summary objects *)
  let summary_html := summary2_html model (alpha a) in
  let params_table := summary2_params model (alpha a) in
  fig <-
    (if create_graph a then
       if String.eqb (graph_type a) "Simple Regression" then
         match independent_vars a with
         | [x_col] =>
             f <- plot_simple_regression data x_col (dependent_var a) (intercept a)
                    use_formula (formula_latex a) model (alpha a)
                    (show_ci a) (show_pi a) (fit_to_obs a) (x_vector a) ;;
             Ok (Some f)
         | _ =>
             raise (ValueError
               "Simple Regression graph is only available with exactly one independent variable.")
         end
       else if String.eqb (graph_type a) "Observed vs Predicted" then
         f <- plot_observed_vs_predicted data (dependent_var a) model (alpha a) ;;
         Ok (Some f)
       else raise (ValueError ("Unknown graph type: " ++ repr (graph_type a)))
     else Ok None) ;;
  Ok (summary_html, params_table, fig)
  end
  end.

End LinearRegression.
End Core.

(** ** [controllers/linear_regression_controller.py] *)

Module RegressionController.
Section Controller.
Context {SM : Statsmodels}.

(** Use the filtered dataframe if it is non-empty; otherwise fall back to
    the original dataframe. *)
Definition _select_working_dataframe (df filtered_df : option DataFrame)
  : Result DataFrame :=
  match df with
  | None => raise (ValueError "No dataset loaded.")
  | Some d =>
      match filtered_df with
      | Some f => if negb (empty f) then Ok f
                  else if empty d then raise (ValueError "The dataset is empty.")
                  else Ok d
      | None => if empty d then raise (ValueError "The dataset is empty.")
                else Ok d
      end
  end.

(** Parse a confidence level like '0.95' into the significance level. *)
Definition _parse_confidence_level (text : string) : Result pyfloat :=
  let s := strip text in
  if str_falsy s then raise (ValueError "Confidence level is required (e.g. 0.95).")
  else
    match float s with
    | None => raise (ValueError "Confidence level must be a numeric value between 0 and 1.")
    | Some level =>
        if negb (flt f0 level && flt level f1)
        then raise (ValueError "Confidence level must be between 0 and 1 (e.g. 0.95).")
        else
          (* statsmodels expects alpha, not the confidence level itself *)
          Ok (fsub f1 level)
    end.

(** Parse a range string like '0, 10' into the abscissae of the
    predictions; [None] for a blank string. *)
Definition _parse_range (text : string) : Result (option (list pyfloat)) :=
  let s := strip text in
  if str_falsy s then Ok None
  else
    match split "," s with
    | [p0; p1] =>
        match float (strip p0), float (strip p1) with
        | Some lo, Some hi =>
            if fge lo hi
            then raise (ValueError "Range minimum must be strictly less than the maximum.")
            else Ok (Some (Np.linspace lo hi 100))
        | _, _ => raise (ValueError "Range values must be numeric (e.g. '0, 10').")
        end
    | _ => raise (ValueError "Range must have the form 'min, max'.")
    end.

(** The keyword arguments of the controller. *)
Record Request := {
  state : AppState;
  r_df : option DataFrame;
  r_filtered_df : option DataFrame;
  formula_check : bool;
  formula_text : string;
  formula_latex : string;
  dependent_var : option string;
  independent_vars : list string;
  alpha_input : string;
  intercept : bool;
  graph_check : bool;
  graph_type : string;
  show_ci : bool;
  show_pi : bool;
  fit_to_obs : bool;
  x_range_text : string
}.

(** [graph_check and graph_type == "Simple Regression"] *)
Definition wants_simple_plot (r : Request) : bool :=
  graph_check r && String.eqb (graph_type r) "Simple Regression".

(** The arguments the controller hands to the core. *)
Definition core_args (r : Request) (working_df : DataFrame) (dep : string)
           (alpha : pyfloat) (x_vector : option (list pyfloat)) : Core.Args :=
  {| Core.a_df := Some working_df;
     Core.formula_check := formula_check r;
     Core.formula_text := formula_text r;
     Core.formula_latex := formula_latex r;
     Core.dependent_var := dep;
     Core.independent_vars := independent_vars r;
     Core.alpha := alpha;
     Core.intercept := intercept r;
     Core.create_graph := graph_check r;
     Core.graph_type := graph_type r;
     Core.show_ci := show_ci r;
     Core.show_pi := show_pi r;
     Core.fit_to_obs := fit_to_obs r;
     Core.x_vector := x_vector |}.

Definition run_linear_regression (r : Request)
  : Result (string * DataFrame * option Figure) :=
  working_df <- _select_working_dataframe (r_df r) (r_filtered_df r) ;;
  match dependent_var r with
  | None => raise (ValueError "Please select a dependent variable.")
  | Some dep =>
  raise_if (str_falsy dep) "Please select a dependent variable." ;;;
  raise_if (length (independent_vars r) =? 0)%nat
           "Please select at least one independent variable." ;;;
  (* For the "Simple Regression" graph we require exactly one independent variable. *)
  raise_if (wants_simple_plot r && negb (length (independent_vars r) =? 1)%nat)
           "The 'Simple Regression' graph is only available when exactly one independent variable is selected." ;;;
  (* Parse confidence level *)
  alpha <- _parse_confidence_level (alpha_input r) ;;
  (* Parse X range only when needed: Simple Regression + graph + not fit_to_obs *)
  x_vector <-
    (if wants_simple_plot r && negb (fit_to_obs r)
     then _parse_range (x_range_text r)
     else Ok None) ;;
  res <- Core.run_linear_regression (core_args r working_df dep alpha x_vector) ;;
  let '(summary_html, params_df, fig) := res in
  (* Rounding happens here, not in the stats layer. *)
  let params_df_rounded := round params_df (display_precision (state r)) in
  Ok (summary_html, params_df_rounded, fig)
  end.

End Controller.
End RegressionController.

(** ** [core/hypothesis_tests.py], as the dispatcher calls it

    The four test routines; a table and, when asked for, a figure.  A
    routine is a function of the arrays and frames it is given: these are
    built by the dispatcher for the call, the routine does not see the
    dataframe object. *)

Class HypothesisTests := {
  TestFigure : Type;
  one_sample_ttest :
    forall (sample : list Cell) (mu0 : pyfloat) (alternative numeric_col : string)
           (bootstrap_samples : Z) (include_graph : bool),
      Result (option DataFrame * option TestFigure);
  two_sample_ttest :
    forall (group1 group2 : list Cell) (numeric_col name_group1 name_group2 : string)
           (alternative : string) (correction : bool) (plot_type : string)
           (bootstrap_samples : Z) (include_graph : bool),
      Result (option DataFrame * option TestFigure);
  variance_test :
    forall (group1 group2 : list Cell) (name_group1 name_group2 test_type : string)
           (include_graph : bool) (bootstrap_samples : Z),
      Result (option DataFrame * option TestFigure);
  one_way_anova :
    forall (data_group : DataFrame) (numeric_col cat_col : string),
      Result (option DataFrame * option TestFigure)
}.

(** The distinct values of a list of cells, in order of first occurrence. *)
Fixpoint distinct (l : list Cell) : list Cell :=
  match l with
  | [] => []
  | c :: r => c :: filter (fun d => negb (cell_eqb c d)) (distinct r)
  end.

(** The groups of an ANOVA frame: the distinct values of its categorical
    column.  Every one of them labels a row at least. *)
Definition groups (data_group : DataFrame) (cat_col : string) : list Cell :=
  match getitem data_group cat_col with
  | Ok s => distinct (to_numpy s)
  | Err _ => []
  end.

(** Modelled from the spec: the validation of [one_way_anova], of the
    missing [core/hypothesis_tests.py].  Section 4.4: the one-way ANOVA
    "fails with InsufficientGroups if fewer than two distinct non-empty
    groups remain".  The computation that follows it is [anova]. *)
Definition spec_one_way_anova {F : Type}
           (anova : DataFrame -> string -> string -> Result (option DataFrame * option F))
           (data_group : DataFrame) (numeric_col cat_col : string)
  : Result (option DataFrame * option F) :=
  if (length (groups data_group cat_col) <? 2)%nat
  then Err (SpecError InsufficientGroups)
  else anova data_group numeric_col cat_col.

(** The routines of [H] with the validation of the spec before its ANOVA. *)
Definition with_spec_anova (H : HypothesisTests) : HypothesisTests :=
  {| TestFigure := @TestFigure H;
     one_sample_ttest := @one_sample_ttest H;
     two_sample_ttest := @two_sample_ttest H;
     variance_test := @variance_test H;
     one_way_anova := spec_one_way_anova (@one_way_anova H) |}.

(** ** [controllers/hypothesis_controller.py] *)

Module HypothesisController.
Section Controller.
Context {H : HypothesisTests}.

(** A call of a test routine, with its arguments. *)
Inductive Call :=
| OneSampleTTest (sample : list Cell) (mu0 : pyfloat) (alternative numeric_col : string)
                 (bootstrap_samples : Z) (include_graph : bool)
| TwoSampleTTest (group1 group2 : list Cell) (numeric_col name_group1 name_group2 : string)
                 (alternative : string) (correction : bool) (plot_type : string)
                 (bootstrap_samples : Z) (include_graph : bool)
| VarianceTest (group1 group2 : list Cell) (name_group1 name_group2 test_type : string)
               (include_graph : bool) (bootstrap_samples : Z)
| OneWayAnova (data_group : DataFrame) (numeric_col cat_col : string).

Definition perform (c : Call) : Result (option DataFrame * option TestFigure) :=
  match c with
  | OneSampleTTest s m a n b g => one_sample_ttest s m a n b g
  | TwoSampleTTest g1 g2 n n1 n2 a c p b g => two_sample_ttest g1 g2 n n1 n2 a c p b g
  | VarianceTest g1 g2 n1 n2 t g b => variance_test g1 g2 n1 n2 t g b
  | OneWayAnova d n c => one_way_anova d n c
  end.

(** The world the dispatcher runs in: the dataframe objects by address,
    the address its [df] argument holds ([None] for [df is None]), and the
    calls of test routines made so far. *)
Record World := {
  w_heap : list DataFrame;
  w_arg : option nat;
  w_calls : list Call
}.

(** The dataframe object the [df] argument refers to. *)
Definition w_df (w : World) : option DataFrame :=
  match w_arg w with
  | Some a => nth_error (w_heap w) a
  | None => None
  end.

Definition M (A : Type) : Type := World -> Result A * World.

Definition ret {A} (a : A) : M A := fun w => (Ok a, w).

Definition bindM {A B} (m : M A) (k : A -> M B) : M B :=
  fun w => match m w with
           | (Ok a, w') => k a w'
           | (Err e, w') => (Err e, w')
           end.

Definition throw {A} (msg : string) : M A := fun w => (Err (ValueError msg), w).

Definition lift {A} (r : Result A) : M A := fun w => (r, w).

(** Read the dataframe object. *)
Definition read_df : M (option DataFrame) := fun w => (Ok (w_df w), w).

(** Call a test routine. *)
Definition call (c : Call) : M (option DataFrame * option TestFigure) :=
  fun w => (perform c,
            {| w_heap := w_heap w; w_arg := w_arg w; w_calls := w_calls w ++ [c] |}).

(** [table.copy()]: a new object, at a new address. *)
Definition copy (t : DataFrame) : M nat :=
  fun w => (Ok (length (w_heap w)),
            {| w_heap := w_heap w ++ [t]; w_arg := w_arg w; w_calls := w_calls w |}).

(** The object at an address. *)
Definition load (a : nat) : M DataFrame :=
  fun w => match nth_error (w_heap w) a with
           | Some t => (Ok t, w)
           | None => (Err IndexError, w)
           end.

Fixpoint set_nth {A} (n : nat) (x : A) (l : list A) : list A :=
  match l, n with
  | [], _ => []
  | _ :: t, O => x :: t
  | h :: t, S k => h :: set_nth k x t
  end.

(** An assignment into the object at an address. *)
Definition store (a : nat) (t : DataFrame) : M unit :=
  fun w => (Ok tt,
            {| w_heap := set_nth a t (w_heap w); w_arg := w_arg w;
               w_calls := w_calls w |}).

Notation "x <~ c ;; k" := (bindM c (fun x => k))
  (at level 61, c at next level, right associativity).

(** [tbl.select_dtypes(include="number").columns] *)
Definition number_columns (tbl : DataFrame) : list string :=
  map fst (filter (fun c => is_numeric_dtype (snd c)) (columns tbl)).

(** A label that stands twice in a list. *)
Fixpoint has_duplicate (l : list string) : bool :=
  match l with
  | [] => false
  | x :: r => str_in x r || has_duplicate r
  end.

(** [tbl[num_cols] = tbl[num_cols].round(decimals)], on the object at
    [tbl].  With a label carried by two numeric columns the selection has
    more columns than the key has labels, and pandas raises. *)
Definition setitem_rounded (tbl : nat) (num_cols : list string) (decimals : Z) : M unit :=
  cur <~ load tbl ;;
  _ <~ lift (raise_if (has_duplicate num_cols) "Columns must be same length as key") ;;
  store tbl (round cur decimals).

(** Round only numeric columns of the result table. *)
Definition _round_table (table : option DataFrame) (decimals : Z) : M (option DataFrame) :=
  match table with
  | None => ret None
  | Some t =>
      tbl <~ copy t ;;
      cur <~ load tbl ;;
      let num_cols := number_columns cur in
      _ <~ (if (0 <? length num_cols)%nat
            then setitem_rounded tbl num_cols decimals
            else ret tt) ;;
      out <~ load tbl ;;
      ret (Some out)
  end.

Definition _ensure_numeric_series (df : option DataFrame) (column : string)
  : Result (list Cell) :=
  match df with
  | None => raise (ValueError "No dataset loaded.")
  | Some d =>
      raise_if (negb (has_column column d))
               ("Column '" ++ column ++ "' not found in the dataset.") ;;;
      col <- getitem d column ;;
      let series := dropna col in
      raise_if (s_empty series) "No valid data in the selected column." ;;;
      Ok (to_numpy series)
  end.

Definition _materialize_group (d : DataFrame) (numeric_col : string)
           (cat_col : option string) (cat_vals : option (list string))
  : Result (list Cell) :=
  match cat_col with
  | None => raise (ValueError "No categorical column selected.")
  | Some cat =>
      raise_if (negb (has_column cat d))
               ("Categorical column '" ++ cat ++ "' not found in the dataset.") ;;;
      (* Cast selected values to the actual dtype of the column *)
      let values := match cat_vals with None => [] | Some vs => vs end in
      raise_if (length values =? 0)%nat
               ("No categories selected for column '" ++ cat ++ "'.") ;;;
      cats <- getitem d cat ;;
      cat_series <- astype values (s_dtype cats) ;;
      let mask := isin cats cat_series in
      picked <- loc_mask d mask numeric_col ;;
      let series := dropna picked in
      raise_if (s_empty series) "One or more groups are empty after filtering." ;;;
      Ok (to_numpy series)
  end.

(** The keyword arguments of the dispatcher; [df] is in the world. *)
Record Request := {
  state : AppState;
  numeric_col : string;
  hypo_test : string;
  mu0_text : string;
  alternative : string;
  include_graph : bool;
  bootstrap_samples : Z;
  cat_col1 : option string;
  cat_vals1 : option (list string);
  name_group1 : string;
  cat_col2 : option string;
  cat_vals2 : option (list string);
  name_group2 : string;
  cat_col3 : option string;
  cat_vals3 : option (list string);
  plot_type : string;
  correction : bool;
  test_type : string
}.

(** [name or default] *)
Definition or_default (name default : string) : string :=
  if str_falsy name then default else name.

(** [table = _round_table(table, state.display_precision); return table, fig] *)
Definition finish (r : Request) (res : option DataFrame * option TestFigure)
  : M (option DataFrame * option TestFigure) :=
  table <~ _round_table (fst res) (display_precision (state r)) ;;
  ret (table, snd res).

Definition run_hypothesis_testing (r : Request)
  : M (option DataFrame * option TestFigure) :=
  df <~ read_df ;;
  match df with
  | None => throw "No dataset loaded."
  | Some d =>
  (* Common numeric data check *)
  _ <~ lift (_ensure_numeric_series df (numeric_col r)) ;;
  if String.eqb (hypo_test r) "One sample Student's t-test" then
    _ <~ lift (raise_if (str_falsy (strip (mu0_text r)))
                 "μ₀ must be specified for the one-sample t-test.") ;;
    match float (mu0_text r) with
    | None => throw "μ₀ must be a numeric value."
    | Some mu0 =>
        col <~ lift (getitem d (numeric_col r)) ;;
        let sample := to_numpy (dropna col) in
        res <~ call (OneSampleTTest sample mu0 (alternative r) (numeric_col r)
                       (bootstrap_samples r) (include_graph r)) ;;
        finish r res
    end
  else if String.eqb (hypo_test r) "Two samples Student's t-test" then
    group1 <~ lift (_materialize_group d (numeric_col r) (cat_col1 r) (cat_vals1 r)) ;;
    group2 <~ lift (_materialize_group d (numeric_col r) (cat_col2 r) (cat_vals2 r)) ;;
    (* If names are empty, fall back to defaults *)
    let name1 := or_default (name_group1 r) "Group 1" in
    let name2 := or_default (name_group2 r) "Group 2" in
    res <~ call (TwoSampleTTest group1 group2 (numeric_col r) name1 name2
                   (alternative r) (correction r) (plot_type r)
                   (bootstrap_samples r) (include_graph r)) ;;
    finish r res
  else if String.eqb (hypo_test r) "Equal variance between two groups" then
    group1 <~ lift (_materialize_group d (numeric_col r) (cat_col1 r) (cat_vals1 r)) ;;
    group2 <~ lift (_materialize_group d (numeric_col r) (cat_col2 r) (cat_vals2 r)) ;;
    let name1 := or_default (name_group1 r) "Group 1" in
    let name2 := or_default (name_group2 r) "Group 2" in
    res <~ call (VarianceTest group1 group2 name1 name2 (test_type r)
                   (include_graph r) (bootstrap_samples r)) ;;
    finish r res
  else if String.eqb (hypo_test r) "One-way ANOVA" then
    match cat_col3 r with
    | None => throw "A categorical column must be selected for ANOVA."
    | Some cat =>
        _ <~ lift (raise_if (negb (has_column cat d))
                     ("Categorical column '" ++ cat ++ "' not found in the dataset.")) ;;
        let vals := match cat_vals3 r with None => [] | Some vs => vs end in
        _ <~ lift (raise_if (length vals =? 0)%nat
                     "At least one category must be selected for ANOVA.") ;;
        cats <~ lift (getitem d cat) ;;
        cat_series <~ lift (astype vals (s_dtype cats)) ;;
        sub <~ lift (getitem_list (getitem_mask d (isin cats cat_series))
                       [numeric_col r; cat]) ;;
        let data_group := dropna_frame sub in
        res <~ call (OneWayAnova data_group (numeric_col r) cat) ;;
        finish r res
    end
  else throw ("Unknown hypothesis test: " ++ hypo_test r)
  end.

End Controller.
End HypothesisController.

(** ** [core/estimation/descriptive.py], as the controller calls it *)

Class DescriptiveEngine := {
  compute_descriptive_statistics :
    forall (data : list Cell) (quantile_probs : list pyfloat)
           (trim_alpha : option pyfloat) (winsor_limits : option (pyfloat * pyfloat))
           (weights : option (list Cell)),
      Result DataFrame
}.

(** ** [controllers/estimation/descriptive_controller.py] *)

Module DescriptiveController.
Section Controller.
Context {E : DescriptiveEngine}.

Record Request := {
  state : AppState;
  r_df : option DataFrame;
  column : string;
  quantile_probs : list pyfloat;
  trim_alpha : option pyfloat;
  winsor_limits : option (pyfloat * pyfloat);
  weights_col : option string
}.

(** [(weights < 0).any()] *)
Definition any_negative (weights : Series) : bool :=
  existsb (fun c => match c with Flt x => flt x f0 | _ => false end)
          (to_numpy weights).

(** The two columns the controller rounds. *)
Definition rounded_columns : list string := ["Value"; "Bias Corrected"].

(** [stats_df[cols] = stats_df[cols].round(decimals)] *)
Definition round_columns (stats_df : DataFrame) (cols : list string) (decimals : Z)
  : Result DataFrame :=
  _ <- getitem_list stats_df cols ;;
  Ok (round_where (fun c => str_in (fst c) cols && rounds_dtype decimals (snd c))
                  decimals stats_df).

(** The block of [run_descriptive_statistics] that reads the weights. *)
Definition read_weights (d : DataFrame) (series : Series) (weights_col : option string)
  : Result (option Series) :=
  match weights_col with
  | None => Ok None
  | Some w =>
      if str_falsy w then Ok None
      else
        raise_if (negb (has_column w d)) ("Weights column '" ++ w ++ "' not found.") ;;;
        weights <- loc_labels d (index series) w ;;
        raise_if (negb (is_numeric_dtype (s_dtype weights))) "Weights must be numeric." ;;;
        raise_if (any_negative weights) "Weights must be non-negative." ;;;
        Ok (Some weights)
  end.

Definition run_descriptive_statistics (r : Request) : Result DataFrame :=
  match r_df r with
  | None => raise (ValueError "No dataset loaded.")
  | Some d =>
      raise_if (negb (has_column (column r) d))
               ("Column '" ++ column r ++ "' not found.") ;;;
      col <- getitem d (column r) ;;
      let series := dropna col in
      raise_if (s_empty series) "Selected column has no valid data." ;;;
      raise_if (negb (is_numeric_dtype (s_dtype series)))
               "Selected column must be numeric." ;;;
      weights <- read_weights d series (weights_col r) ;;
      stats_df <- compute_descriptive_statistics
                    (to_numpy series) (quantile_probs r) (trim_alpha r)
                    (winsor_limits r) (option_map to_numpy weights) ;;
      round_columns stats_df rounded_columns (display_precision (state r))
  end.

End Controller.
End DescriptiveController.

(** ** [tests/test_no_tabular_rounding_in_core.py] *)

Module RoundingTest.

(** The regular expressions of the test are sequences of these atoms. *)
Inductive atom :=
| WordBoundary            (* \b *)
| Lit (c : ascii)         (* a literal character *)
| SpaceStar.              (* \s* *)

Definition lits (s : string) : list atom := map Lit (list_ascii_of_string s).

(** [\w] *)
Definition is_word (c : ascii) : bool :=
  let n := nat_of_ascii c in
  ((48 <=? n) && (n <=? 57) || (65 <=? n) && (n <=? 90)
   || (97 <=? n) && (n <=? 122) || (n =? 95))%nat.

Definition word_opt (c : option ascii) : bool :=
  match c with Some a => is_word a | None => false end.

(** Match the pattern at the head of [s]; [prev] is the character before.
    Returns the matched text. *)
Fixpoint match_here (pat : list atom) (prev : option ascii) (s : list ascii)
  : option (list ascii) :=
  match pat with
  | [] => Some []
  | WordBoundary :: p =>
      if xorb (word_opt prev) (word_opt (hd_error s)) then match_here p prev s else None
  | Lit c :: p =>
      match s with
      | a :: r =>
          if Ascii.eqb a c then option_map (cons a) (match_here p (Some a) r) else None
      | [] => None
      end
  | SpaceStar :: p =>
      (fix star (prev : option ascii) (s : list ascii) : option (list ascii) :=
         match s with
         | a :: r =>
             if is_space a then
               match star (Some a) r with
               | Some m => Some (a :: m)
               | None => match_here p prev s
               end
             else match_here p prev s
         | [] => match_here p prev s
         end) prev s
  end.

Record Match := {
  m_line : nat;            (* content[: match.start()].count("\n") + 1 *)
  m_text : string          (* match.group(0) *)
}.

(** [re.finditer(pattern, content)]: the matches from left to right, the
    search resuming where a match ends.  [skip] counts the characters of
    the last match still to pass; [line] is the current line number. *)
Fixpoint finditer_from (pat : list atom) (prev : option ascii) (skip line : nat)
         (s : list ascii) : list Match :=
  match s with
  | [] => []
  | a :: r =>
      let line' := if Ascii.eqb a "010" then S line else line in
      match skip with
      | S k => finditer_from pat (Some a) k line' r
      | O =>
          match match_here pat prev s with
          | Some ((_ :: _) as m) =>
              {| m_line := line; m_text := string_of_list_ascii m |}
                :: finditer_from pat (Some a) (length m - 1) line' r
          | _ => finditer_from pat (Some a) 0 line' r
          end
      end
  end.

Definition finditer (pat : list atom) (content : string) : list Match :=
  finditer_from pat None 0 1 (list_ascii_of_string content).

Definition FORBIDDEN_PATTERNS : list (list atom) :=
  [ WordBoundary :: (lits "round" ++ [SpaceStar; Lit "("])%list;
    WordBoundary :: (lits "np.round" ++ [SpaceStar; Lit "("])%list;
    (lits ".round" ++ [SpaceStar; Lit "("])%list ].

(** A Python file under [core/]. *)
Record SourceFile := {
  path : string;
  name : string;          (* path.name *)
  content : string        (* path.read_text() *)
}.

Record Violation := {
  v_path : string;
  v_line : nat;
  v_match : string
}.

(** The loop of the test: the list [violations] when it ends. *)
Definition collect_violations (core_files : list SourceFile) : list Violation :=
  flat_map
    (fun f =>
       if String.eqb (name f) "hypothesis_tests.py" then []
       else
         flat_map
           (fun pattern =>
              map (fun m => {| v_path := path f; v_line := m_line m; v_match := m_text m |})
                  (finditer pattern (content f)))
           FORBIDDEN_PATTERNS)
    core_files.

Inductive TestOutcome :=
| Passed
| Failed (violations : list Violation).

(** The test function: it fills [violations] and returns; there is no
    statement after the loop. *)
Definition test_no_tabular_rounding_in_core (core_files : list SourceFile)
  : TestOutcome :=
  let violations := collect_violations core_files in
  Passed.

End RoundingTest.

(** ** What the dispatcher is expected to do, in the words of the spec *)

Section DispatcherSpec.
Context {H : HypothesisTests}.
Import HypothesisController.

(** The routine that a test name designates. *)
Definition routed_by (name : string) (c : Call) : Prop :=
  match c with
  | OneSampleTTest _ _ _ _ _ _ => name = "One sample Student's t-test"
  | TwoSampleTTest _ _ _ _ _ _ _ _ _ _ => name = "Two samples Student's t-test"
  | VarianceTest _ _ _ _ _ _ _ => name = "Equal variance between two groups"
  | OneWayAnova _ _ _ => name = "One-way ANOVA"
  end.

(** What the routine named by a call returns on the arguments of the
    call. *)
Definition routine_outcome (c : Call) : Result (option DataFrame * option TestFigure) :=
  match c with
  | OneSampleTTest sample mu0 alt col boot graph =>
      one_sample_ttest sample mu0 alt col boot graph
  | TwoSampleTTest g1 g2 col n1 n2 alt corr plot boot graph =>
      two_sample_ttest g1 g2 col n1 n2 alt corr plot boot graph
  | VarianceTest g1 g2 n1 n2 test graph boot =>
      variance_test g1 g2 n1 n2 test graph boot
  | OneWayAnova data col cat => one_way_anova data col cat
  end.

Definition recognized (name : string) : Prop :=
  name = "One sample Student's t-test"
  \/ name = "Two samples Student's t-test"
  \/ name = "Equal variance between two groups"
  \/ name = "One-way ANOVA".

(** A table rounded for display: its float columns rounded to the
    decimals; no table for no table; the error of pandas for a table in
    which two numeric columns carry the same label. *)
Definition rounded_table (table : option DataFrame) (decimals : Z)
  : Result (option DataFrame) :=
  match table with
  | None => Ok None
  | Some t =>
      if match number_columns t with [] => false | _ => true end
      then
        if has_duplicate (number_columns t)
        then Err (ValueError "Columns must be same length as key")
        else Ok (Some (round t decimals))
      else Ok (Some t)
  end.

(** The outcome of a routine with its table rounded for display. *)
Definition rounded_outcome (r : Request)
           (out : Result (option DataFrame * option TestFigure))
  : Result (option DataFrame * option TestFigure) :=
  match out with
  | Ok res =>
      table <- rounded_table (fst res) (display_precision (state r)) ;;
      Ok (table, snd res)
  | Err e => Err e
  end.

End DispatcherSpec.

(** The two tests that compare two groups. *)
Definition two_group_test (name : string) : Prop :=
  name = "Two samples Student's t-test"
  \/ name = "Equal variance between two groups".

(** The observations of a simple regression: the cells of the covariate
    (column [jx]) and of the response (column [jy]), the rows with a missing
    value dropped; and the covariate values in ascending order. *)
Definition observed_rows (data : DataFrame) (jx jy : nat) : list Row :=
  filter row_complete (map (fun r => (fst r, [cell_at jx r; cell_at jy r])) (rows data)).

Definition observed_sorted (data : DataFrame) (jx jy : nat) : list Cell :=
  map (cell_at 0) (sort_rows 0 (observed_rows data jx jy)).

(** The frame of the observed covariate values in ascending order, under
    the label [x] and with the row labels 0, 1, ... *)
Definition observed_frame (data : DataFrame) (x : string) (dx : dtype) (jx jy : nat)
  : DataFrame :=
  let xs := observed_sorted data jx jy in
  {| columns := [(x, dx)];
     rows := combine (seq 0 (length xs)) (map (fun c => [c]) xs) |}.

(** The title of the Simple Regression plot. *)
Definition simple_plot_title (use_formula : bool) (formula_latex y x : string) : string :=
  if use_formula && negb (str_falsy formula_latex)
  then "Linear Regression: $" ++ formula_latex ++ "$"
  else "Linear Regression: " ++ y ++ " ~ " ++ x.

(** The cell of a row in column [i] is a number. *)
Definition numeric_key (i : nat) (r : Row) : Prop := exists v, cell_at i r = Flt v.

(** Ascending order of cells, as [sort_values] orders them. *)
Definition ascending (l : list Cell) : Prop :=
  Sorted (fun a b => key_le a b = true) l.

(** The rows whose cell in column [i] is one of the selected values. *)
Definition selected_rows (d : DataFrame) (i : nat) (selected : list Cell) : list Row :=
  filter (fun r => cell_in (cell_at i r) selected) (rows d).

(** A group: the values of column [j] on the selected rows, the missing
    ones dropped. *)
Definition group_values (d : DataFrame) (j i : nat) (selected : list Cell) : list Cell :=
  filter notna (map (cell_at j) (selected_rows d i selected)).

(** The ANOVA rows: columns [j] and [i] of the selected rows, the rows
    with a missing value in either dropped. *)
Definition anova_rows (d : DataFrame) (j i : nat) (selected : list Cell) : list Row :=
  filter row_complete
         (map (fun r => (fst r, [cell_at j r; cell_at i r])) (selected_rows d i selected)).

(** ** Implementations of the interfaces, for concrete runs *)

Module StandIn.

(** A model that records the design it was fitted on. *)
Record Design := {
  d_formula : option string;
  d_response : option Series;
  d_frame : DataFrame
}.

Definition const_column (X : DataFrame) : DataFrame :=
  {| columns := ("const", float64) :: columns X;
     rows := map (fun r => (fst r, Flt f1 :: snd r)) (rows X) |}.

Definition design_params (m : Design) : DataFrame :=
  {| columns := [("Variable", object_)];
     rows := combine (seq 0 (length (columns (d_frame m))))
                     (map (fun c => [Str (fst c)]) (columns (d_frame m))) |}.

Definition recording_statsmodels : Statsmodels :=
  {| Model := Design;
     add_constant := const_column;
     ols_formula_fit := fun data text =>
       Ok {| d_formula := Some text; d_response := None; d_frame := data |};
     OLS_fit := fun y X =>
       Ok {| d_formula := None; d_response := Some y; d_frame := X |};
     summary2_html := fun _ _ => "<table></table>";
     summary2_params := fun m _ => design_params m;
     get_prediction := fun m X _ =>
       Ok (match X with Some X' => X' | None => d_frame m end);
     rsquared := fun _ => None |}.

(** Test routines that report the sizes of what they were given. *)
Definition size_table (sizes : list (string * nat)) : option DataFrame :=
  Some {| columns := map (fun s => (fst s, int64)) sizes;
          rows := [(0%nat, map (fun s => Flt (of_Z (Z.of_nat (snd s)))) sizes)] |}.

Definition counting_tests : HypothesisTests :=
  {| TestFigure := unit;
     one_sample_ttest := fun sample _ _ _ _ _ =>
       Ok (size_table [("n", length sample)], None);
     two_sample_ttest := fun g1 g2 _ _ _ _ _ _ _ _ =>
       Ok (size_table [("n1", length g1); ("n2", length g2)], None);
     variance_test := fun g1 g2 _ _ _ _ _ =>
       Ok (size_table [("n1", length g1); ("n2", length g2)], None);
     one_way_anova := fun d _ _ => Ok (size_table [("n", length (rows d))], None) |}.

Definition cell_value (c : Cell) : Q :=
  match c with
  | Flt (Fin q) => q
  | _ => 0
  end.

(** Modelled from the spec: the sample-mean row of the missing
    [compute_descriptive_statistics] (section 4.1, "Sample mean: arithmetic
    mean"; section 4.6, "one row per statistic with (value, bias-corrected
    value) columns").  The sample mean is its own bias-corrected value. *)
Definition mean_engine : DescriptiveEngine :=
  {| compute_descriptive_statistics := fun data _ _ _ _ =>
       let mean :=
         Flt (b64 (fold_right Qplus 0 (map cell_value data)
                   / inject_Z (Z.of_nat (length data)))) in
       Ok {| columns := [("Statistic", object_); ("Value", float64);
                         ("Bias Corrected", float64)];
             rows := [(0%nat, [Str "Mean"; mean; mean])] |} |}.

End StandIn.

(** The same request with another value of the intercept flag. *)
Definition core_with_intercept (b : bool) (a : Core.Args) : Core.Args :=
  {| Core.a_df := Core.a_df a;
     Core.formula_check := Core.formula_check a;
     Core.formula_text := Core.formula_text a;
     Core.formula_latex := Core.formula_latex a;
     Core.dependent_var := Core.dependent_var a;
     Core.independent_vars := Core.independent_vars a;
     Core.alpha := Core.alpha a;
     Core.intercept := b;
     Core.create_graph := Core.create_graph a;
     Core.graph_type := Core.graph_type a;
     Core.show_ci := Core.show_ci a;
     Core.show_pi := Core.show_pi a;
     Core.fit_to_obs := Core.fit_to_obs a;
     Core.x_vector := Core.x_vector a |}.

Definition request_with_intercept (b : bool) (r : RegressionController.Request)
  : RegressionController.Request :=
  {| RegressionController.state := RegressionController.state r;
     RegressionController.r_df := RegressionController.r_df r;
     RegressionController.r_filtered_df := RegressionController.r_filtered_df r;
     RegressionController.formula_check := RegressionController.formula_check r;
     RegressionController.formula_text := RegressionController.formula_text r;
     RegressionController.formula_latex := RegressionController.formula_latex r;
     RegressionController.dependent_var := RegressionController.dependent_var r;
     RegressionController.independent_vars := RegressionController.independent_vars r;
     RegressionController.alpha_input := RegressionController.alpha_input r;
     RegressionController.intercept := b;
     RegressionController.graph_check := RegressionController.graph_check r;
     RegressionController.graph_type := RegressionController.graph_type r;
     RegressionController.show_ci := RegressionController.show_ci r;
     RegressionController.show_pi := RegressionController.show_pi r;
     RegressionController.fit_to_obs := RegressionController.fit_to_obs r;
     RegressionController.x_range_text := RegressionController.x_range_text r |}.

(** A small dataset: a numeric column [y], a numeric column [x] with a
    missing value, and a column of labels [g]. *)
Definition qcell (n : Z) (d : positive) : Cell := Flt (Fin (Qmake n d)).

Definition sample_frame : DataFrame :=
  {| columns := [("y", float64); ("x", float64); ("g", object_)];
     rows := [ (0%nat, [qcell 1 1; qcell 3 1; Str "a"]);
               (1%nat, [qcell 2 1; qcell 1 1; Str "a"]);
               (2%nat, [qcell 4 1; Flt NaN; Str "b"]);
               (3%nat, [qcell 5 1; qcell 2 1; Str "b"]);
               (4%nat, [qcell 7 1; qcell 4 1; PyNone]) ] |}.

Definition empty_frame : DataFrame := {| columns := []; rows := [] |}.

(** A regression request on [sample_frame]: [y] on [x], the Simple
    Regression plot over the range typed by the user. *)
Definition sample_regression (vars : list string) (level range : string) (obs : bool)
  : RegressionController.Request :=
  {| RegressionController.state := AppState_init;
     RegressionController.r_df := Some sample_frame;
     RegressionController.r_filtered_df := None;
     RegressionController.formula_check := false;
     RegressionController.formula_text := "";
     RegressionController.formula_latex := "";
     RegressionController.dependent_var := Some "y";
     RegressionController.independent_vars := vars;
     RegressionController.alpha_input := level;
     RegressionController.intercept := true;
     RegressionController.graph_check := true;
     RegressionController.graph_type := "Simple Regression";
     RegressionController.show_ci := true;
     RegressionController.show_pi := true;
     RegressionController.fit_to_obs := obs;
     RegressionController.x_range_text := range |}.

(** The same request in formula mode. *)
Definition formula_regression (text : string) : RegressionController.Request :=
  {| RegressionController.state := AppState_init;
     RegressionController.r_df := Some sample_frame;
     RegressionController.r_filtered_df := None;
     RegressionController.formula_check := true;
     RegressionController.formula_text := text;
     RegressionController.formula_latex := "";
     RegressionController.dependent_var := Some "y";
     RegressionController.independent_vars := ["x"];
     RegressionController.alpha_input := "0.95";
     RegressionController.intercept := true;
     RegressionController.graph_check := true;
     RegressionController.graph_type := "Simple Regression";
     RegressionController.show_ci := true;
     RegressionController.show_pi := true;
     RegressionController.fit_to_obs := true;
     RegressionController.x_range_text := "" |}.

(** A hypothesis-test request on [sample_frame]: column [y], the groups
    "a" and "b" of column [g]. *)
Definition sample_test (name : string) (groups3 : list string)
  : HypothesisController.Request :=
  {| HypothesisController.state := AppState_init;
     HypothesisController.numeric_col := "y";
     HypothesisController.hypo_test := name;
     HypothesisController.mu0_text := "3.5";
     HypothesisController.alternative := "two-sided";
     HypothesisController.include_graph := false;
     HypothesisController.bootstrap_samples := 1000;
     HypothesisController.cat_col1 := Some "g";
     HypothesisController.cat_vals1 := Some ["a"];
     HypothesisController.name_group1 := "";
     HypothesisController.cat_col2 := Some "g";
     HypothesisController.cat_vals2 := Some ["b"];
     HypothesisController.name_group2 := "B";
     HypothesisController.cat_col3 := Some "g";
     HypothesisController.cat_vals3 := Some groups3;
     HypothesisController.plot_type := "Histogram";
     HypothesisController.correction := true;
     HypothesisController.test_type := "Levene" |}.

Definition sample_world : HypothesisController.World :=
  {| HypothesisController.w_heap := [sample_frame];
     HypothesisController.w_arg := Some 0%nat;
     HypothesisController.w_calls := [] |}.

(** A column holding the single value 0.03125, and the request for its
    descriptive statistics at the default display precision. *)
Definition fine_frame : DataFrame :=
  {| columns := [("v", float64)]; rows := [(0%nat, [qcell 1 32])] |}.

Definition fine_request : DescriptiveController.Request :=
  {| DescriptiveController.state := AppState_init;
     DescriptiveController.r_df := Some fine_frame;
     DescriptiveController.column := "v";
     DescriptiveController.quantile_probs := [];
     DescriptiveController.trim_alpha := None;
     DescriptiveController.winsor_limits := None;
     DescriptiveController.weights_col := None |}.

(** A file of [core/] that rounds a table. *)
Definition rounding_file : RoundingTest.SourceFile :=
  {| RoundingTest.path := "core/summary.py";
     RoundingTest.name := "summary.py";
     RoundingTest.content := "def summarize(table):
    return table.round(2)
" |}.

(** ** Python's [sorted], and the session with its active filters *)

From Stdlib Require Import DecimalString.

(** [str(n)] for a non-negative integer. *)
Definition str_of_nat (n : nat) : string := NilEmpty.string_of_uint (Nat.to_uint n).

(** Two cells that [<] can compare: two numbers or two strings. *)
Definition same_kind (a b : Cell) : bool :=
  match a, b with
  | Flt _, Flt _ | Str _, Str _ => true
  | _, _ => false
  end.

Definition homogeneous (l : list Cell) : bool :=
  match l with
  | [] => true
  | c :: r => forallb (same_kind c) r
  end.

Fixpoint insert_cell (c : Cell) (l : list Cell) : list Cell :=
  match l with
  | [] => [c]
  | h :: t => if key_le c h then c :: l else h :: insert_cell c t
  end.

Fixpoint sort_cells (l : list Cell) : list Cell :=
  match l with
  | [] => []
  | h :: t => insert_cell h (sort_cells t)
  end.

(** [sorted(values)] for the non-missing values of a column: a stable
    ascending sort; comparing a number with a string raises [TypeError]. *)
Definition sorted_cells (l : list Cell) : Result (list Cell) :=
  if homogeneous l then Ok (sort_cells l)
  else Err (ExternalError "TypeError: '<' not supported between instances").

Fixpoint insert_string (s : string) (l : list string) : list string :=
  match l with
  | [] => [s]
  | h :: t => if String.leb s h then s :: l else h :: insert_string s t
  end.

(** [sorted(names)] for strings. *)
Fixpoint sorted_strings (l : list string) : list string :=
  match l with
  | [] => []
  | h :: t => insert_string h (sorted_strings t)
  end.

Fixpoint insert_float (x : pyfloat) (l : list pyfloat) : list pyfloat :=
  match l with
  | [] => [x]
  | h :: t => if fle x h then x :: l else h :: insert_float x t
  end.

(** [sorted(vals)] for numbers none of which is NaN. *)
Fixpoint sorted_floats (l : list pyfloat) : list pyfloat :=
  match l with
  | [] => []
  | h :: t => insert_float h (sorted_floats t)
  end.

(** The session object with the field [active_filters], which the
    controllers do not read. *)
Record Session := {
  app : AppState;
  active_filters : list (string * list Cell)
}.

(** [state.filtered_df if state.filtered_df is not None else state.df], the
    dataframe the descriptive, inference and hypothesis tabs work on. *)
Definition tab_dataframe (s : AppState) : option DataFrame :=
  match filtered_df s with
  | Some f => Some f
  | None => df s
  end.

(** ** [core/data_stats.py] *)

Module DataStats.

(** [gr.update(visible=..., choices=..., value=...)] *)
Record ChoicesUpdate := {
  u_visible : bool;
  u_choices : list Cell;
  u_value : list Cell
}.

Definition category_value_choices (df : option DataFrame) (col : option string)
  : Result ChoicesUpdate :=
  match df, col with
  | Some d, Some c =>
      if negb (has_column c d)
      then Ok {| u_visible := false; u_choices := []; u_value := [] |}
      else
        s <- getitem d c ;;
        values <- sorted_cells (distinct (to_numpy (dropna s))) ;;
        Ok {| u_visible := true; u_choices := values; u_value := [] |}
  | _, _ => Ok {| u_visible := false; u_choices := []; u_value := [] |}
  end.

(** [df.select_dtypes(include=[np.number]).columns.tolist()] and its
    complement [exclude=[np.number]]. *)
Definition select_dtypes (numeric : bool) (d : DataFrame) : list string :=
  map fst (filter (fun c => Bool.eqb (is_numeric_dtype (snd c)) numeric) (columns d)).

Definition infer_column_types (d : DataFrame) : list string * list string :=
  let numeric_cols := select_dtypes true d in
  let categorical_cols := select_dtypes false d in
  (sorted_strings numeric_cols, sorted_strings categorical_cols).

(** [bool(x)] for an optional list: [None] and [[]] are false. *)
Definition truthy {A} (o : option (list A)) : bool :=
  match o with
  | Some (_ :: _) => true
  | _ => false
  end.

(** [filtered_df[filtered_df[col].isin(selected_vals)]] *)
Definition filter_isin (d : DataFrame) (col : string) (selected : list Cell)
  : Result DataFrame :=
  s <- getitem d col ;;
  Ok (getitem_mask d (isin s selected)).

(** The loop over [zip(cat_cols[:3], values)]. *)
Fixpoint filter_loop (d : DataFrame) (pairs : list (string * option (list Cell)))
  : Result DataFrame :=
  match pairs with
  | [] => Ok d
  | (col, selected_vals) :: rest =>
      match selected_vals with
      | Some (v :: vs) => d' <- filter_isin d col (v :: vs) ;; filter_loop d' rest
      | _ => filter_loop d rest
      end
  end.

Definition apply_category_filters (df : option DataFrame)
           (cat_cols : option (list string))
           (val1 val2 val3 : option (list Cell))
  : Result (option DataFrame * string) :=
  match df with
  | None => Ok (None, "❌ No data loaded.")
  | Some d =>
      if negb (truthy cat_cols) || forallb (fun v => negb (truthy v)) [val1; val2; val3]
      then Ok (Some d, "⚠️ No filters selected. Using full dataset.")
      else
        let cols := match cat_cols with Some cs => cs | None => [] end in
        let values := [val1; val2; val3] in
        filtered_df <- filter_loop d (combine (firstn 3 cols) values) ;;
        Ok (Some filtered_df,
            "✅ Filter applied. Rows remaining: " ++ str_of_nat (length (rows filtered_df)))
  end.

(** [l.remove(x)]: the first occurrence goes. *)
Fixpoint remove_first (x : string) (l : list string) : list string :=
  match l with
  | [] => []
  | h :: t => if String.eqb h x then t else h :: remove_first x t
  end.

(** [f"{column}"] for an optional column name. *)
Definition str_of_column (column : option string) : string :=
  match column with Some c => c | None => "None" end.

(** [column and column in cols] *)
Definition selected_in (column : option string) (cols : list string) : bool :=
  match column with
  | Some c => negb (str_falsy c) && str_in c cols
  | None => false
  end.

Definition with_columns (s : Session) (numeric categorical : list string) : Session :=
  {| app := {| df := df (app s); filtered_df := filtered_df (app s);
               numeric_cols := numeric; categorical_cols := categorical;
               display_precision := display_precision (app s) |};
     active_filters := [] |}.

(** The state after the call, and the pair the call returns. *)
Definition reclassify_as_categorical (state : Session) (column : option string)
  : Session * (bool * string) :=
  if selected_in column (numeric_cols (app state)) then
    let c := str_of_column column in
    (with_columns state
       (remove_first c (numeric_cols (app state)))
       (categorical_cols (app state) ++ [c])%list,
     (true, "Column '" ++ c ++ "' reclassified as categorical."))
  else (state, (false, "Column '" ++ str_of_column column ++ "' is not numeric.")).

Definition reclassify_as_numeric (state : Session) (column : option string)
  : Session * (bool * string) :=
  if selected_in column (categorical_cols (app state)) then
    let c := str_of_column column in
    (with_columns state
       (numeric_cols (app state) ++ [c])%list
       (remove_first c (categorical_cols (app state))),
     (true, "Column '" ++ c ++ "' reclassified as numeric."))
  else (state, (false, "Column '" ++ str_of_column column ++ "' is not categorical.")).

End DataStats.

(** ** The input parsers of the tabs ([ui/tabs/]) *)

Module Tabs.

(** [float(x)] when it raises: the [ValueError] of Python. *)
Definition float_or_raise (s : string) : Result pyfloat :=
  match float s with
  | Some x => Ok x
  | None => Err (ValueError ("could not convert string to float: " ++ repr s))
  end.

(** [[float(x.strip()) for x in parts]] *)
Fixpoint floats_of (parts : list string) : Result (list pyfloat) :=
  match parts with
  | [] => Ok []
  | p :: r => x <- float_or_raise (strip p) ;; xs <- floats_of r ;; Ok (x :: xs)
  end.

(** The parts of a comma-separated text that are not blank. *)
Definition nonblank_parts (text : string) : list string :=
  filter (fun x => negb (str_falsy (strip x))) (split "," text).

(** *** [estimation/descriptive_tab.py] *)

Definition parse_quantiles (text : string) : Result (list pyfloat) :=
  floats_of (nonblank_parts text).

Definition parse_winsor (text : string) : Result (option (pyfloat * pyfloat)) :=
  if str_falsy (strip text) then Ok None
  else
    vals <- floats_of (split "," text) ;;
    match vals with
    | [a; b] => Ok (Some (a, b))
    | _ => raise (ValueError "Winsor limits must be two values.")
    end.

(** *** [estimation/inference_tab.py]

    These parsers raise [gr.Error] only: the [ValueError] of [float] is
    caught and replaced. *)

Inductive GrResult (A : Type) :=
| GrOk (a : A)
| GrError (msg : string).
Arguments GrOk {A} a.
Arguments GrError {A} msg.

Definition parse_probs (text : string) : GrResult (list pyfloat) :=
  match floats_of (nonblank_parts text) with
  | Err _ => GrError "Confidence levels must be numeric, comma-separated values."
  | Ok vals =>
      if (length vals =? 0)%nat then GrError "Provide at least one confidence level."
      else if existsb (fun v => negb (flt f0 v && flt v f1)) vals
      then GrError "All confidence levels must be in (0, 1)."
      else GrOk (sorted_floats vals)
  end.


End Tabs.

(** ** Requests that differ in one argument *)

(** The same regression request with another range text. *)
Definition request_with_range (text : string) (r : RegressionController.Request)
  : RegressionController.Request :=
  {| RegressionController.state := RegressionController.state r;
     RegressionController.r_df := RegressionController.r_df r;
     RegressionController.r_filtered_df := RegressionController.r_filtered_df r;
     RegressionController.formula_check := RegressionController.formula_check r;
     RegressionController.formula_text := RegressionController.formula_text r;
     RegressionController.formula_latex := RegressionController.formula_latex r;
     RegressionController.dependent_var := RegressionController.dependent_var r;
     RegressionController.independent_vars := RegressionController.independent_vars r;
     RegressionController.alpha_input := RegressionController.alpha_input r;
     RegressionController.intercept := RegressionController.intercept r;
     RegressionController.graph_check := RegressionController.graph_check r;
     RegressionController.graph_type := RegressionController.graph_type r;
     RegressionController.show_ci := RegressionController.show_ci r;
     RegressionController.show_pi := RegressionController.show_pi r;
     RegressionController.fit_to_obs := RegressionController.fit_to_obs r;
     RegressionController.x_range_text := text |}.

(** The same hypothesis-test request with another text for the null mean. *)
Definition request_with_mu0 (text : string) (r : HypothesisController.Request)
  : HypothesisController.Request :=
  {| HypothesisController.state := HypothesisController.state r;
     HypothesisController.numeric_col := HypothesisController.numeric_col r;
     HypothesisController.hypo_test := HypothesisController.hypo_test r;
     HypothesisController.mu0_text := text;
     HypothesisController.alternative := HypothesisController.alternative r;
     HypothesisController.include_graph := HypothesisController.include_graph r;
     HypothesisController.bootstrap_samples := HypothesisController.bootstrap_samples r;
     HypothesisController.cat_col1 := HypothesisController.cat_col1 r;
     HypothesisController.cat_vals1 := HypothesisController.cat_vals1 r;
     HypothesisController.name_group1 := HypothesisController.name_group1 r;
     HypothesisController.cat_col2 := HypothesisController.cat_col2 r;
     HypothesisController.cat_vals2 := HypothesisController.cat_vals2 r;
     HypothesisController.name_group2 := HypothesisController.name_group2 r;
     HypothesisController.cat_col3 := HypothesisController.cat_col3 r;
     HypothesisController.cat_vals3 := HypothesisController.cat_vals3 r;
     HypothesisController.plot_type := HypothesisController.plot_type r;
     HypothesisController.correction := HypothesisController.correction r;
     HypothesisController.test_type := HypothesisController.test_type r |}.

(** A regression request for the Observed vs Predicted plot of [y] on the
    given predictors of [sample_frame]. *)
Definition observed_vs_predicted_request (vars : list string) (range : string)
  : RegressionController.Request :=
  {| RegressionController.state := AppState_init;
     RegressionController.r_df := Some sample_frame;
     RegressionController.r_filtered_df := None;
     RegressionController.formula_check := false;
     RegressionController.formula_text := "";
     RegressionController.formula_latex := "";
     RegressionController.dependent_var := Some "y";
     RegressionController.independent_vars := vars;
     RegressionController.alpha_input := "0.9";
     RegressionController.intercept := true;
     RegressionController.graph_check := true;
     RegressionController.graph_type := "Observed vs Predicted";
     RegressionController.show_ci := false;
     RegressionController.show_pi := false;
     RegressionController.fit_to_obs := false;
     RegressionController.x_range_text := range |}.

(** A frame with two numeric predictors. *)
Definition two_predictor_frame : DataFrame :=
  {| columns := [("y", float64); ("x", float64); ("z", int64); ("g", object_)];
     rows := [ (0%nat, [qcell 1 1; qcell 3 1; qcell 1 1; Str "b"]);
               (1%nat, [qcell 2 1; Flt NaN; qcell 2 1; Str "a"]);
               (2%nat, [qcell 4 1; qcell 5 1; qcell 2 1; Str "b"]);
               (3%nat, [Flt NaN; qcell 2 1; qcell 7 1; Str "c"]);
               (4%nat, [qcell 8 1; qcell 1 1; qcell 9 1; PyNone]) ] |}.

(** Arguments of the core: [y] on [x] and [z] of [two_predictor_frame],
    with the Observed vs Predicted plot. *)
Definition two_predictor_args : Core.Args :=
  {| Core.a_df := Some two_predictor_frame;
     Core.formula_check := false;
     Core.formula_text := "";
     Core.formula_latex := "";
     Core.dependent_var := "y";
     Core.independent_vars := ["x"; "z"];
     Core.alpha := Fin (3602879701896397 # 72057594037927936);
     Core.intercept := true;
     Core.create_graph := true;
     Core.graph_type := "Observed vs Predicted";
     Core.show_ci := false;
     Core.show_pi := false;
     Core.fit_to_obs := true;
     Core.x_vector := None |}.

(** Six observations of [y], [x] and [z], one of them without [z], and the
    arguments of the core for [y] on [x] and [z] at the significance level
    0.05, with the Observed vs Predicted plot. *)
Definition six_row_frame : DataFrame :=
  {| columns := [("y", float64); ("x", float64); ("z", float64)];
     rows := [ (0%nat, [qcell 1 1; qcell 3 1; qcell 1 1]);
               (1%nat, [qcell 2 1; qcell 1 1; qcell 0 1]);
               (2%nat, [qcell 4 1; qcell 2 1; qcell 1 1]);
               (3%nat, [qcell 5 1; qcell 2 1; Flt NaN]);
               (4%nat, [qcell 7 1; qcell 4 1; qcell 2 1]);
               (5%nat, [qcell 6 1; qcell 5 1; qcell 0 1]) ] |}.

Definition six_row_args : Core.Args :=
  {| Core.a_df := Some six_row_frame;
     Core.formula_check := false;
     Core.formula_text := "";
     Core.formula_latex := "";
     Core.dependent_var := "y";
     Core.independent_vars := ["x"; "z"];
     Core.alpha := Fin (3602879701896397 # 72057594037927936);
     Core.intercept := true;
     Core.create_graph := true;
     Core.graph_type := "Observed vs Predicted";
     Core.show_ci := false;
     Core.show_pi := false;
     Core.fit_to_obs := true;
     Core.x_vector := None |}.

(** Observations with weights: the second observation is missing and its
    weight is negative. *)
Definition weighted_frame : DataFrame :=
  {| columns := [("x", float64); ("w", float64)];
     rows := [(0%nat, [qcell 1 1; qcell 2 1]);
              (1%nat, [Flt NaN; qcell (-1) 1]);
              (2%nat, [qcell 3 1; qcell 1 2])] |}.

Definition weighted_request : DescriptiveController.Request :=
  {| DescriptiveController.state := AppState_init;
     DescriptiveController.r_df := Some weighted_frame;
     DescriptiveController.column := "x";
     DescriptiveController.quantile_probs := [];
     DescriptiveController.trim_alpha := None;
     DescriptiveController.winsor_limits := None;
     DescriptiveController.weights_col := Some "w" |}.


(** The rows of [d] whose cell in column [i] is not missing. *)
Definition kept_rows (i : nat) (d : DataFrame) : list Row :=
  filter (fun r => notna (cell_at i r)) (rows d).


(** A row passes a filter when no value is selected for it, or when its
    cell in the filter's column is one of the selected values. *)
Definition passes_filter (d : DataFrame) (pair : string * option (list Cell)) (r : Row)
  : bool :=
  match snd pair with
  | Some (v :: vs) =>
      match position (fst pair) (columns d) with
      | Some (i, _) => cell_in (cell_at i r) (v :: vs)
      | None => false
      end
  | _ => true
  end.

Definition passes_filters (d : DataFrame) (pairs : list (string * option (list Cell)))
           (r : Row) : bool :=
  forallb (fun pair => passes_filter d pair r) pairs.

(** The filters of one call: the first three categorical columns, each
    with the values selected for it. *)
Definition filter_pairs (cat_cols : option (list string))
           (val1 val2 val3 : option (list Cell)) : list (string * option (list Cell)) :=
  combine (firstn 3 (match cat_cols with Some cs => cs | None => [] end))
          [val1; val2; val3].


(** A session on [sample_frame] with one active filter. *)
Definition sample_session : Session :=
  {| app := {| df := Some sample_frame; filtered_df := None;
               numeric_cols := ["x"; "y"]; categorical_cols := ["g"];
               display_precision := DEFAULT_DISPLAY_PRECISION |};
     active_filters := [("g", [Str "a"])] |}.


(* ===================================================================== *)
(** * Part II. Properties                                                 *)
(* ===================================================================== *)

Import RegressionController.

Unset Implicit Arguments.

(** ** Tactics for the result monad *)

Lemma raise_if_ok (c : bool) (msg : string) : raise_if c msg = Ok tt -> c = false.
Proof. unfold raise_if. destruct c; [discriminate | reflexivity]. Qed.

Lemma bind_ok {A B} (r : Result A) (k : A -> Result B) (b : B) :
  bind r k = Ok b -> exists a, r = Ok a /\ k a = Ok b.
Proof. destruct r as [a | e]; simpl; [eauto | discriminate]. Qed.

(** Take the first step of a successful [bind] in hypothesis [H] apart. *)
Ltac bind_inv H :=
  let a := fresh "a" in
  let Ha := fresh "Hstep" in
  apply bind_ok in H; destruct H as (a & Ha & H).

Ltac guard_inv H :=
  let Hg := fresh "Hguard" in
  apply bind_ok in H; destruct H as ([] & Hg & H); apply raise_if_ok in Hg.

(** ** The working dataframe of a regression call (C10) *)

Lemma select_filtered (d f : DataFrame) :
  empty f = false -> _select_working_dataframe (Some d) (Some f) = Ok f.
Proof. intros Hf. simpl. rewrite Hf. reflexivity. Qed.

Lemma select_fallback (d : DataFrame) (filtered : option DataFrame) :
  (filtered = None \/ exists f, filtered = Some f /\ empty f = true) ->
  empty d = false ->
  _select_working_dataframe (Some d) filtered = Ok d.
Proof.
  intros [-> | (f & -> & Hf)] Hd; simpl.
  - rewrite Hd. reflexivity.
  - rewrite Hf, Hd. reflexivity.
Qed.

Lemma select_error (df filtered : option DataFrame) (e : exn) :
  _select_working_dataframe df filtered = Err e ->
  df = None \/ exists d, df = Some d /\ empty d = true.
Proof.
  destruct df as [d |]; [| now left].
  intros Hsel. right. exists d. split; [reflexivity |].
  simpl in Hsel. destruct filtered as [f |].
  - destruct (empty f); simpl in Hsel; [| discriminate].
    destruct (empty d); [reflexivity | discriminate].
  - destruct (empty d); [reflexivity | discriminate].
Qed.

Lemma select_error_propagates {SM : Statsmodels} (r : Request) (e : exn) :
  _select_working_dataframe (r_df r) (r_filtered_df r) = Err e ->
  run_linear_regression r = Err e.
Proof. intros Hsel. unfold run_linear_regression. rewrite Hsel. reflexivity. Qed.

(** C10. Given a full dataset [d] and a filtered dataset: the working data
    is the filtered dataset when it is not empty; when the filtered dataset
    is [None] or empty the full dataset is used and no error is raised for
    the empty filter; the selection fails only when the full dataset is
    missing or empty, and that failure is the failure of the call. *)
Theorem working_dataframe_selection (d : DataFrame) (filtered : option DataFrame) :
  (forall f, filtered = Some f -> empty f = false ->
             _select_working_dataframe (Some d) filtered = Ok f)
  /\ ((filtered = None \/ exists f, filtered = Some f /\ empty f = true) ->
      empty d = false ->
      _select_working_dataframe (Some d) filtered = Ok d)
  /\ (forall df e, _select_working_dataframe df filtered = Err e ->
                   df = None \/ exists d', df = Some d' /\ empty d' = true)
  /\ (forall (SM : Statsmodels) (r : Request) (e : exn),
         _select_working_dataframe (r_df r) (r_filtered_df r) = Err e ->
         run_linear_regression r = Err e).
Proof.
  repeat split.
  - intros f -> Hf. now apply select_filtered.
  - now apply select_fallback.
  - intros df e. apply select_error.
  - intros SM r e. apply select_error_propagates.
Qed.

(** An empty filter result on [sample_frame]: the full frame is used. *)
Lemma working_dataframe_selection_witness :
  _select_working_dataframe (Some sample_frame) (Some empty_frame) = Ok sample_frame
  /\ _select_working_dataframe (Some empty_frame) (Some sample_frame) = Ok sample_frame.
Proof.
  split.
  - apply (proj1 (proj2 (working_dataframe_selection sample_frame (Some empty_frame)))).
    + right. exists empty_frame. split; reflexivity.
    + reflexivity.
  - apply (proj1 (working_dataframe_selection empty_frame (Some sample_frame)));
      reflexivity.
Defined.

(** ** The confidence level (C4) *)

Lemma float_empty : float "" = None.
Proof. reflexivity. Qed.

Lemma parse_confidence_level_ok (text : string) (level : pyfloat) :
  float (strip text) = Some level ->
  flt f0 level = true -> flt level f1 = true ->
  _parse_confidence_level text = Ok (fsub f1 level).
Proof.
  intros Hfloat H0 H1. unfold _parse_confidence_level.
  destruct (strip text) as [| c s] eqn:Hs.
  - rewrite float_empty in Hfloat. discriminate.
  - cbn [str_falsy]. rewrite Hfloat, H0, H1. reflexivity.
Qed.

Lemma parse_confidence_level_inv (text : string) (a : pyfloat) :
  _parse_confidence_level text = Ok a ->
  exists level, float (strip text) = Some level
                /\ flt f0 level = true /\ flt level f1 = true
                /\ a = fsub f1 level.
Proof.
  unfold _parse_confidence_level.
  destruct (str_falsy (strip text)); [discriminate |].
  destruct (float (strip text)) as [level |]; [| discriminate].
  destruct (flt f0 level) eqn:H0; destruct (flt level f1) eqn:H1;
    simpl; try discriminate.
  intros [= <-]. exists level. auto.
Qed.

Lemma parse_confidence_level_fails (text : string) :
  (float (strip text) = None
   \/ exists level, float (strip text) = Some level
                    /\ flt f0 level && flt level f1 = false) ->
  exists msg, _parse_confidence_level text = Err (ValueError msg).
Proof.
  intros Hbad. unfold _parse_confidence_level.
  destruct (str_falsy (strip text)); [eauto |].
  destruct Hbad as [-> | (level & -> & ->)]; simpl; eauto.
Qed.

(** What the two plots are made of. *)
Section PlotFacts.
Context {SM : Statsmodels}.

Lemma plot_simple_regression_inv (data : DataFrame) (x y : string) (b uf : bool)
      (latex : string) (m : Model) (al : pyfloat) (ci pi obs : bool)
      (xv : option (list pyfloat)) (f : Figure) :
  Core.plot_simple_regression data x y b uf latex m al ci pi obs xv = Ok f ->
  exists xp X pt spans,
    Core.prediction_input data x y obs xv = Ok (xp, X)
    /\ get_prediction m (Some (if negb uf && b then add_constant X else X)) al = Ok pt
    /\ f = SimpleRegressionFigure
             {| x_plot := xp; pred_table := pt; ci_band := ci; pi_band := pi;
                extrapolation := spans;
                title := if uf && negb (str_falsy latex)
                         then "Linear Regression: $" ++ latex ++ "$"
                         else "Linear Regression: " ++ y ++ " ~ " ++ x;
                r2_label := rsquared m |}.
Proof.
  unfold Core.plot_simple_regression. intros Hplot.
  apply bind_ok in Hplot. destruct Hplot as ((xp & X) & Hinp & Hplot).
  apply bind_ok in Hplot. destruct Hplot as (pt & Hpt & Hplot).
  apply bind_ok in Hplot. destruct Hplot as (spans & _ & Hplot).
  inversion Hplot. exists xp, X, pt, spans. auto.
Qed.

Lemma plot_observed_vs_predicted_inv (data : DataFrame) (y : string) (m : Model)
      (al : pyfloat) (f : Figure) :
  Core.plot_observed_vs_predicted data y m al = Ok f ->
  exists pt yt,
    get_prediction m None al = Ok pt
    /\ getitem data y = Ok yt
    /\ f = ObservedVsPredictedFigure yt pt (rsquared m).
Proof.
  unfold Core.plot_observed_vs_predicted. intros Hplot.
  apply bind_ok in Hplot. destruct Hplot as (pt & Hpt & Hplot).
  apply bind_ok in Hplot. destruct Hplot as (yt & Hyt & Hplot).
  inversion Hplot. exists pt, yt. auto.
Qed.

(** The tables and the figure of a successful run of the core come from
    one fitted model, each asked for at the [alpha] of the call. *)
Lemma core_outputs (a : Core.Args) (html : string) (params : DataFrame)
      (fig : option Figure) :
  Core.run_linear_regression a = Ok (html, params, fig) ->
  exists model,
    html = summary2_html model (Core.alpha a)
    /\ params = summary2_params model (Core.alpha a)
    /\ match fig with
       | Some (SimpleRegressionFigure p) =>
           exists X, get_prediction model (Some X) (Core.alpha a) = Ok (pred_table p)
       | Some (ObservedVsPredictedFigure _ pt _) =>
           get_prediction model None (Core.alpha a) = Ok pt
       | None => True
       end.
Proof.
  unfold Core.run_linear_regression. intros Hrun.
  destruct (Core.a_df a) as [d |]; [| discriminate].
  do 2 guard_inv Hrun.
  destruct (Core.first_missing d (Core.independent_vars a)); [discriminate |].
  guard_inv Hrun.
  apply bind_ok in Hrun. destruct Hrun as (sub & _ & Hrun).
  guard_inv Hrun.
  apply bind_ok in Hrun. destruct Hrun as (y & _ & Hrun).
  apply bind_ok in Hrun. destruct Hrun as (X & _ & Hrun).
  apply bind_ok in Hrun. destruct Hrun as ((model & uf) & _ & Hrun).
  apply bind_ok in Hrun. destruct Hrun as (fig0 & Hfig & Hrun).
  inversion Hrun; subst. clear Hrun.
  exists model. split; [reflexivity | split; [reflexivity |]].
  destruct (Core.create_graph a); [| now inversion Hfig].
  destruct (String.eqb (Core.graph_type a) "Simple Regression").
  - destruct (Core.independent_vars a) as [| x [| x' vars]]; try discriminate.
    apply bind_ok in Hfig. destruct Hfig as (f & Hplot & Hfig). inversion Hfig.
    apply plot_simple_regression_inv in Hplot.
    destruct Hplot as (xp & Xp & pt & spans & _ & Hpt & ->). cbn [pred_table]. eauto.
  - destruct (String.eqb (Core.graph_type a) "Observed vs Predicted"); [| discriminate].
    apply bind_ok in Hfig. destruct Hfig as (f & Hplot & Hfig). inversion Hfig.
    apply plot_observed_vs_predicted_inv in Hplot.
    destruct Hplot as (pt & yt & Hpt & _ & ->). exact Hpt.
Qed.

(** What a successful call of the controller has gone through. *)
Lemma controller_result (r : Request) (html : string) (params : DataFrame)
      (fig : option Figure) :
  run_linear_regression r = Ok (html, params, fig) ->
  exists wd dep al xv params0,
    _select_working_dataframe (r_df r) (r_filtered_df r) = Ok wd
    /\ dependent_var r = Some dep
    /\ _parse_confidence_level (alpha_input r) = Ok al
    /\ (if wants_simple_plot r && negb (fit_to_obs r)
        then _parse_range (x_range_text r) else Ok None) = Ok xv
    /\ Core.run_linear_regression (core_args r wd dep al xv) = Ok (html, params0, fig)
    /\ params = round params0 (display_precision (state r)).
Proof.
  unfold run_linear_regression. intros Hrun.
  apply bind_ok in Hrun. destruct Hrun as (wd & Hsel & Hrun).
  destruct (dependent_var r) as [dep |]; [| discriminate].
  do 3 guard_inv Hrun.
  apply bind_ok in Hrun. destruct Hrun as (al & Hal & Hrun).
  apply bind_ok in Hrun. destruct Hrun as (xv & Hxv & Hrun).
  apply bind_ok in Hrun. destruct Hrun as (((html0 & params0) & fig0) & Hcore & Hrun).
  inversion Hrun; subst.
  exists wd, dep, al, xv, params0. auto 10.
Qed.

Lemma controller_alpha (r : Request) (html : string) (params : DataFrame)
      (fig : option Figure) :
  run_linear_regression r = Ok (html, params, fig) ->
  exists level model,
    float (strip (alpha_input r)) = Some level
    /\ flt f0 level = true /\ flt level f1 = true
    /\ html = summary2_html model (fsub f1 level)
    /\ params = round (summary2_params model (fsub f1 level))
                      (display_precision (state r))
    /\ match fig with
       | Some (SimpleRegressionFigure p) =>
           exists X, get_prediction model (Some X) (fsub f1 level) = Ok (pred_table p)
       | Some (ObservedVsPredictedFigure _ pt _) =>
           get_prediction model None (fsub f1 level) = Ok pt
       | None => True
       end.
Proof.
  intros Hrun. apply controller_result in Hrun.
  destruct Hrun as (wd & dep & al & xv & params0 & _ & _ & Hal & _ & Hcore & ->).
  apply parse_confidence_level_inv in Hal.
  destruct Hal as (level & Hfloat & H0 & H1 & ->).
  apply core_outputs in Hcore. cbn [Core.alpha core_args] in Hcore.
  destruct Hcore as (model & -> & -> & Hfig).
  exists level, model. auto 10.
Qed.

(** A level that the parser refuses is the failure of the call. *)
Lemma controller_level_refused (r : Request) :
  (float (strip (alpha_input r)) = None
   \/ exists level, float (strip (alpha_input r)) = Some level
                    /\ flt f0 level && flt level f1 = false) ->
  exists e, run_linear_regression r = Err e.
Proof.
  intros Hbad. apply parse_confidence_level_fails in Hbad. destruct Hbad as (msg & Hmsg).
  unfold run_linear_regression. rewrite Hmsg.
  destruct (_select_working_dataframe _ _); cbn [bind]; [| eauto].
  destruct (dependent_var r); [| eauto].
  repeat match goal with
         | |- context [raise_if ?c ?m] => destruct c; cbn [raise_if bind]; eauto
         end.
Qed.

End PlotFacts.

(** C4. When the confidence-level text parses to a number strictly between
    0 and 1, the significance level is 1 minus that number; any other text
    makes the parser fail with a [ValueError], "1.5" with the out-of-range
    message, and the call fail.  In a call that succeeds, the summary, the
    coefficient table and the prediction table of the figure are those that
    statsmodels gives for one fitted model at that significance level. *)
Theorem confidence_level_to_alpha :
  (forall text level,
      float (strip text) = Some level ->
      flt f0 level = true -> flt level f1 = true ->
      _parse_confidence_level text = Ok (fsub f1 level))
  /\ (forall text,
         (float (strip text) = None
          \/ exists level, float (strip text) = Some level
                           /\ flt f0 level && flt level f1 = false) ->
         exists msg, _parse_confidence_level text = Err (ValueError msg))
  /\ _parse_confidence_level "1.5"
     = Err (ValueError "Confidence level must be between 0 and 1 (e.g. 0.95).")
  /\ (forall (SM : Statsmodels) (r : Request),
         (float (strip (alpha_input r)) = None
          \/ exists level, float (strip (alpha_input r)) = Some level
                           /\ flt f0 level && flt level f1 = false) ->
         exists e, run_linear_regression r = Err e)
  /\ (forall (SM : Statsmodels) (r : Request) html params fig,
         run_linear_regression r = Ok (html, params, fig) ->
         exists level model,
           float (strip (alpha_input r)) = Some level
           /\ flt f0 level = true /\ flt level f1 = true
           /\ html = summary2_html model (fsub f1 level)
           /\ params = round (summary2_params model (fsub f1 level))
                             (display_precision (state r))
           /\ match fig with
              | Some (SimpleRegressionFigure p) =>
                  exists X,
                    get_prediction model (Some X) (fsub f1 level) = Ok (pred_table p)
              | Some (ObservedVsPredictedFigure _ pt _) =>
                  get_prediction model None (fsub f1 level) = Ok pt
              | None => True
              end).
Proof.
  split; [| split; [| split; [| split]]].
  - apply parse_confidence_level_ok.
  - apply parse_confidence_level_fails.
  - vm_compute. reflexivity.
  - intros SM r. apply controller_level_refused.
  - intros SM r html params fig. apply controller_alpha.
Qed.

(** The text "0.95" is read as the binary64 number nearest to 0.95, and
    the significance level is the binary64 difference
    0.050000000000000044; a run of [y] on [x] of the sample at that level
    asks the model for its tables at this significance level. *)
Lemma confidence_level_to_alpha_witness :
  _parse_confidence_level "0.95" = Ok (Fin (225179981368525 # 4503599627370496))
  /\ exists html params p model,
      run_linear_regression (SM := StandIn.recording_statsmodels)
        (sample_regression ["x"] "0.95" "" true)
      = Ok (html, params, Some (SimpleRegressionFigure p))
      /\ html = summary2_html (Statsmodels := StandIn.recording_statsmodels) model
                  (Fin (225179981368525 # 4503599627370496))
      /\ exists X,
          get_prediction (Statsmodels := StandIn.recording_statsmodels) model (Some X)
            (Fin (225179981368525 # 4503599627370496))
          = Ok (pred_table p).
Proof.
  destruct confidence_level_to_alpha as (Hparse & _ & _ & _ & Hcall).
  split.
  - apply (Hparse "0.95" (Fin (4278419646001971 # 4503599627370496)));
      vm_compute; reflexivity.
  - assert (Hrun : exists html params p,
               run_linear_regression (SM := StandIn.recording_statsmodels)
                 (sample_regression ["x"] "0.95" "" true)
               = Ok (html, params, Some (SimpleRegressionFigure p)))
      by (do 3 eexists; vm_compute; reflexivity).
    destruct Hrun as (html & params & p & Hrun).
    destruct (Hcall StandIn.recording_statsmodels _ html params _ Hrun)
      as (level & model & Hlevel & _ & _ & Hhtml & _ & Hfig).
    vm_compute in Hlevel. injection Hlevel as <-.
    exists html, params, p, model. split; [exact Hrun |].
    split; [exact Hhtml | exact Hfig].
Defined.

(** ** Formula mode and the intercept flag (C8) *)

(** Reduce the fields of an explicit record of core arguments. *)
Ltac core_fields :=
  cbn [Core.a_df Core.formula_check Core.formula_text Core.formula_latex
       Core.dependent_var Core.independent_vars Core.alpha Core.intercept
       Core.create_graph Core.graph_type Core.show_ci Core.show_pi
       Core.fit_to_obs Core.x_vector] in *.

Ltac request_fields :=
  cbn [state r_df r_filtered_df formula_check formula_text formula_latex
       dependent_var independent_vars alpha_input intercept graph_check
       graph_type show_ci show_pi fit_to_obs x_range_text] in *.

(** Both sides run the same step: follow it. *)
Ltac same_step :=
  match goal with
  | |- bind ?r _ = bind ?r _ => destruct r; cbn [bind]; [| reflexivity]
  | |- match ?x with _ => _ end = match ?x with _ => _ end => destruct x
  end.

Section FormulaMode.
Context {SM : Statsmodels}.

(** In formula mode the fit is the formula fit, whatever the flag. *)
Lemma fit_model_formula (a : Core.Args) (data : DataFrame) (y : Series) (X : DataFrame) :
  Core.formula_check a = true ->
  Core.fit_model a data y X
  = (raise_if (str_falsy (Core.formula_text a))
              "Formula is enabled but no formula text was provided." ;;;
     model <- ols_formula_fit data (Core.formula_text a) ;;
     Ok (model, true)).
Proof. intros Hf. unfold Core.fit_model. rewrite Hf. reflexivity. Qed.

(** The prediction design of a formula fit does not read the flag. *)
Lemma plot_formula_intercept (data : DataFrame) (x y : string) (b b' : bool)
      (latex : string) (m : Model) (alpha : pyfloat) (ci pi obs : bool)
      (xv : option (list pyfloat)) :
  Core.plot_simple_regression data x y b true latex m alpha ci pi obs xv
  = Core.plot_simple_regression data x y b' true latex m alpha ci pi obs xv.
Proof. reflexivity. Qed.

Lemma core_formula_intercept (a : Core.Args) :
  Core.formula_check a = true ->
  Core.run_linear_regression (core_with_intercept true a)
  = Core.run_linear_regression (core_with_intercept false a).
Proof.
  intros Hf. unfold Core.run_linear_regression, core_with_intercept. core_fields.
  repeat same_step; try reflexivity.
  rewrite !fit_model_formula by exact Hf. core_fields.
  destruct (raise_if _ _) as [[] |]; cbn [bind]; [| reflexivity].
  destruct (ols_formula_fit _ _) as [m |]; cbn [bind]; reflexivity.
Qed.

Lemma core_args_intercept (r : Request) (b : bool) (wd : DataFrame) (dep : string)
      (alpha : pyfloat) (xv : option (list pyfloat)) :
  core_args (request_with_intercept b r) wd dep alpha xv
  = core_with_intercept b (core_args r wd dep alpha xv).
Proof. reflexivity. Qed.

Lemma controller_formula_intercept (r : Request) :
  formula_check r = true ->
  run_linear_regression (request_with_intercept true r)
  = run_linear_regression (request_with_intercept false r).
Proof.
  intros Hf. unfold run_linear_regression, wants_simple_plot, request_with_intercept.
  request_fields.
  repeat same_step; try reflexivity.
  match goal with
  | |- bind (Core.run_linear_regression (core_args _ ?wd ?dep ?al ?xv)) _ = _ =>
      f_equal; exact (core_formula_intercept (core_args r wd dep al xv) Hf)
  end.
Qed.

End FormulaMode.

(** C8. In formula mode the formula alone decides the intercept: the fit is
    the formula fit of the data, and the whole outcome of the core and of
    the controller (model summary, coefficient table, figure with its
    prediction table) is the same for [intercept = True] and
    [intercept = False]. *)
Theorem formula_mode_ignores_intercept (SM : Statsmodels) :
  (forall a b data y X,
      Core.formula_check a = true ->
      Core.fit_model (core_with_intercept b a) data y X
      = (raise_if (str_falsy (Core.formula_text a))
                  "Formula is enabled but no formula text was provided." ;;;
         model <- ols_formula_fit data (Core.formula_text a) ;;
         Ok (model, true)))
  /\ (forall a,
         Core.formula_check a = true ->
         Core.run_linear_regression (core_with_intercept true a)
         = Core.run_linear_regression (core_with_intercept false a))
  /\ (forall r,
         formula_check r = true ->
         run_linear_regression (request_with_intercept true r)
         = run_linear_regression (request_with_intercept false r)).
Proof.
  split; [| split].
  - intros a b data y X Hf. now rewrite fit_model_formula.
  - apply core_formula_intercept.
  - apply controller_formula_intercept.
Qed.

(** The formula "y ~ x - 1" on [sample_frame], with either flag. *)
Lemma formula_mode_ignores_intercept_witness :
  run_linear_regression (SM := StandIn.recording_statsmodels)
    (request_with_intercept true (formula_regression "y ~ x - 1"))
  = run_linear_regression (SM := StandIn.recording_statsmodels)
      (request_with_intercept false (formula_regression "y ~ x - 1")).
Proof.
  apply (proj2 (proj2 (formula_mode_ignores_intercept StandIn.recording_statsmodels))).
  reflexivity.
Defined.

(** Outside formula mode the flag is read: the design gets a constant
    column with [intercept = True] only. *)
Example explicit_mode_reads_intercept :
  run_linear_regression (SM := StandIn.recording_statsmodels)
    (request_with_intercept true (sample_regression ["x"] "0.95" "" true))
  <> run_linear_regression (SM := StandIn.recording_statsmodels)
       (request_with_intercept false (sample_regression ["x"] "0.95" "" true)).
Proof. vm_compute. discriminate. Qed.

(** ** Facts on frames *)

Section FrameFacts.

Lemma position_has_column (n : string) (d : DataFrame) :
  has_column n d = true <-> exists i dt, position n (columns d) = Some (i, dt).
Proof.
  unfold has_column, column_names, str_in.
  induction (columns d) as [| [c dt] cols IH]; simpl.
  - split; [discriminate | intros (i & dt & H); discriminate].
  - rewrite (String.eqb_sym c n). destruct (String.eqb n c); simpl.
    + split; eauto.
    + rewrite IH. split.
      * intros (i & dt' & ->). eauto.
      * intros (i & dt' & H). destruct (position n cols) as [[j dj] |]; [eauto | discriminate].
Qed.

Lemma getitem_ok (d : DataFrame) (n : string) :
  has_column n d = true -> exists s, getitem d n = Ok s.
Proof.
  intros H. apply position_has_column in H. destruct H as (i & dt & H).
  unfold getitem. rewrite H. eauto.
Qed.

Lemma positions_names (names : list string) (cols : list (string * dtype)) ps :
  positions names cols = Ok ps -> map fst (map snd ps) = names.
Proof.
  revert ps. induction names as [| n names IH]; simpl; intros ps H.
  - now inversion H.
  - destruct (position n cols) as [[i dt] |]; [| discriminate].
    bind_inv H. inversion H; subst. simpl. f_equal. now apply IH.
Qed.

Lemma getitem_list_names (d sub : DataFrame) (names : list string) :
  getitem_list d names = Ok sub -> column_names sub = names.
Proof.
  unfold getitem_list. intros H. bind_inv H. inversion H; subst.
  unfold column_names. simpl. eapply positions_names; eassumption.
Qed.

Lemma getitem_list_ok (d : DataFrame) (names : list string) :
  forallb (fun n => has_column n d) names = true ->
  exists sub, getitem_list d names = Ok sub.
Proof.
  intros H. unfold getitem_list.
  assert (exists ps, positions names (columns d) = Ok ps) as (ps & ->).
  { induction names as [| n names IH]; simpl in *; [eauto |].
    apply andb_prop in H. destruct H as (Hn & Hrest).
    apply position_has_column in Hn. destruct Hn as (i & dt & ->).
    destruct (IH Hrest) as (ps & ->). simpl. eauto. }
  simpl. eauto.
Qed.

Lemma str_in_refl (n : string) (names : list string) : str_in n (n :: names) = true.
Proof. unfold str_in. simpl. now rewrite String.eqb_refl. Qed.

Lemma has_column_names (n : string) (d : DataFrame) (names : list string) :
  column_names d = names -> str_in n names = true -> has_column n d = true.
Proof. intros <- H. exact H. Qed.

Lemma dropna_frame_names (d : DataFrame) :
  column_names (dropna_frame d) = column_names d.
Proof. reflexivity. Qed.

Lemma sort_values_ok (d : DataFrame) (n : string) :
  has_column n d = true ->
  exists s, sort_values d n = Ok s /\ column_names s = column_names d.
Proof.
  intros H. apply position_has_column in H. destruct H as (i & dt & H).
  unfold sort_values. rewrite H. eauto.
Qed.

Lemma reset_index_names (d : DataFrame) :
  column_names (reset_index d) = column_names d.
Proof. reflexivity. Qed.

End FrameFacts.

(** ** The Simple Regression plot and the number of predictors (C5) *)

Lemma select_nonempty (df filtered : option DataFrame) (wd : DataFrame) :
  _select_working_dataframe df filtered = Ok wd -> empty wd = false.
Proof.
  destruct df as [d |]; [| discriminate]. simpl.
  destruct filtered as [f |].
  - destruct (empty f) eqn:Hf; simpl.
    + destruct (empty d) eqn:Hd; [discriminate | now intros [= <-]].
    + now intros [= <-].
  - destruct (empty d) eqn:Hd; [discriminate | now intros [= <-]].
Qed.

Lemma linspace_length (lo hi : pyfloat) (n : nat) :
  length (Np.linspace lo hi n) = n.
Proof.
  unfold Np.linspace.
  set (y := map _ (if (0 <? n - 1)%nat then _ else _)).
  assert (Hy : length y = n).
  { unfold y. rewrite length_map.
    destruct (0 <? n - 1)%nat; [destruct (feq _ _) |];
      now rewrite !length_map, length_seq. }
  destruct (1 <? n)%nat eqn:Hn; [| exact Hy].
  unfold Np.set_last. destruct y as [| v y']; [exact Hy |].
  rewrite length_app, removelast_firstn_len, length_firstn. simpl in *. lia.
Qed.

Lemma parse_range_some (text : string) (xs : list pyfloat) :
  _parse_range text = Ok (Some xs) ->
  exists p0 p1 lo hi,
    split "," (strip text) = [p0; p1]
    /\ float (strip p0) = Some lo /\ float (strip p1) = Some hi
    /\ fge lo hi = false /\ xs = Np.linspace lo hi 100.
Proof.
  unfold _parse_range. destruct (str_falsy (strip text)); [discriminate |].
  destruct (split "," (strip text)) as [| p0 [| p1 [| p2 ps]]]; try discriminate.
  destruct (float (strip p0)) as [lo |] eqn:Hlo; [| discriminate].
  destruct (float (strip p1)) as [hi |] eqn:Hhi; [| discriminate].
  destruct (fge lo hi) eqn:Hge; [discriminate |].
  intros [= <-]. exists p0, p1, lo, hi. repeat split; assumption || reflexivity.
Qed.

Lemma parse_range_length (text : string) (xs : list pyfloat) :
  _parse_range text = Ok (Some xs) -> length xs = 100%nat.
Proof.
  intros H. apply parse_range_some in H.
  destruct H as (p0 & p1 & lo & hi & _ & _ & _ & _ & ->). apply linspace_length.
Qed.

Lemma fails_err {A} (e : exn) : fails (@Err A e).
Proof. exists e. reflexivity. Qed.

(** The run fails at this step or goes on. *)
Ltac fail_step :=
  match goal with
  | |- fails (Err _) => apply fails_err
  | |- fails (bind ?r _) => destruct r eqn:?; cbn [bind]
  | |- fails (match ?x with _ => _ end) => destruct x eqn:?
  end.

Section SimplePlot.
Context {SM : Statsmodels}.

Lemma core_simple_plot_needs_one (a : Core.Args) :
  Core.create_graph a = true ->
  Core.graph_type a = "Simple Regression" ->
  length (Core.independent_vars a) <> 1%nat ->
  fails (Core.run_linear_regression a).
Proof.
  intros Hgraph Htype Hlen. unfold Core.run_linear_regression.
  rewrite Hgraph, Htype. cbn [String.eqb Ascii.eqb Bool.eqb].
  destruct (Core.independent_vars a) as [| x [| x' vars]] eqn:Hvars;
    [| now contradiction Hlen |]; repeat fail_step.
Qed.

Lemma controller_simple_plot_needs_one (r : Request) :
  wants_simple_plot r = true ->
  length (independent_vars r) <> 1%nat ->
  fails (run_linear_regression r).
Proof.
  intros Hplot Hlen. unfold run_linear_regression.
  rewrite Hplot. apply Nat.eqb_neq in Hlen. rewrite Hlen. cbn [negb andb raise_if].
  repeat fail_step.
Qed.

Lemma controller_no_predictor (r : Request) (wd : DataFrame) (dep : string) :
  _select_working_dataframe (r_df r) (r_filtered_df r) = Ok wd ->
  dependent_var r = Some dep -> str_falsy dep = false ->
  independent_vars r = [] ->
  run_linear_regression r
  = Err (ValueError "Please select at least one independent variable.").
Proof.
  intros Hsel Hdep Hfalsy Hvars. unfold run_linear_regression.
  rewrite Hsel, Hdep, Hfalsy, Hvars. reflexivity.
Qed.

Lemma controller_many_predictors (r : Request) (wd : DataFrame) (dep : string) :
  _select_working_dataframe (r_df r) (r_filtered_df r) = Ok wd ->
  dependent_var r = Some dep -> str_falsy dep = false ->
  wants_simple_plot r = true ->
  (2 <= length (independent_vars r))%nat ->
  run_linear_regression r
  = Err (ValueError
           "The 'Simple Regression' graph is only available when exactly one independent variable is selected.").
Proof.
  intros Hsel Hdep Hfalsy Hplot Hlen. unfold run_linear_regression.
  rewrite Hsel, Hdep, Hfalsy, Hplot.
  destruct (independent_vars r) as [| x [| x' vars]]; simpl in Hlen; try lia.
  reflexivity.
Qed.

End SimplePlot.

(** *** Fit-to-observations: the observed covariate values, sorted *)

Lemma insert_row_perm (i : nat) (r : Row) (l : list Row) :
  Permutation (r :: l) (insert_row i r l).
Proof.
  induction l as [| h t IH]; cbn [insert_row]; [reflexivity |].
  destruct (key_le _ _); [reflexivity |].
  rewrite perm_swap. now apply perm_skip.
Qed.

Lemma sort_rows_perm (i : nat) (l : list Row) : Permutation l (sort_rows i l).
Proof.
  induction l as [| h t IH]; cbn [sort_rows]; [reflexivity |].
  rewrite <- insert_row_perm. now apply perm_skip.
Qed.

Lemma combine_seq_snd {A} (l : list A) (start : nat) :
  map snd (combine (seq start (length l)) l) = l.
Proof.
  revert start. induction l as [| x l IH]; intros start; [reflexivity |].
  cbn [length seq combine map snd]. now rewrite IH.
Qed.

Lemma reset_index_cells (d : DataFrame) (i : nat) :
  map (cell_at i) (rows (reset_index d)) = map (cell_at i) (rows d).
Proof.
  assert (Hcells : forall l : list Row,
             map (cell_at i) l = map (fun cells => nth i cells PyNone) (map snd l))
    by (intros l; now rewrite map_map).
  rewrite !Hcells. unfold reset_index. cbn [rows]. f_equal.
  replace (length (rows d)) with (length (map snd (rows d))) by apply length_map.
  apply combine_seq_snd.
Qed.

Lemma first_cells_combine (idx : list nat) (cells : list (list Cell)) :
  map (fun r : Row => (fst r, [cell_at 0 r])) (combine idx cells)
  = combine idx (map (fun cs => [nth 0 cs PyNone]) cells).
Proof.
  revert cells. induction idx as [| i idx IH]; intros [| c cells]; try reflexivity.
  cbn [combine map fst]. now rewrite IH.
Qed.

(** In fit-to-observations mode the abscissae of the plot are the observed
    covariate values sorted, and the frame given to the model holds them. *)
Lemma prediction_input_observed {SM : Statsmodels} (data : DataFrame) (x y : string)
      (xv : option (list pyfloat)) (jx jy : nat) (dx dy : dtype) :
  position x (columns data) = Some (jx, dx) ->
  position y (columns data) = Some (jy, dy) ->
  Core.prediction_input data x y true xv
  = Ok (observed_sorted data jx jy, observed_frame data x dx jx jy).
Proof.
  intros Hx Hy. unfold Core.prediction_input, getitem_list.
  cbn [positions]. rewrite Hx, Hy. cbn [bind map snd fst].
  unfold sort_values, dropna_frame. cbn [columns rows position].
  rewrite String.eqb_refl. cbn [bind].
  fold (observed_rows data jx jy).
  unfold getitem. cbn [columns reset_index position]. rewrite String.eqb_refl.
  cbn [bind map snd fst]. do 2 f_equal.
  - unfold to_numpy. cbn [s_items]. rewrite map_map. cbn [snd].
    change (map (fun r : Row => cell_at 0 r) ?l) with (map (cell_at 0) l).
    rewrite (reset_index_cells {| columns := _; rows := sort_rows 0 _ |} 0).
    reflexivity.
  - unfold observed_frame, observed_sorted. f_equal. unfold reset_index. cbn [rows].
    rewrite first_cells_combine, !map_map, !length_map. reflexivity.
Qed.

Section SimplePlotSucceeds.
Context {SM : Statsmodels}.

(** The fit of the core, as a call of the library. *)
Lemma fit_model_call (a : Core.Args) (data : DataFrame) (y : Series) (X : DataFrame)
      (model : Model) :
  (Core.formula_check a = true -> str_falsy (Core.formula_text a) = false) ->
  (if Core.formula_check a
   then ols_formula_fit data (Core.formula_text a)
   else OLS_fit y (if Core.intercept a then add_constant X else X)) = Ok model ->
  Core.fit_model a data y X = Ok (model, Core.formula_check a).
Proof.
  intros Htext Hfit. unfold Core.fit_model.
  destruct (Core.formula_check a).
  - rewrite Htext by reflexivity. cbn [raise_if bind]. now rewrite Hfit.
  - now rewrite Hfit.
Qed.

Lemma last_default {A} (l : list A) (d d' : A) :
  l <> [] -> last l d = last l d'.
Proof.
  induction l as [| x l IH]; intros Hl; [now elim Hl |].
  destruct l as [| x' l']; [reflexivity |].
  change (last (x :: x' :: l') d) with (last (x' :: l') d).
  change (last (x :: x' :: l') d') with (last (x' :: l') d').
  now apply IH.
Qed.

Lemma last_map_flt (xs : list pyfloat) (d : pyfloat) :
  last (map Flt xs) (Flt d) = Flt (last xs d).
Proof.
  induction xs as [| v xs IH]; [reflexivity |].
  destruct xs as [| v' xs']; [reflexivity |].
  change (last (map Flt (v :: v' :: xs')) (Flt d)) with (last (map Flt (v' :: xs')) (Flt d)).
  change (last (v :: v' :: xs') d) with (last (v' :: xs') d). exact IH.
Qed.

(** The figure over the observed values. *)
Lemma plot_simple_regression_observed (data : DataFrame) (x y : string) (b uf : bool)
      (latex : string) (m : Model) (al : pyfloat) (ci pi : bool)
      (xv : option (list pyfloat)) (jx jy : nat) (dx dy : dtype) (pt : DataFrame) :
  position x (columns data) = Some (jx, dx) ->
  position y (columns data) = Some (jy, dy) ->
  get_prediction m
    (Some (if negb uf && b then add_constant (observed_frame data x dx jx jy)
           else observed_frame data x dx jx jy)) al = Ok pt ->
  Core.plot_simple_regression data x y b uf latex m al ci pi true xv
  = Ok (SimpleRegressionFigure
          {| x_plot := observed_sorted data jx jy; pred_table := pt;
             ci_band := ci; pi_band := pi; extrapolation := None;
             title := simple_plot_title uf latex y x;
             r2_label := rsquared m |}).
Proof.
  intros Hx Hy Hpt. unfold Core.plot_simple_regression.
  rewrite (prediction_input_observed data x y xv jx jy dx dy Hx Hy).
  cbn [bind]. rewrite Hpt. reflexivity.
Qed.

(** The figure over the abscissae of a range. *)
Lemma plot_simple_regression_range (data : DataFrame) (x y : string) (b uf : bool)
      (latex : string) (m : Model) (al : pyfloat) (ci pi : bool)
      (xs : list pyfloat) (dxs : Series) (pt : DataFrame) :
  xs <> [] ->
  getitem data x = Ok dxs ->
  get_prediction m
    (Some (if negb uf && b then add_constant (frame_of_array x xs)
           else frame_of_array x xs)) al = Ok pt ->
  Core.plot_simple_regression data x y b uf latex m al ci pi false (Some xs)
  = Ok (SimpleRegressionFigure
          {| x_plot := map Flt xs; pred_table := pt;
             ci_band := ci; pi_band := pi;
             extrapolation :=
               Some ((Flt (hd NaN xs), s_min dxs), (s_max dxs, Flt (last xs NaN)));
             title := simple_plot_title uf latex y x;
             r2_label := rsquared m |}).
Proof.
  intros Hxs Hdx Hpt. unfold Core.plot_simple_regression.
  cbn [Core.prediction_input bind negb]. rewrite Hpt. cbn [bind]. rewrite Hdx.
  cbn [bind]. destruct xs as [| v xs]; [now elim Hxs |].
  cbn [map hd bind].
  change (Flt v :: map Flt xs) with (map Flt (v :: xs)).
  rewrite (last_map_flt (v :: xs) v).
  now rewrite (last_default (v :: xs) v NaN).
Qed.

(** Up to the figure, a run of the core on the two columns [dep] and [x]. *)
Lemma core_simple_plot_run (a : Core.Args) (wd sub : DataFrame) (x : string)
      (ys : Series) (X : DataFrame) (model : Model) :
  Core.a_df a = Some wd -> empty wd = false ->
  Core.independent_vars a = [x] ->
  Core.create_graph a = true -> Core.graph_type a = "Simple Regression" ->
  (Core.formula_check a = true -> str_falsy (Core.formula_text a) = false) ->
  getitem_list wd [Core.dependent_var a; x] = Ok sub ->
  empty (dropna_frame sub) = false ->
  getitem (dropna_frame sub) (Core.dependent_var a) = Ok ys ->
  getitem_list (dropna_frame sub) [x] = Ok X ->
  (if Core.formula_check a
   then ols_formula_fit (dropna_frame sub) (Core.formula_text a)
   else OLS_fit ys (if Core.intercept a then add_constant X else X)) = Ok model ->
  Core.run_linear_regression a
  = (f <- Core.plot_simple_regression (dropna_frame sub) x (Core.dependent_var a)
            (Core.intercept a) (Core.formula_check a) (Core.formula_latex a) model
            (Core.alpha a) (Core.show_ci a) (Core.show_pi a) (Core.fit_to_obs a)
            (Core.x_vector a) ;;
     Ok (summary2_html model (Core.alpha a), summary2_params model (Core.alpha a),
         Some f)).
Proof.
  intros Hdf Hwd Hvars Hgraph Htype Htext Hsub Hrows Hys HX Hfit.
  assert (Hcols : has_column (Core.dependent_var a) wd = true /\ has_column x wd = true).
  { revert Hsub. unfold getitem_list. cbn [positions].
    destruct (position (Core.dependent_var a) (columns wd)) as [[jd dd] |] eqn:Hpd;
      [| discriminate].
    destruct (position x (columns wd)) as [[jx dx] |] eqn:Hpx; [| discriminate].
    intros _. split; apply position_has_column; eauto. }
  destruct Hcols as (Hcdep & Hcx).
  unfold Core.run_linear_regression.
  rewrite Hdf, Hwd, Hcdep, Hvars, Hgraph, Htype.
  unfold Core.first_missing. cbn [find negb raise_if bind length Nat.eqb].
  rewrite Hcx. cbn [negb]. rewrite Hsub. cbn [bind]. rewrite Hrows.
  cbn [bind raise_if]. rewrite Hys. cbn [bind]. rewrite HX. cbn [bind].
  rewrite (fit_model_call a (dropna_frame sub) ys X model Htext Hfit).
  cbn [bind String.eqb Ascii.eqb Bool.eqb].
  destruct (Core.plot_simple_regression _ _ _ _ _ _ _ _ _ _ _ _); reflexivity.
Qed.

(** Up to the core, a run of the controller that asks for the Simple
    Regression plot of one predictor. *)
Lemma controller_simple_plot_run (r : Request) (wd : DataFrame) (dep x : string)
      (al : pyfloat) (xv : option (list pyfloat)) :
  _select_working_dataframe (r_df r) (r_filtered_df r) = Ok wd ->
  dependent_var r = Some dep -> str_falsy dep = false ->
  independent_vars r = [x] ->
  wants_simple_plot r = true ->
  _parse_confidence_level (alpha_input r) = Ok al ->
  (if negb (fit_to_obs r) then _parse_range (x_range_text r) else Ok None) = Ok xv ->
  run_linear_regression r
  = (res <- Core.run_linear_regression (core_args r wd dep al xv) ;;
     let '(summary_html, params_df, fig) := res in
     Ok (summary_html, round params_df (display_precision (state r)), fig)).
Proof.
  intros Hsel Hdep Hfalsy Hvars Hplot Halpha Hxv. unfold run_linear_regression.
  rewrite Hsel, Hdep, Hfalsy, Hvars, Hplot, Halpha.
  cbn [bind raise_if length Nat.eqb negb andb]. rewrite Hxv. reflexivity.
Qed.

Lemma wants_simple_plot_inv (r : Request) :
  wants_simple_plot r = true ->
  graph_check r = true /\ graph_type r = "Simple Regression".
Proof.
  unfold wants_simple_plot. intros Hplot. apply andb_prop in Hplot.
  destruct Hplot as (Hg & Ht). split; [exact Hg | now apply String.eqb_eq].
Qed.

Lemma controller_simple_plot_observed (r : Request) (wd : DataFrame) (dep x : string)
      (al : pyfloat) (sub : DataFrame) (ys : Series) (X : DataFrame)
      (jx jy : nat) (dx dy : dtype) (model : Model) (pt : DataFrame) :
  _select_working_dataframe (r_df r) (r_filtered_df r) = Ok wd ->
  dependent_var r = Some dep -> str_falsy dep = false ->
  independent_vars r = [x] ->
  wants_simple_plot r = true ->
  fit_to_obs r = true ->
  _parse_confidence_level (alpha_input r) = Ok al ->
  (formula_check r = true -> str_falsy (formula_text r) = false) ->
  getitem_list wd [dep; x] = Ok sub ->
  empty (dropna_frame sub) = false ->
  getitem (dropna_frame sub) dep = Ok ys ->
  getitem_list (dropna_frame sub) [x] = Ok X ->
  position x (columns sub) = Some (jx, dx) ->
  position dep (columns sub) = Some (jy, dy) ->
  (if formula_check r
   then ols_formula_fit (dropna_frame sub) (formula_text r)
   else OLS_fit ys (if intercept r then add_constant X else X)) = Ok model ->
  get_prediction model
    (Some (if negb (formula_check r) && intercept r
           then add_constant (observed_frame (dropna_frame sub) x dx jx jy)
           else observed_frame (dropna_frame sub) x dx jx jy)) al = Ok pt ->
  run_linear_regression r
  = Ok (summary2_html model al,
        round (summary2_params model al) (display_precision (state r)),
        Some (SimpleRegressionFigure
                {| x_plot := observed_sorted (dropna_frame sub) jx jy;
                   pred_table := pt;
                   ci_band := show_ci r; pi_band := show_pi r;
                   extrapolation := None;
                   title := simple_plot_title (formula_check r) (formula_latex r) dep x;
                   r2_label := rsquared model |})).
Proof.
  intros Hsel Hdep Hfalsy Hvars Hplot Hobs Halpha Htext Hsub Hrows Hys HX Hpx Hpy
         Hfit Hpt.
  destruct (wants_simple_plot_inv r Hplot) as (Hgraph & Htype).
  rewrite (controller_simple_plot_run r wd dep x al None Hsel Hdep Hfalsy Hvars Hplot
             Halpha) by (now rewrite Hobs).
  rewrite (core_simple_plot_run (core_args r wd dep al None) wd sub x ys X model
             eq_refl (select_nonempty _ _ _ Hsel) Hvars Hgraph Htype Htext Hsub Hrows
             Hys HX Hfit).
  cbn [core_args Core.dependent_var Core.intercept Core.formula_check Core.formula_latex
       Core.alpha Core.show_ci Core.show_pi Core.fit_to_obs Core.x_vector].
  rewrite Hobs.
  rewrite (plot_simple_regression_observed (dropna_frame sub) x dep (intercept r)
             (formula_check r) (formula_latex r) model al (show_ci r) (show_pi r) None
             jx jy dx dy pt Hpx Hpy Hpt).
  reflexivity.
Qed.

Lemma controller_simple_plot_range (r : Request) (wd : DataFrame) (dep x : string)
      (al : pyfloat) (xs : list pyfloat) (sub : DataFrame) (ys dxs : Series)
      (X : DataFrame) (model : Model) (pt : DataFrame) :
  _select_working_dataframe (r_df r) (r_filtered_df r) = Ok wd ->
  dependent_var r = Some dep -> str_falsy dep = false ->
  independent_vars r = [x] ->
  wants_simple_plot r = true ->
  fit_to_obs r = false ->
  _parse_confidence_level (alpha_input r) = Ok al ->
  _parse_range (x_range_text r) = Ok (Some xs) ->
  (formula_check r = true -> str_falsy (formula_text r) = false) ->
  getitem_list wd [dep; x] = Ok sub ->
  empty (dropna_frame sub) = false ->
  getitem (dropna_frame sub) dep = Ok ys ->
  getitem (dropna_frame sub) x = Ok dxs ->
  getitem_list (dropna_frame sub) [x] = Ok X ->
  (if formula_check r
   then ols_formula_fit (dropna_frame sub) (formula_text r)
   else OLS_fit ys (if intercept r then add_constant X else X)) = Ok model ->
  get_prediction model
    (Some (if negb (formula_check r) && intercept r
           then add_constant (frame_of_array x xs)
           else frame_of_array x xs)) al = Ok pt ->
  run_linear_regression r
  = Ok (summary2_html model al,
        round (summary2_params model al) (display_precision (state r)),
        Some (SimpleRegressionFigure
                {| x_plot := map Flt xs;
                   pred_table := pt;
                   ci_band := show_ci r; pi_band := show_pi r;
                   extrapolation :=
                     Some ((Flt (hd NaN xs), s_min dxs), (s_max dxs, Flt (last xs NaN)));
                   title := simple_plot_title (formula_check r) (formula_latex r) dep x;
                   r2_label := rsquared model |})).
Proof.
  intros Hsel Hdep Hfalsy Hvars Hplot Hobs Halpha Hrange Htext Hsub Hrows Hys Hdxs HX
         Hfit Hpt.
  destruct (wants_simple_plot_inv r Hplot) as (Hgraph & Htype).
  rewrite (controller_simple_plot_run r wd dep x al (Some xs) Hsel Hdep Hfalsy Hvars
             Hplot Halpha) by (now rewrite Hobs).
  rewrite (core_simple_plot_run (core_args r wd dep al (Some xs)) wd sub x ys X model
             eq_refl (select_nonempty _ _ _ Hsel) Hvars Hgraph Htype Htext Hsub Hrows
             Hys HX Hfit).
  cbn [core_args Core.dependent_var Core.intercept Core.formula_check Core.formula_latex
       Core.alpha Core.show_ci Core.show_pi Core.fit_to_obs Core.x_vector].
  rewrite Hobs.
  rewrite (plot_simple_regression_range (dropna_frame sub) x dep (intercept r)
             (formula_check r) (formula_latex r) model al (show_ci r) (show_pi r)
             xs dxs pt); [reflexivity | | exact Hdxs | exact Hpt].
  apply parse_range_length in Hrange. intros ->. discriminate.
Qed.

End SimplePlotSucceeds.

(** C5. A call that asks for the Simple Regression plot fails whenever the
    number of selected independent variables is not exactly one: in the
    controller (once the dataset and the dependent variable are in order,
    with the message of the Simple Regression guard when two or more are
    selected, and with the message of the guard on an empty selection when
    none is) and in the core.  With exactly one, [x], and the other inputs
    valid, the call returns the summary of the fitted model, its coefficient
    table rounded, and the Simple Regression figure: the fit is that of the
    response on [x] over the complete rows, and the figure shows the
    prediction table of this model at the significance level of the call,
    over the observed values of [x] in ascending order or over the 100
    abscissae of the range. *)
Theorem simple_plot_requires_one_predictor (SM : Statsmodels) :
  (forall r,
      wants_simple_plot r = true ->
      length (independent_vars r) <> 1%nat ->
      fails (run_linear_regression r))
  /\ (forall r wd dep,
         _select_working_dataframe (r_df r) (r_filtered_df r) = Ok wd ->
         dependent_var r = Some dep -> str_falsy dep = false ->
         wants_simple_plot r = true ->
         (2 <= length (independent_vars r))%nat ->
         run_linear_regression r
         = Err (ValueError
                  "The 'Simple Regression' graph is only available when exactly one independent variable is selected."))
  /\ (forall r wd dep,
         _select_working_dataframe (r_df r) (r_filtered_df r) = Ok wd ->
         dependent_var r = Some dep -> str_falsy dep = false ->
         independent_vars r = [] ->
         run_linear_regression r
         = Err (ValueError "Please select at least one independent variable."))
  /\ (forall a,
         Core.create_graph a = true ->
         Core.graph_type a = "Simple Regression" ->
         length (Core.independent_vars a) <> 1%nat ->
         fails (Core.run_linear_regression a))
  /\ (forall r wd dep x al sub ys X jx jy dx dy model pt,
         _select_working_dataframe (r_df r) (r_filtered_df r) = Ok wd ->
         dependent_var r = Some dep -> str_falsy dep = false ->
         independent_vars r = [x] ->
         wants_simple_plot r = true ->
         fit_to_obs r = true ->
         _parse_confidence_level (alpha_input r) = Ok al ->
         (formula_check r = true -> str_falsy (formula_text r) = false) ->
         getitem_list wd [dep; x] = Ok sub ->
         empty (dropna_frame sub) = false ->
         getitem (dropna_frame sub) dep = Ok ys ->
         getitem_list (dropna_frame sub) [x] = Ok X ->
         position x (columns sub) = Some (jx, dx) ->
         position dep (columns sub) = Some (jy, dy) ->
         (if formula_check r
          then ols_formula_fit (dropna_frame sub) (formula_text r)
          else OLS_fit ys (if intercept r then add_constant X else X)) = Ok model ->
         get_prediction model
           (Some (if negb (formula_check r) && intercept r
                  then add_constant (observed_frame (dropna_frame sub) x dx jx jy)
                  else observed_frame (dropna_frame sub) x dx jx jy)) al = Ok pt ->
         run_linear_regression r
         = Ok (summary2_html model al,
               round (summary2_params model al) (display_precision (state r)),
               Some (SimpleRegressionFigure
                       {| x_plot := observed_sorted (dropna_frame sub) jx jy;
                          pred_table := pt;
                          ci_band := show_ci r; pi_band := show_pi r;
                          extrapolation := None;
                          title := simple_plot_title (formula_check r) (formula_latex r)
                                                     dep x;
                          r2_label := rsquared model |})))
  /\ (forall r wd dep x al xs sub ys dxs X model pt,
         _select_working_dataframe (r_df r) (r_filtered_df r) = Ok wd ->
         dependent_var r = Some dep -> str_falsy dep = false ->
         independent_vars r = [x] ->
         wants_simple_plot r = true ->
         fit_to_obs r = false ->
         _parse_confidence_level (alpha_input r) = Ok al ->
         _parse_range (x_range_text r) = Ok (Some xs) ->
         (formula_check r = true -> str_falsy (formula_text r) = false) ->
         getitem_list wd [dep; x] = Ok sub ->
         empty (dropna_frame sub) = false ->
         getitem (dropna_frame sub) dep = Ok ys ->
         getitem (dropna_frame sub) x = Ok dxs ->
         getitem_list (dropna_frame sub) [x] = Ok X ->
         (if formula_check r
          then ols_formula_fit (dropna_frame sub) (formula_text r)
          else OLS_fit ys (if intercept r then add_constant X else X)) = Ok model ->
         get_prediction model
           (Some (if negb (formula_check r) && intercept r
                  then add_constant (frame_of_array x xs)
                  else frame_of_array x xs)) al = Ok pt ->
         length xs = 100%nat
         /\ run_linear_regression r
            = Ok (summary2_html model al,
                  round (summary2_params model al) (display_precision (state r)),
                  Some (SimpleRegressionFigure
                          {| x_plot := map Flt xs;
                             pred_table := pt;
                             ci_band := show_ci r; pi_band := show_pi r;
                             extrapolation :=
                               Some ((Flt (hd NaN xs), s_min dxs),
                                     (s_max dxs, Flt (last xs NaN)));
                             title := simple_plot_title (formula_check r)
                                                        (formula_latex r) dep x;
                             r2_label := rsquared model |}))).
Proof.
  split; [| split; [| split; [| split; [| split]]]].
  - apply controller_simple_plot_needs_one.
  - apply controller_many_predictors.
  - apply controller_no_predictor.
  - apply core_simple_plot_needs_one.
  - apply controller_simple_plot_observed.
  - intros r wd dep x al xs sub ys dxs X model pt Hsel Hdep Hfalsy Hvars Hplot Hobs
           Halpha Hrange Htext Hsub Hrows Hys Hdxs HX Hfit Hpt.
    split; [now apply (parse_range_length (x_range_text r)) |].
    now apply (controller_simple_plot_range r wd dep x al xs sub ys dxs X model pt).
Qed.

(** [y] on [x] of the sample over its observed values: the figure shows the
    four observed values of [x] in ascending order; [y] on [x] and [g]
    fails. *)
Lemma simple_plot_requires_one_predictor_witness :
  (exists html params p,
      run_linear_regression (SM := StandIn.recording_statsmodels)
        (sample_regression ["x"] "0.95" "" true)
      = Ok (html, params, Some (SimpleRegressionFigure p))
      /\ x_plot p = [qcell 1 1; qcell 2 1; qcell 3 1; qcell 4 1])
  /\ fails (run_linear_regression (SM := StandIn.recording_statsmodels)
              (sample_regression ["x"; "g"] "0.95" "" true)).
Proof.
  pose proof (simple_plot_requires_one_predictor StandIn.recording_statsmodels)
    as (Hfail & _ & _ & _ & Hok & _).
  split.
  - do 3 eexists. split.
    + eapply (Hok (sample_regression ["x"] "0.95" "" true) sample_frame "y" "x");
        try (vm_compute; reflexivity); discriminate.
    + vm_compute. reflexivity.
  - apply Hfail; [reflexivity | simpl; lia].
Defined.

(** ** The abscissae of the Simple Regression plot (C9) *)

Lemma parse_range_rejects_ge (text p0 p1 : string) (lo hi : pyfloat) :
  str_falsy (strip text) = false ->
  split "," (strip text) = [p0; p1] ->
  float (strip p0) = Some lo -> float (strip p1) = Some hi ->
  fge lo hi = true ->
  _parse_range text
  = Err (ValueError "Range minimum must be strictly less than the maximum.").
Proof.
  intros Hs Hsplit Hlo Hhi Hge. unfold _parse_range.
  now rewrite Hs, Hsplit, Hlo, Hhi, Hge.
Qed.

Lemma parse_range_malformed (text : string) :
  str_falsy (strip text) = false ->
  (length (split "," (strip text)) <> 2%nat
   \/ exists p0 p1, split "," (strip text) = [p0; p1]
                    /\ (float (strip p0) = None \/ float (strip p1) = None)) ->
  fails (_parse_range text).
Proof.
  intros Hs Hbad. unfold _parse_range. rewrite Hs.
  destruct Hbad as [Hlen | (p0 & p1 & -> & Hnum)].
  - destruct (split "," (strip text)) as [| p0 [| p1 [| p2 ps]]];
      try apply fails_err. now contradiction Hlen.
  - destruct Hnum as [-> | ->]; [| destruct (float (strip p0))]; apply fails_err.
Qed.

Lemma parse_range_grid (text p0 p1 : string) (lo hi : pyfloat) :
  str_falsy (strip text) = false ->
  split "," (strip text) = [p0; p1] ->
  float (strip p0) = Some lo -> float (strip p1) = Some hi ->
  fge lo hi = false ->
  _parse_range text = Ok (Some (Np.linspace lo hi 100))
  /\ length (Np.linspace lo hi 100) = 100%nat.
Proof.
  intros Hs Hsplit Hlo Hhi Hge. unfold _parse_range.
  rewrite Hs, Hsplit, Hlo, Hhi, Hge. split; [reflexivity | apply linspace_length].
Qed.

Lemma set_last_nth_before (y : list pyfloat) (stop d : pyfloat) (i : nat) :
  (i < length y - 1)%nat -> nth i (Np.set_last y stop) d = nth i y d.
Proof.
  intros Hi. unfold Np.set_last. destruct y as [| v y']; [reflexivity |].
  rewrite app_nth1 by (rewrite removelast_firstn_len, length_firstn; simpl in *; lia).
  rewrite removelast_firstn_len, nth_firstn.
  replace (i <? _)%nat with true; [reflexivity |].
  symmetry. apply Nat.ltb_lt. simpl in *. lia.
Qed.

Lemma set_last_nth_last (y : list pyfloat) (stop d : pyfloat) :
  y <> [] -> nth (length y - 1) (Np.set_last y stop) d = stop.
Proof.
  intros Hy. unfold Np.set_last. destruct y as [| v y']; [contradiction |].
  rewrite app_nth2; rewrite removelast_firstn_len, length_firstn; [| simpl; lia].
  replace (_ - _)%nat with 0%nat by (simpl; lia). reflexivity.
Qed.

Lemma linspace_last (lo hi : pyfloat) :
  nth 99 (Np.linspace lo hi 100) NaN = hi.
Proof.
  unfold Np.linspace. change (1 <? 100)%nat with true. cbv beta iota.
  set (y := map _ _).
  assert (Hlen : length y = 100%nat).
  { unfold y. rewrite length_map. change (0 <? 100 - 1)%nat with true. cbv beta iota.
    destruct (feq _ _); now rewrite !length_map, length_seq. }
  replace 99%nat with (length y - 1)%nat by (rewrite Hlen; reflexivity).
  apply set_last_nth_last. intros ->. discriminate.
Qed.

(** *** The order of the observed covariate values *)

(** On numbers the order of [sort_values] is total. *)
Lemma key_le_total (a b : pyfloat) :
  key_le (Flt a) (Flt b) = false -> key_le (Flt b) (Flt a) = true.
Proof.
  unfold key_le, fle, is_nan.
  destruct a as [x | | |], b as [y | | |]; try reflexivity; try discriminate.
  rewrite !orb_false_r. intros Hle.
  destruct (Qle_bool y x) eqn:Hyx; [reflexivity |]. exfalso.
  destruct (Qlt_le_dec y x) as [Hlt | Hxy].
  - apply Qlt_le_weak, Qle_bool_iff in Hlt. congruence.
  - apply Qle_bool_iff in Hxy. congruence.
Qed.

Lemma insert_row_sorted (i : nat) (r : Row) (l : list Row) :
  numeric_key i r -> Forall (numeric_key i) l ->
  Sorted (fun a b => key_le (cell_at i a) (cell_at i b) = true) l ->
  Sorted (fun a b => key_le (cell_at i a) (cell_at i b) = true) (insert_row i r l).
Proof.
  intros (v & Hv) Hnum Hsorted. induction Hsorted as [| h t Ht IH Hhd]; cbn [insert_row].
  - repeat constructor.
  - destruct (key_le (cell_at i r) (cell_at i h)) eqn:Hle.
    + constructor; [now constructor | now constructor].
    + inversion Hnum as [| ? ? (u & Hu) Hnum']; subst.
      constructor; [now apply IH |].
      assert (Hhr : key_le (cell_at i h) (cell_at i r) = true).
      { rewrite Hv, Hu in *. now apply key_le_total. }
      destruct t as [| h' t']; cbn [insert_row]; [now constructor |].
      destruct (key_le (cell_at i r) (cell_at i h')); constructor;
        [exact Hhr | now inversion Hhd].
Qed.

Lemma sort_rows_sorted (i : nat) (l : list Row) :
  Forall (numeric_key i) l ->
  Sorted (fun a b => key_le (cell_at i a) (cell_at i b) = true) (sort_rows i l).
Proof.
  induction 1 as [| h t Hh Ht IH]; cbn [sort_rows]; [constructor |].
  apply insert_row_sorted; [exact Hh | | exact IH].
  eapply Permutation_Forall; [apply sort_rows_perm | exact Ht].
Qed.

Lemma sorted_map_key (i : nat) (l : list Row) :
  Sorted (fun a b => key_le (cell_at i a) (cell_at i b) = true) l ->
  ascending (map (cell_at i) l).
Proof.
  unfold ascending. induction 1 as [| h t Ht IH Hhd]; cbn [map]; constructor.
  - exact IH.
  - destruct Hhd; cbn [map]; now constructor.
Qed.

(** The observed covariate values come out in ascending order, and they
    are the observed ones, each as often as it was observed. *)
Lemma observed_sorted_ascending (data : DataFrame) (jx jy : nat) :
  Forall (numeric_key jx) (rows data) ->
  ascending (observed_sorted data jx jy)
  /\ Permutation (map (cell_at 0) (observed_rows data jx jy))
                 (observed_sorted data jx jy).
Proof.
  intros Hnum. unfold observed_sorted. split.
  - apply sorted_map_key, sort_rows_sorted.
    unfold observed_rows. apply Forall_forall. intros row Hin.
    apply filter_In in Hin. destruct Hin as (Hin & _).
    apply in_map_iff in Hin. destruct Hin as (r0 & <- & Hin0).
    rewrite Forall_forall in Hnum. destruct (Hnum r0 Hin0) as (v & Hv).
    exists v. exact Hv.
  - apply Permutation_map, sort_rows_perm.
Qed.

(** C9, at the input "nan, 5": the text splits in two parts that both
    parse, the minimum NaN is not strictly less than the maximum 5, and
    [_parse_range] returns a grid of 100 points instead of raising. *)
Theorem parse_range_accepts_nan_minimum :
  float (strip "nan") = Some NaN
  /\ float (strip " 5") = Some (Fin 5)
  /\ flt NaN (Fin 5) = false
  /\ _parse_range "nan, 5" = Ok (Some (Np.linspace NaN (Fin 5) 100))
  /\ length (Np.linspace NaN (Fin 5) 100) = 100%nat
  /\ nth 0 (Np.linspace NaN (Fin 5) 100) f0 = NaN
  /\ is_ok (run_linear_regression (SM := StandIn.recording_statsmodels)
              (sample_regression ["x"] "0.95" "nan, 5" false)) = true.
Proof. repeat split; vm_compute; reflexivity. Qed.

(** ** The hypothesis-test dispatcher (C6) *)

Import HypothesisController.

(** Unfold the dispatcher's monad, up to the rounding of the table. *)
Ltac run_unfold :=
  unfold run_hypothesis_testing, bindM, read_df, lift, throw, call, ret;
  cbv beta iota.

(** Split on the scrutinee of a [match] of the goal. *)
Ltac run_case :=
  match goal with
  | |- context [match ?x with _ => _ end] => destruct x eqn:?; cbv beta iota
  end.

Lemma nth_error_last {A} (l : list A) (x : A) : nth_error (l ++ [x]) (length l) = Some x.
Proof. rewrite nth_error_app2 by lia. now rewrite Nat.sub_diag. Qed.

Lemma set_nth_last {A} (l : list A) (x y : A) :
  set_nth (length l) y (l ++ [x]) = (l ++ [y])%list.
Proof. induction l as [| h t IH]; [reflexivity |]. cbn. now rewrite IH. Qed.

(** An object that was in the heap is in the heap extended. *)
Lemma nth_error_extended {A} (l objs : list A) (a : nat) (t : A) :
  nth_error l a = Some t -> nth_error (l ++ objs) a = Some t.
Proof.
  intros Ha. rewrite nth_error_app1; [exact Ha |].
  apply nth_error_Some. congruence.
Qed.

Section RoundTable.
Context {H : HypothesisTests}.

(** [_round_table] returns what [rounded_table] says; it allocates the copy
    and writes to the copy only. *)
Lemma round_table_run (table : option DataFrame) (decimals : Z) (w : World) :
  exists objs,
    _round_table table decimals w
    = (rounded_table table decimals,
       {| w_heap := w_heap w ++ objs; w_arg := w_arg w; w_calls := w_calls w |}).
Proof.
  destruct table as [t |]; cbn [_round_table rounded_table].
  - unfold bindM, copy, load, setitem_rounded, bindM, load, lift, store, ret.
    cbn [w_heap w_arg w_calls]. rewrite nth_error_last.
    destruct (number_columns t) as [| c cols] eqn:Hcols;
      cbn [length Nat.ltb Nat.leb w_heap w_arg w_calls].
    + rewrite nth_error_last. now exists [t].
    + rewrite nth_error_last. destruct (has_duplicate (c :: cols)); cbn [raise_if].
      * now exists [t].
      * cbn [w_heap w_arg w_calls]. rewrite set_nth_last, nth_error_last.
        now exists [round t decimals].
  - exists []. unfold ret. rewrite app_nil_r. now destruct w.
Qed.

Lemma finish_run (r : Request) (res : option DataFrame * option TestFigure) (w : World) :
  exists objs,
    finish r res w
    = (rounded_outcome r (Ok res),
       {| w_heap := w_heap w ++ objs; w_arg := w_arg w; w_calls := w_calls w |}).
Proof.
  unfold finish, bindM.
  destruct (round_table_run (fst res) (display_precision (state r)) w) as (objs & ->).
  exists objs. cbn [rounded_outcome]. destruct (rounded_table _ _); reflexivity.
Qed.

End RoundTable.

(** Replace the rounding of the table by its outcome. *)
Ltac finish_step :=
  match goal with
  | |- context [finish ?r ?res ?w] =>
      let objs := fresh "objs" in
      destruct (finish_run r res w) as (objs & ->); cbn [w_heap w_arg w_calls]
  end.

Section Dispatcher.
Context {H : HypothesisTests}.

(** A run extends the heap, keeps the address of its argument, and either
    raises with no routine called, or has called the one routine its test
    name designates and returns that routine's outcome, the table rounded. *)
Lemma dispatcher_outcome (r : Request) (w : World) :
  (exists objs, w_heap (snd (run_hypothesis_testing r w)) = (w_heap w ++ objs)%list)
  /\ w_arg (snd (run_hypothesis_testing r w)) = w_arg w
  /\ ((w_calls (snd (run_hypothesis_testing r w)) = w_calls w
       /\ fails (fst (run_hypothesis_testing r w)))
      \/ exists c,
          w_calls (snd (run_hypothesis_testing r w)) = (w_calls w ++ [c])%list
          /\ routed_by (hypo_test r) c
          /\ fst (run_hypothesis_testing r w) = rounded_outcome r (perform c)).
Proof.
  run_unfold. repeat run_case; try finish_step; cbn [fst snd w_heap w_arg w_calls];
    (split; [first [now exists objs | exists []; now rewrite app_nil_r] |]);
    (split; [reflexivity |]);
    try (left; split; [reflexivity | apply fails_err]);
    right; eexists; (split; [reflexivity |]);
    (split; [cbn [routed_by]; now apply String.eqb_eq |]);
    match goal with Hp : perform _ = _ |- _ => rewrite Hp end; reflexivity.
Qed.

Lemma dispatcher_keeps_objects (r : Request) (w : World) (a : nat) (t : DataFrame) :
  nth_error (w_heap w) a = Some t ->
  nth_error (w_heap (snd (run_hypothesis_testing r w))) a = Some t.
Proof.
  intros Ha. destruct (dispatcher_outcome r w) as ((objs & ->) & _).
  now apply nth_error_extended.
Qed.

Lemma dispatcher_keeps_argument (r : Request) (w : World) :
  w_arg (snd (run_hypothesis_testing r w)) = w_arg w
  /\ w_df (snd (run_hypothesis_testing r w)) = w_df w.
Proof.
  destruct (dispatcher_outcome r w) as (_ & Harg & _). split; [exact Harg |].
  unfold w_df at 1. rewrite Harg. unfold w_df.
  destruct (w_arg w) as [a |] eqn:Ha; [| reflexivity].
  destruct (nth_error (w_heap w) a) as [t |] eqn:Ht.
  - now apply dispatcher_keeps_objects.
  - assert (Hdf : w_df w = None) by (unfold w_df; now rewrite Ha).
    unfold run_hypothesis_testing, bindM, read_df, throw. rewrite Hdf. cbn [snd].
    now rewrite Ht.
Qed.

Lemma dispatcher_unknown_name (r : Request) (w : World) :
  ~ recognized (hypo_test r) ->
  fails (fst (run_hypothesis_testing r w))
  /\ w_calls (snd (run_hypothesis_testing r w)) = w_calls w.
Proof.
  intros Hname.
  destruct (dispatcher_outcome r w) as (_ & _ & [(Hcalls & Hfail) | (c & _ & Hc & _)]).
  - now split.
  - exfalso. apply Hname. unfold recognized.
    destruct c; cbn [routed_by] in Hc; auto.
Qed.

Lemma dispatcher_unknown_message (r : Request) (w : World) (d : DataFrame)
      (sample : list Cell) :
  ~ recognized (hypo_test r) ->
  w_df w = Some d ->
  _ensure_numeric_series (Some d) (numeric_col r) = Ok sample ->
  fst (run_hypothesis_testing r w)
  = Err (ValueError ("Unknown hypothesis test: " ++ hypo_test r)).
Proof.
  intros Hname Hdf Hnum. run_unfold. rewrite Hdf, Hnum. cbv beta iota.
  unfold recognized in Hname.
  repeat match goal with
         | |- context [String.eqb (hypo_test r) ?s] =>
             destruct (String.eqb_spec (hypo_test r) s); [exfalso; auto |]
         end.
  reflexivity.
Qed.

Lemma bindM_read {A} (k : option DataFrame -> M A) (w : World) :
  bindM read_df k w = k (w_df w) w.
Proof. reflexivity. Qed.

Lemma bindM_lift {A B} (x : Result A) (k : A -> M B) (w : World) :
  bindM (lift x) k w = match x with Ok a => k a w | Err e => (Err e, w) end.
Proof. unfold bindM, lift. now destruct x. Qed.

(** A run that fails has called no routine, or has called one that raised
    or whose table pandas refuses to round. *)
Lemma dispatcher_failure (r : Request) (w : World) :
  fails (fst (run_hypothesis_testing r w)) ->
  w_calls (snd (run_hypothesis_testing r w)) = w_calls w
  \/ exists c,
      w_calls (snd (run_hypothesis_testing r w)) = (w_calls w ++ [c])%list
      /\ (fails (routine_outcome c)
          \/ exists tbl fig,
              routine_outcome c = Ok (Some tbl, fig)
              /\ has_duplicate (number_columns tbl) = true).
Proof.
  intros (e & Hfail).
  destruct (dispatcher_outcome r w) as (_ & _ & [(Hcalls & _) | (c & Hcalls & _ & Hout)]);
    [now left |].
  right. exists c. split; [exact Hcalls |].
  rewrite Hfail in Hout.
  assert (Hroutine : perform c = routine_outcome c) by (now destruct c).
  rewrite Hroutine in Hout.
  destruct (routine_outcome c) as [[table fig] | e']; [| left; apply fails_err].
  right. cbn [rounded_outcome fst snd] in Hout.
  destruct table as [tbl |]; cbn [rounded_table bind] in Hout; [| discriminate].
  exists tbl, fig. split; [reflexivity |].
  destruct (number_columns tbl); [discriminate |].
  destruct (has_duplicate _); [reflexivity | discriminate].
Qed.

(** The end of every branch that reaches a routine: the call, then the
    rounding of its table. *)
Lemma call_then_finish (r : Request) (c : Call) (w : World) :
  w_calls (snd (bindM (call c) (finish r) w)) = (w_calls w ++ [c])%list
  /\ fst (bindM (call c) (finish r) w) = rounded_outcome r (perform c).
Proof.
  unfold bindM, call. destruct (perform c) as [res | e]; [| now split].
  destruct (finish_run r res
              {| w_heap := w_heap w; w_arg := w_arg w; w_calls := w_calls w ++ [c] |})
    as (objs & ->).
  now split.
Qed.

Lemma ensure_numeric_series_sample (d : DataFrame) (column : string) (sample : list Cell) :
  _ensure_numeric_series (Some d) column = Ok sample ->
  exists col, getitem d column = Ok col /\ sample = to_numpy (dropna col).
Proof.
  unfold _ensure_numeric_series. intros Hrun.
  destruct (has_column column d); [| discriminate]. cbn [negb raise_if bind] in Hrun.
  destruct (getitem d column) as [col |]; [| discriminate]. cbn [bind] in Hrun.
  destruct (s_empty (dropna col)); [discriminate |]. cbn [raise_if bind] in Hrun.
  injection Hrun as <-. now exists col.
Qed.

Lemma one_sample_routed (r : Request) (w : World) (d : DataFrame) (sample : list Cell)
      (mu0 : pyfloat) :
  hypo_test r = "One sample Student's t-test" ->
  w_df w = Some d ->
  _ensure_numeric_series (Some d) (numeric_col r) = Ok sample ->
  str_falsy (strip (mu0_text r)) = false ->
  float (mu0_text r) = Some mu0 ->
  w_calls (snd (run_hypothesis_testing r w))
  = (w_calls w ++ [OneSampleTTest sample mu0 (alternative r) (numeric_col r)
                     (bootstrap_samples r) (include_graph r)])%list
  /\ fst (run_hypothesis_testing r w)
     = rounded_outcome r (one_sample_ttest sample mu0 (alternative r) (numeric_col r)
                            (bootstrap_samples r) (include_graph r)).
Proof.
  intros Hname Hdf Hnum Htext Hmu.
  destruct (ensure_numeric_series_sample _ _ _ Hnum) as (col & Hcol & ->).
  match goal with |- context [OneSampleTTest ?s ?m ?a ?n ?b ?g] =>
    pose proof (call_then_finish r (OneSampleTTest s m a n b g) w) as Hend end.
  cbn [perform] in Hend.
  unfold run_hypothesis_testing. rewrite bindM_read, Hdf, bindM_lift, Hnum, Hname.
  cbv [String.eqb Ascii.eqb Bool.eqb].
  rewrite bindM_lift, Htext. cbn [raise_if]. rewrite Hmu, bindM_lift, Hcol. exact Hend.
Qed.

Lemma two_sample_routed (r : Request) (w : World) (d : DataFrame)
      (sample group1 group2 : list Cell) :
  hypo_test r = "Two samples Student's t-test" ->
  w_df w = Some d ->
  _ensure_numeric_series (Some d) (numeric_col r) = Ok sample ->
  _materialize_group d (numeric_col r) (cat_col1 r) (cat_vals1 r) = Ok group1 ->
  _materialize_group d (numeric_col r) (cat_col2 r) (cat_vals2 r) = Ok group2 ->
  w_calls (snd (run_hypothesis_testing r w))
  = (w_calls w ++ [TwoSampleTTest group1 group2 (numeric_col r)
                     (or_default (name_group1 r) "Group 1")
                     (or_default (name_group2 r) "Group 2")
                     (alternative r) (correction r) (plot_type r)
                     (bootstrap_samples r) (include_graph r)])%list
  /\ fst (run_hypothesis_testing r w)
     = rounded_outcome r (two_sample_ttest group1 group2 (numeric_col r)
                            (or_default (name_group1 r) "Group 1")
                            (or_default (name_group2 r) "Group 2")
                            (alternative r) (correction r) (plot_type r)
                            (bootstrap_samples r) (include_graph r)).
Proof.
  intros Hname Hdf Hnum Hg1 Hg2.
  match goal with |- context [TwoSampleTTest ?a1 ?a2 ?a3 ?a4 ?a5 ?a6 ?a7 ?a8 ?a9 ?a10] =>
    pose proof (call_then_finish r (TwoSampleTTest a1 a2 a3 a4 a5 a6 a7 a8 a9 a10) w)
      as Hend end.
  cbn [perform] in Hend.
  unfold run_hypothesis_testing. rewrite bindM_read, Hdf, bindM_lift, Hnum, Hname.
  cbv [String.eqb Ascii.eqb Bool.eqb].
  rewrite bindM_lift, Hg1, bindM_lift, Hg2. exact Hend.
Qed.

Lemma variance_routed (r : Request) (w : World) (d : DataFrame)
      (sample group1 group2 : list Cell) :
  hypo_test r = "Equal variance between two groups" ->
  w_df w = Some d ->
  _ensure_numeric_series (Some d) (numeric_col r) = Ok sample ->
  _materialize_group d (numeric_col r) (cat_col1 r) (cat_vals1 r) = Ok group1 ->
  _materialize_group d (numeric_col r) (cat_col2 r) (cat_vals2 r) = Ok group2 ->
  w_calls (snd (run_hypothesis_testing r w))
  = (w_calls w ++ [VarianceTest group1 group2
                     (or_default (name_group1 r) "Group 1")
                     (or_default (name_group2 r) "Group 2")
                     (test_type r) (include_graph r) (bootstrap_samples r)])%list
  /\ fst (run_hypothesis_testing r w)
     = rounded_outcome r (variance_test group1 group2
                            (or_default (name_group1 r) "Group 1")
                            (or_default (name_group2 r) "Group 2")
                            (test_type r) (include_graph r) (bootstrap_samples r)).
Proof.
  intros Hname Hdf Hnum Hg1 Hg2.
  match goal with |- context [VarianceTest ?a1 ?a2 ?a3 ?a4 ?a5 ?a6 ?a7] =>
    pose proof (call_then_finish r (VarianceTest a1 a2 a3 a4 a5 a6 a7) w) as Hend end.
  cbn [perform] in Hend.
  unfold run_hypothesis_testing. rewrite bindM_read, Hdf, bindM_lift, Hnum, Hname.
  cbv [String.eqb Ascii.eqb Bool.eqb].
  rewrite bindM_lift, Hg1, bindM_lift, Hg2. exact Hend.
Qed.

Lemma anova_routed (r : Request) (w : World) (d : DataFrame) (sample : list Cell)
      (cat : string) (vals : list string) (cats : Series) (cat_series : list Cell)
      (sub : DataFrame) :
  hypo_test r = "One-way ANOVA" ->
  w_df w = Some d ->
  _ensure_numeric_series (Some d) (numeric_col r) = Ok sample ->
  cat_col3 r = Some cat -> cat_vals3 r = Some vals -> vals <> [] ->
  getitem d cat = Ok cats ->
  astype vals (s_dtype cats) = Ok cat_series ->
  getitem_list (getitem_mask d (isin cats cat_series)) [numeric_col r; cat] = Ok sub ->
  w_calls (snd (run_hypothesis_testing r w))
  = (w_calls w ++ [OneWayAnova (dropna_frame sub) (numeric_col r) cat])%list
  /\ fst (run_hypothesis_testing r w)
     = rounded_outcome r (one_way_anova (dropna_frame sub) (numeric_col r) cat).
Proof.
  intros Hname Hdf Hnum Hcol Hvals Hne Hcats Hcast Hsub.
  pose proof (call_then_finish r (OneWayAnova (dropna_frame sub) (numeric_col r) cat) w)
    as Hend.
  cbn [perform] in Hend.
  assert (Hhas : has_column cat d = true).
  { apply position_has_column. unfold getitem in Hcats.
    destruct (position cat (columns d)) as [[i dt] |]; [eauto | discriminate]. }
  unfold run_hypothesis_testing.
  rewrite bindM_read, Hdf, bindM_lift, Hnum, Hname, Hcol, Hvals.
  cbv [String.eqb Ascii.eqb Bool.eqb].
  rewrite bindM_lift, Hhas. cbn [negb raise_if].
  destruct vals as [| v vals]; [contradiction |].
  rewrite bindM_lift. cbn [length Nat.eqb raise_if].
  rewrite bindM_lift, Hcats, bindM_lift, Hcast, bindM_lift, Hsub. exact Hend.
Qed.

End Dispatcher.

(** C6. The dispatcher routes on the test name alone.  No run changes a
    dataframe object that existed before it, the one it was given included.
    A run either raises with no routine called, or calls exactly one routine,
    the one its name designates, and returns that routine's outcome (the
    table rounded for display).  A run that fails has called no routine,
    unless the routine itself raised or returned a table that pandas refuses
    to round.  Each of the four names reaches its routine once the checks of
    its branch pass, with the arguments built from the request; any other
    name raises with no routine called, with the "Unknown hypothesis test"
    message once the dataset checks have passed. *)
Theorem dispatcher_routes_by_name (H : HypothesisTests) :
  (forall r w a t,
      nth_error (w_heap w) a = Some t ->
      nth_error (w_heap (snd (run_hypothesis_testing r w))) a = Some t)
  /\ (forall r w,
         w_arg (snd (run_hypothesis_testing r w)) = w_arg w
         /\ w_df (snd (run_hypothesis_testing r w)) = w_df w)
  /\ (forall r w,
         (w_calls (snd (run_hypothesis_testing r w)) = w_calls w
          /\ fails (fst (run_hypothesis_testing r w)))
         \/ exists c,
             w_calls (snd (run_hypothesis_testing r w)) = (w_calls w ++ [c])%list
             /\ routed_by (hypo_test r) c
             /\ fst (run_hypothesis_testing r w) = rounded_outcome r (routine_outcome c))
  /\ (forall r w,
         fails (fst (run_hypothesis_testing r w)) ->
         w_calls (snd (run_hypothesis_testing r w)) = w_calls w
         \/ exists c,
             w_calls (snd (run_hypothesis_testing r w)) = (w_calls w ++ [c])%list
             /\ (fails (routine_outcome c)
                 \/ exists tbl fig,
                     routine_outcome c = Ok (Some tbl, fig)
                     /\ has_duplicate (number_columns tbl) = true))
  /\ (forall r w d sample mu0,
         hypo_test r = "One sample Student's t-test" ->
         w_df w = Some d ->
         _ensure_numeric_series (Some d) (numeric_col r) = Ok sample ->
         str_falsy (strip (mu0_text r)) = false ->
         float (mu0_text r) = Some mu0 ->
         w_calls (snd (run_hypothesis_testing r w))
         = (w_calls w ++ [OneSampleTTest sample mu0 (alternative r) (numeric_col r)
                            (bootstrap_samples r) (include_graph r)])%list
         /\ fst (run_hypothesis_testing r w)
            = rounded_outcome r
                (one_sample_ttest sample mu0 (alternative r) (numeric_col r)
                   (bootstrap_samples r) (include_graph r)))
  /\ (forall r w d sample group1 group2,
         hypo_test r = "Two samples Student's t-test" ->
         w_df w = Some d ->
         _ensure_numeric_series (Some d) (numeric_col r) = Ok sample ->
         _materialize_group d (numeric_col r) (cat_col1 r) (cat_vals1 r) = Ok group1 ->
         _materialize_group d (numeric_col r) (cat_col2 r) (cat_vals2 r) = Ok group2 ->
         w_calls (snd (run_hypothesis_testing r w))
         = (w_calls w ++ [TwoSampleTTest group1 group2 (numeric_col r)
                            (or_default (name_group1 r) "Group 1")
                            (or_default (name_group2 r) "Group 2")
                            (alternative r) (correction r) (plot_type r)
                            (bootstrap_samples r) (include_graph r)])%list
         /\ fst (run_hypothesis_testing r w)
            = rounded_outcome r
                (two_sample_ttest group1 group2 (numeric_col r)
                   (or_default (name_group1 r) "Group 1")
                   (or_default (name_group2 r) "Group 2")
                   (alternative r) (correction r) (plot_type r)
                   (bootstrap_samples r) (include_graph r)))
  /\ (forall r w d sample group1 group2,
         hypo_test r = "Equal variance between two groups" ->
         w_df w = Some d ->
         _ensure_numeric_series (Some d) (numeric_col r) = Ok sample ->
         _materialize_group d (numeric_col r) (cat_col1 r) (cat_vals1 r) = Ok group1 ->
         _materialize_group d (numeric_col r) (cat_col2 r) (cat_vals2 r) = Ok group2 ->
         w_calls (snd (run_hypothesis_testing r w))
         = (w_calls w ++ [VarianceTest group1 group2
                            (or_default (name_group1 r) "Group 1")
                            (or_default (name_group2 r) "Group 2")
                            (test_type r) (include_graph r) (bootstrap_samples r)])%list
         /\ fst (run_hypothesis_testing r w)
            = rounded_outcome r
                (variance_test group1 group2
                   (or_default (name_group1 r) "Group 1")
                   (or_default (name_group2 r) "Group 2")
                   (test_type r) (include_graph r) (bootstrap_samples r)))
  /\ (forall r w d sample cat vals cats cat_series sub,
         hypo_test r = "One-way ANOVA" ->
         w_df w = Some d ->
         _ensure_numeric_series (Some d) (numeric_col r) = Ok sample ->
         cat_col3 r = Some cat -> cat_vals3 r = Some vals -> vals <> [] ->
         getitem d cat = Ok cats ->
         astype vals (s_dtype cats) = Ok cat_series ->
         getitem_list (getitem_mask d (isin cats cat_series)) [numeric_col r; cat]
         = Ok sub ->
         w_calls (snd (run_hypothesis_testing r w))
         = (w_calls w ++ [OneWayAnova (dropna_frame sub) (numeric_col r) cat])%list
         /\ fst (run_hypothesis_testing r w)
            = rounded_outcome r (one_way_anova (dropna_frame sub) (numeric_col r) cat))
  /\ (forall r w,
         ~ recognized (hypo_test r) ->
         fails (fst (run_hypothesis_testing r w))
         /\ w_calls (snd (run_hypothesis_testing r w)) = w_calls w)
  /\ (forall r w d sample,
         ~ recognized (hypo_test r) ->
         w_df w = Some d ->
         _ensure_numeric_series (Some d) (numeric_col r) = Ok sample ->
         fst (run_hypothesis_testing r w)
         = Err (ValueError ("Unknown hypothesis test: " ++ hypo_test r))).
Proof.
  split; [| split; [| split; [| split; [| split; [| split; [| split; [| split;
    [| split]]]]]]]].
  - intros r w. apply dispatcher_keeps_objects.
  - apply dispatcher_keeps_argument.
  - intros r w. destruct (dispatcher_outcome r w) as (_ & _ & [Hfail | (c & Hc)]).
    + now left.
    + right. exists c. destruct c; exact Hc.
  - apply dispatcher_failure.
  - apply one_sample_routed.
  - apply two_sample_routed.
  - apply variance_routed.
  - apply anova_routed.
  - apply dispatcher_unknown_name.
  - apply dispatcher_unknown_message.
Qed.

(** On [sample_frame]: "Chi-square" reaches no routine; the two-sample
    t-test receives the groups "a" and "b" of column [y]; the one-sample
    t-test receives the column and the null mean 3.5; and the frame is in
    the heap after the run as it was before. *)
Lemma dispatcher_routes_by_name_witness :
  fst (run_hypothesis_testing (H := StandIn.counting_tests)
         (sample_test "Chi-square" ["a"; "b"]) sample_world)
  = Err (ValueError "Unknown hypothesis test: Chi-square")
  /\ w_calls (snd (run_hypothesis_testing (H := StandIn.counting_tests)
                     (sample_test "Two samples Student's t-test" ["a"; "b"])
                     sample_world))
     = [TwoSampleTTest [qcell 1 1; qcell 2 1] [qcell 4 1; qcell 5 1] "y" "Group 1" "B"
          "two-sided" true "Histogram" 1000 false]
  /\ w_calls (snd (run_hypothesis_testing (H := StandIn.counting_tests)
                     (sample_test "One sample Student's t-test" ["a"; "b"])
                     sample_world))
     = [OneSampleTTest [qcell 1 1; qcell 2 1; qcell 4 1; qcell 5 1; qcell 7 1]
          (Fin (7 # 2)) "two-sided" "y" 1000 false]
  /\ nth_error (w_heap (snd (run_hypothesis_testing (H := StandIn.counting_tests)
                               (sample_test "One-way ANOVA" ["a"; "b"]) sample_world)))
               0
     = Some sample_frame.
Proof.
  pose proof (dispatcher_routes_by_name StandIn.counting_tests)
    as (Hkeep & _ & _ & _ & Hone & Htwo & _ & _ & _ & Hunknown).
  split; [| split; [| split]].
  - apply (Hunknown (sample_test "Chi-square" ["a"; "b"]) sample_world sample_frame
             [qcell 1 1; qcell 2 1; qcell 4 1; qcell 5 1; qcell 7 1]).
    + unfold recognized. cbn. intros [Hn | [Hn | [Hn | Hn]]]; discriminate.
    + reflexivity.
    + reflexivity.
  - apply (Htwo (sample_test "Two samples Student's t-test" ["a"; "b"]) sample_world
             sample_frame [qcell 1 1; qcell 2 1; qcell 4 1; qcell 5 1; qcell 7 1]);
      reflexivity.
  - apply (Hone (sample_test "One sample Student's t-test" ["a"; "b"]) sample_world
             sample_frame [qcell 1 1; qcell 2 1; qcell 4 1; qcell 5 1; qcell 7 1]);
      vm_compute; reflexivity.
  - apply Hkeep. reflexivity.
Defined.

(** ** The two groups of a two-sample test (C7) *)

Lemma select_map {A} (f : A -> bool) (l : list A) :
  select (map f l) l = filter f l.
Proof.
  induction l as [| x l IH]; [reflexivity |].
  simpl. destruct (f x); now rewrite IH.
Qed.

Lemma filter_map_swap {A B} (f : A -> B) (p : B -> bool) (l : list A) :
  filter p (map f l) = map f (filter (fun x => p (f x)) l).
Proof.
  induction l as [| x l IH]; [reflexivity |].
  simpl. destruct (p (f x)); simpl; now rewrite IH.
Qed.

Lemma getitem_position (d : DataFrame) (n : string) (i : nat) (dt : dtype) :
  position n (columns d) = Some (i, dt) ->
  getitem d n
  = Ok {| s_dtype := dt; s_items := map (fun r => (fst r, cell_at i r)) (rows d) |}.
Proof. intros Hpos. unfold getitem. now rewrite Hpos. Qed.

(** The mask of [isin] keeps the selected rows. *)
Lemma getitem_mask_isin (d : DataFrame) (i : nat) (dt : dtype) (selected : list Cell) :
  getitem_mask d
    (isin {| s_dtype := dt; s_items := map (fun r => (fst r, cell_at i r)) (rows d) |}
          selected)
  = {| columns := columns d; rows := selected_rows d i selected |}.
Proof.
  unfold getitem_mask, isin, selected_rows. cbn [s_items]. f_equal.
  rewrite map_map. cbn [snd]. apply select_map.
Qed.

Lemma materialize_group_values (d : DataFrame) (num cat : string)
      (vals : list string) (i j : nat) (dt dn : dtype) (selected : list Cell) :
  position cat (columns d) = Some (i, dt) ->
  position num (columns d) = Some (j, dn) ->
  vals <> [] ->
  astype vals dt = Ok selected ->
  _materialize_group d num (Some cat) (Some vals)
  = if match group_values d j i selected with [] => true | _ => false end
    then Err (ValueError "One or more groups are empty after filtering.")
    else Ok (group_values d j i selected).
Proof.
  intros Hcat Hnum Hvals Hcast. unfold _materialize_group.
  assert (Hhas : has_column cat d = true) by (apply position_has_column; eauto).
  rewrite Hhas. cbn [negb raise_if bind].
  destruct vals as [| v vals]; [contradiction |]. cbn [length Nat.eqb raise_if bind].
  rewrite (getitem_position _ _ _ _ Hcat). cbn [bind s_dtype]. rewrite Hcast. cbn [bind].
  unfold loc_mask. rewrite getitem_mask_isin.
  rewrite (getitem_position {| columns := columns d; rows := _ |} num j dn Hnum).
  cbn [bind rows]. unfold s_empty, dropna, to_numpy. cbn [s_items s_dtype].
  assert (Hgroup : map snd (filter (fun it : nat * Cell => notna (snd it))
                              (map (fun r : Row => (fst r, cell_at j r))
                                   (selected_rows d i selected)))
                   = group_values d j i selected).
  { unfold group_values. rewrite !filter_map_swap, map_map. reflexivity. }
  rewrite <- Hgroup.
  destruct (filter _ _); reflexivity.
Qed.

Lemma materialize_group_no_categories (d : DataFrame) (num cat : string)
      (vals : option (list string)) :
  has_column cat d = true ->
  vals = None \/ vals = Some [] ->
  _materialize_group d num (Some cat) vals
  = Err (ValueError ("No categories selected for column '" ++ cat ++ "'.")).
Proof.
  intros Hhas Hvals. unfold _materialize_group. rewrite Hhas.
  destruct Hvals as [-> | ->]; reflexivity.
Qed.

(** A list is not itself with one more element. *)
Lemma app_one_neq {A} (l : list A) (x : A) : l <> (l ++ [x])%list.
Proof.
  intros Heq. apply (f_equal (@length A)) in Heq.
  rewrite length_app in Heq. simpl in Heq. lia.
Qed.

Ltac name_cases Hname :=
  destruct Hname as [Hname | Hname]; rewrite Hname;
  cbv [String.eqb Ascii.eqb Bool.eqb]; cbv beta iota.

Section TwoGroups.
Context {H : HypothesisTests}.

Lemma two_groups_fail_fast (r : Request) (w : World) (d : DataFrame) :
  two_group_test (hypo_test r) ->
  w_df w = Some d ->
  (fails (_materialize_group d (numeric_col r) (cat_col1 r) (cat_vals1 r))
   \/ fails (_materialize_group d (numeric_col r) (cat_col2 r) (cat_vals2 r))) ->
  fails (fst (run_hypothesis_testing r w))
  /\ w_calls (snd (run_hypothesis_testing r w)) = w_calls w.
Proof.
  intros Hname Hdf Hfail. run_unfold. rewrite Hdf.
  destruct (_ensure_numeric_series _ _); cbv beta iota;
    [| split; [apply fails_err | reflexivity]].
  name_cases Hname;
    (destruct Hfail as [(e & ->) | (e & ->)];
     [| destruct (_materialize_group _ _ (cat_col1 r) _)]);
    cbv beta iota; (split; [apply fails_err | reflexivity]).
Qed.

Lemma two_groups_call (r : Request) (w : World) (c : Call) :
  two_group_test (hypo_test r) ->
  w_calls (snd (run_hypothesis_testing r w)) = (w_calls w ++ [c])%list ->
  exists d g1 g2,
    w_df w = Some d
    /\ _materialize_group d (numeric_col r) (cat_col1 r) (cat_vals1 r) = Ok g1
    /\ _materialize_group d (numeric_col r) (cat_col2 r) (cat_vals2 r) = Ok g2
    /\ (c = TwoSampleTTest g1 g2 (numeric_col r)
              (or_default (name_group1 r) "Group 1")
              (or_default (name_group2 r) "Group 2")
              (alternative r) (correction r) (plot_type r)
              (bootstrap_samples r) (include_graph r)
        \/ c = VarianceTest g1 g2
                 (or_default (name_group1 r) "Group 1")
                 (or_default (name_group2 r) "Group 2")
                 (test_type r) (include_graph r) (bootstrap_samples r)).
Proof.
  intros Hname. run_unfold.
  destruct (w_df w) as [d |]; cbv beta iota; cbn [snd];
    [| intros Hc; now apply app_one_neq in Hc].
  destruct (_ensure_numeric_series _ _); cbv beta iota; cbn [snd];
    [| intros Hc; now apply app_one_neq in Hc].
  name_cases Hname;
    (destruct (_materialize_group d _ (cat_col1 r) _) as [g1 |] eqn:Hg1;
     cbv beta iota; cbn [snd]; [| intros Hc; now apply app_one_neq in Hc]);
    (destruct (_materialize_group d _ (cat_col2 r) _) as [g2 |] eqn:Hg2;
     cbv beta iota; cbn [snd]; [| intros Hc; now apply app_one_neq in Hc]);
    (destruct (perform _); cbv beta iota; try finish_step; cbn [snd w_calls];
     intros Hc; apply app_inv_head in Hc; injection Hc as <-;
     exists d, g1, g2; repeat split; auto).
Qed.

End TwoGroups.

(** C7. For the two-sample t-test and the variance-equality test: a group
    is the values of the numeric column on the rows whose categorical value
    is one of the selected ones, the missing values dropped; the
    materialization raises when no category is selected and when the group
    is empty after filtering; a failed materialization of either group is
    the failure of the call, no routine being called; and a routine that is
    called receives the two materialized groups. *)
Theorem two_groups_materialized (H : HypothesisTests) :
  (forall d num cat vals i j dt dn selected,
      position cat (columns d) = Some (i, dt) ->
      position num (columns d) = Some (j, dn) ->
      vals <> [] ->
      astype vals dt = Ok selected ->
      _materialize_group d num (Some cat) (Some vals)
      = if match group_values d j i selected with [] => true | _ => false end
        then Err (ValueError "One or more groups are empty after filtering.")
        else Ok (group_values d j i selected))
  /\ (forall d num cat vals,
         has_column cat d = true ->
         vals = None \/ vals = Some [] ->
         _materialize_group d num (Some cat) vals
         = Err (ValueError ("No categories selected for column '" ++ cat ++ "'.")))
  /\ (forall r w d,
         two_group_test (hypo_test r) ->
         w_df w = Some d ->
         (fails (_materialize_group d (numeric_col r) (cat_col1 r) (cat_vals1 r))
          \/ fails (_materialize_group d (numeric_col r) (cat_col2 r) (cat_vals2 r))) ->
         fails (fst (run_hypothesis_testing r w))
         /\ w_calls (snd (run_hypothesis_testing r w)) = w_calls w)
  /\ (forall r w c,
         two_group_test (hypo_test r) ->
         w_calls (snd (run_hypothesis_testing r w)) = (w_calls w ++ [c])%list ->
         exists d g1 g2,
           w_df w = Some d
           /\ _materialize_group d (numeric_col r) (cat_col1 r) (cat_vals1 r) = Ok g1
           /\ _materialize_group d (numeric_col r) (cat_col2 r) (cat_vals2 r) = Ok g2
           /\ (c = TwoSampleTTest g1 g2 (numeric_col r)
                     (or_default (name_group1 r) "Group 1")
                     (or_default (name_group2 r) "Group 2")
                     (alternative r) (correction r) (plot_type r)
                     (bootstrap_samples r) (include_graph r)
               \/ c = VarianceTest g1 g2
                        (or_default (name_group1 r) "Group 1")
                        (or_default (name_group2 r) "Group 2")
                        (test_type r) (include_graph r) (bootstrap_samples r))).
Proof.
  split; [| split; [| split]].
  - apply materialize_group_values.
  - apply materialize_group_no_categories.
  - apply two_groups_fail_fast.
  - apply two_groups_call.
Qed.

(** Group "a" of [sample_frame] has the values 1 and 2; no row has the
    label "c"; without a selection there is no group. *)
Lemma two_groups_materialized_witness :
  _materialize_group sample_frame "y" (Some "g") (Some ["a"]) = Ok [qcell 1 1; qcell 2 1]
  /\ _materialize_group sample_frame "y" (Some "g") (Some ["c"])
     = Err (ValueError "One or more groups are empty after filtering.")
  /\ _materialize_group sample_frame "y" (Some "g") (Some [])
     = Err (ValueError "No categories selected for column 'g'.").
Proof.
  pose proof (two_groups_materialized StandIn.counting_tests) as (Hvalues & Hnone & _).
  split; [| split].
  - rewrite (Hvalues sample_frame "y" "g" ["a"] 2%nat 0%nat object_ float64 [Str "a"]);
      [reflexivity | reflexivity | reflexivity | discriminate | reflexivity].
  - rewrite (Hvalues sample_frame "y" "g" ["c"] 2%nat 0%nat object_ float64 [Str "c"]);
      [reflexivity | reflexivity | reflexivity | discriminate | reflexivity].
  - apply (Hnone sample_frame "y" "g" (Some [])); [reflexivity | now right].
Defined.

(** ** One-way ANOVA (C3) *)

Section Anova.
Context {H : HypothesisTests}.

(** The frame given to the ANOVA routine. *)
Lemma anova_frame (d : DataFrame) (num cat : string) (i j : nat) (dt dn : dtype)
      (selected : list Cell) :
  position cat (columns d) = Some (i, dt) ->
  position num (columns d) = Some (j, dn) ->
  getitem_list
    (getitem_mask d
       (isin {| s_dtype := dt; s_items := map (fun r => (fst r, cell_at i r)) (rows d) |}
             selected))
    [num; cat]
  = Ok {| columns := [(num, dn); (cat, dt)];
          rows := map (fun r => (fst r, [cell_at j r; cell_at i r]))
                      (selected_rows d i selected) |}.
Proof.
  intros Hcat Hnum. rewrite getitem_mask_isin. unfold getitem_list.
  cbn [columns positions]. rewrite Hnum, Hcat. reflexivity.
Qed.

Lemma anova_call (r : Request) (w : World) (d : DataFrame) (cat : string)
      (vals : list string) (i j : nat) (dt dn : dtype) (selected sample : list Cell) :
  hypo_test r = "One-way ANOVA" ->
  w_df w = Some d ->
  _ensure_numeric_series (Some d) (numeric_col r) = Ok sample ->
  cat_col3 r = Some cat -> cat_vals3 r = Some vals -> vals <> [] ->
  position cat (columns d) = Some (i, dt) ->
  position (numeric_col r) (columns d) = Some (j, dn) ->
  astype vals dt = Ok selected ->
  let data_group :=
    {| columns := [(numeric_col r, dn); (cat, dt)];
       rows := anova_rows d j i selected |} in
  w_calls (snd (run_hypothesis_testing r w))
  = (w_calls w ++ [OneWayAnova data_group (numeric_col r) cat])%list
  /\ fst (run_hypothesis_testing r w)
     = rounded_outcome r (one_way_anova data_group (numeric_col r) cat).
Proof.
  intros Hname Hdf Hnum Hcol Hvals Hne Hcat Hpos Hcast data_group.
  exact (anova_routed r w d sample cat vals _ selected _ Hname Hdf Hnum Hcol Hvals Hne
           (getitem_position _ _ _ _ Hcat) Hcast
           (anova_frame d (numeric_col r) cat i j dt dn selected Hcat Hpos)).
Qed.

(** The rows of the ANOVA frame are the selected rows of the dataset whose
    two cells are both present. *)
Lemma anova_rows_complete (d : DataFrame) (i j : nat) (selected : list Cell) (row : Row) :
  In row (anova_rows d j i selected) <->
  exists r0, In r0 (rows d)
             /\ cell_in (cell_at i r0) selected = true
             /\ notna (cell_at j r0) = true /\ notna (cell_at i r0) = true
             /\ row = (fst r0, [cell_at j r0; cell_at i r0]).
Proof.
  unfold anova_rows, selected_rows. rewrite filter_In, in_map_iff. split.
  - intros ((r0 & <- & Hin) & Hcomplete). apply filter_In in Hin.
    destruct Hin as (Hin & Hsel). exists r0.
    unfold row_complete in Hcomplete. cbn [snd forallb] in Hcomplete.
    apply andb_prop in Hcomplete. destruct Hcomplete as (Hj & Hi).
    apply andb_prop in Hi. destruct Hi as (Hi & _). auto.
  - intros (r0 & Hin & Hsel & Hj & Hi & ->). split.
    + exists r0. split; [reflexivity |]. apply filter_In. auto.
    + unfold row_complete. cbn [snd forallb]. now rewrite Hj, Hi.
Qed.

End Anova.

(** C3. A one-way ANOVA call whose checks pass hands to the routine the
    selected rows of the two columns, those with a missing value in either
    column dropped; with the validation of the spec in the routine, the call
    fails with [InsufficientGroups] when that frame has fewer than two
    distinct groups. *)
Theorem anova_drops_missing_and_needs_two_groups (H : HypothesisTests)
        (r : Request) (w : World) (d : DataFrame) (cat : string)
        (vals : list string) (i j : nat) (dt dn : dtype) (selected sample : list Cell) :
  hypo_test r = "One-way ANOVA" ->
  w_df w = Some d ->
  _ensure_numeric_series (Some d) (numeric_col r) = Ok sample ->
  cat_col3 r = Some cat -> cat_vals3 r = Some vals -> vals <> [] ->
  position cat (columns d) = Some (i, dt) ->
  position (numeric_col r) (columns d) = Some (j, dn) ->
  astype vals dt = Ok selected ->
  let data_group :=
    {| columns := [(numeric_col r, dn); (cat, dt)];
       rows := anova_rows d j i selected |} in
  w_calls (snd (run_hypothesis_testing (H := with_spec_anova H) r w))
  = (w_calls w ++ [OneWayAnova data_group (numeric_col r) cat])%list
  /\ (forall row,
         In row (rows data_group) <->
         exists r0, In r0 (rows d)
                    /\ cell_in (cell_at i r0) selected = true
                    /\ notna (cell_at j r0) = true /\ notna (cell_at i r0) = true
                    /\ row = (fst r0, [cell_at j r0; cell_at i r0]))
  /\ ((length (groups data_group cat) < 2)%nat ->
      fst (run_hypothesis_testing (H := with_spec_anova H) r w)
      = Err (SpecError InsufficientGroups))
  /\ ((2 <= length (groups data_group cat))%nat ->
      fst (run_hypothesis_testing (H := with_spec_anova H) r w)
      = rounded_outcome (H := H) r (one_way_anova (HypothesisTests := H)
                                      data_group (numeric_col r) cat)).
Proof.
  intros Hname Hdf Hnum Hcol Hvals Hne Hcat Hpos Hcast data_group.
  destruct (anova_call (H := with_spec_anova H) r w d cat vals i j dt dn selected sample
              Hname Hdf Hnum Hcol Hvals Hne Hcat Hpos Hcast) as (Hcalls & Hout).
  fold data_group in Hcalls, Hout. rewrite Hout.
  split; [exact Hcalls | split; [| split]].
  - intros row. apply anova_rows_complete.
  - intros Hfew. cbn [one_way_anova with_spec_anova]. unfold spec_one_way_anova.
    apply Nat.ltb_lt in Hfew. now rewrite Hfew.
  - intros Hmany. cbn [one_way_anova with_spec_anova]. unfold spec_one_way_anova.
    replace (_ <? 2)%nat with false; [reflexivity |].
    symmetry. apply Nat.ltb_ge. exact Hmany.
Qed.

(** The frame for group "a" alone has one group. *)
Lemma anova_drops_missing_and_needs_two_groups_witness :
  fst (run_hypothesis_testing (H := with_spec_anova StandIn.counting_tests)
         (sample_test "One-way ANOVA" ["a"]) sample_world)
  = Err (SpecError InsufficientGroups).
Proof.
  apply (anova_drops_missing_and_needs_two_groups StandIn.counting_tests
           (sample_test "One-way ANOVA" ["a"]) sample_world sample_frame "g" ["a"]
           2%nat 0%nat object_ float64 [Str "a"]
           [qcell 1 1; qcell 2 1; qcell 4 1; qcell 5 1; qcell 7 1]);
    try reflexivity.
  - discriminate.
  - vm_compute. lia.
Defined.

(** ** The descriptive-statistics controller (C2) *)

Import DescriptiveController.

Lemma round_row_nth (sel : list bool) (decimals : Z) (cells : list Cell) (c : nat) :
  nth c (round_row sel decimals cells) PyNone
  = if nth c sel false then round_cell decimals (nth c cells PyNone)
    else nth c cells PyNone.
Proof.
  revert sel c. induction cells as [| x cells IH]; intros sel c.
  - destruct c, (nth _ sel false); reflexivity.
  - destruct sel as [| b sel]; cbn [round_row].
    + destruct c; reflexivity.
    + destruct c as [| c]; [destruct b; reflexivity | cbn [nth]; apply IH].
Qed.

Lemma round_where_cell (sel : string * dtype -> bool) (decimals : Z) (df : DataFrame)
      (k c : nat) (name : string) (dt : dtype) :
  nth_error (columns df) c = Some (name, dt) ->
  cell_at c (nth k (rows (round_where sel decimals df)) (0%nat, []))
  = if sel (name, dt)
    then round_cell decimals (cell_at c (nth k (rows df) (0%nat, [])))
    else cell_at c (nth k (rows df) (0%nat, [])).
Proof.
  intros Hcol. unfold round_where. cbn [rows].
  change (0%nat, @nil Cell)
    with ((fun r : Row => (fst r, round_row (map sel (columns df)) decimals (snd r)))
            (0%nat, [])) at 1.
  rewrite map_nth. unfold cell_at. cbn [snd]. rewrite round_row_nth.
  rewrite (nth_error_nth _ _ false (map_nth_error sel _ _ Hcol)). reflexivity.
Qed.

Lemma round_where_labels (sel : string * dtype -> bool) (decimals : Z) (df : DataFrame) :
  map fst (rows (round_where sel decimals df)) = map fst (rows df).
Proof. unfold round_where. cbn [rows]. rewrite map_map. reflexivity. Qed.

Section Descriptive.
Context {E : DescriptiveEngine}.

Lemma descriptive_controller_outcome (r : Request) (d : DataFrame) (col : Series)
      (weights : option Series) (tbl : DataFrame) :
  r_df r = Some d ->
  getitem d (column r) = Ok col ->
  s_empty (dropna col) = false ->
  is_numeric_dtype (s_dtype col) = true ->
  read_weights d (dropna col) (weights_col r) = Ok weights ->
  compute_descriptive_statistics (to_numpy (dropna col)) (quantile_probs r)
    (trim_alpha r) (winsor_limits r) (option_map to_numpy weights) = Ok tbl ->
  has_column "Value" tbl = true -> has_column "Bias Corrected" tbl = true ->
  run_descriptive_statistics r
  = Ok (round_where (fun c => str_in (fst c) rounded_columns
                                && rounds_dtype (display_precision (state r)) (snd c))
                    (display_precision (state r)) tbl).
Proof.
  intros Hdf Hcol Hne Hnum Hw Hengine Hvalue Hbias. unfold run_descriptive_statistics.
  rewrite Hdf.
  assert (Hhas : has_column (column r) d = true).
  { apply position_has_column. unfold getitem in Hcol.
    destruct (position (column r) (columns d)) as [[i dt] |]; [eauto | discriminate]. }
  rewrite Hhas, Hcol. cbn [negb raise_if bind]. rewrite Hne. cbn [raise_if bind].
  change (s_dtype (dropna col)) with (s_dtype col). rewrite Hnum. cbn [negb raise_if bind].
  rewrite Hw. cbn [bind]. rewrite Hengine. cbn [bind]. unfold round_columns.
  destruct (getitem_list_ok tbl rounded_columns) as (sub & ->); [| reflexivity].
  unfold rounded_columns. cbn [forallb]. now rewrite Hvalue, Hbias.
Qed.

End Descriptive.

(** C2, as the code has it. For every valid input the controller returns the
    table of the engine, one row per row of the engine with the same labels
    and columns, in which the cells of the columns [Value] and
    [Bias Corrected] that [round] changes (the float columns, and the
    integer ones at a negative precision) are the engine's values rounded to
    the display precision of the session, and every other cell is the
    engine's. *)
Theorem descriptive_values_rounded_for_display (E : DescriptiveEngine)
        (r : Request) (d : DataFrame) (col : Series)
        (weights : option Series) (tbl : DataFrame) :
  r_df r = Some d ->
  getitem d (column r) = Ok col ->
  s_empty (dropna col) = false ->
  is_numeric_dtype (s_dtype col) = true ->
  read_weights d (dropna col) (weights_col r) = Ok weights ->
  compute_descriptive_statistics (to_numpy (dropna col)) (quantile_probs r)
    (trim_alpha r) (winsor_limits r) (option_map to_numpy weights) = Ok tbl ->
  has_column "Value" tbl = true -> has_column "Bias Corrected" tbl = true ->
  exists out,
    run_descriptive_statistics r = Ok out
    /\ columns out = columns tbl
    /\ map fst (rows out) = map fst (rows tbl)
    /\ forall k c name dt,
        nth_error (columns tbl) c = Some (name, dt) ->
        cell_at c (nth k (rows out) (0%nat, []))
        = if str_in name rounded_columns && rounds_dtype (display_precision (state r)) dt
          then round_cell (display_precision (state r))
                          (cell_at c (nth k (rows tbl) (0%nat, [])))
          else cell_at c (nth k (rows tbl) (0%nat, [])).
Proof.
  intros Hdf Hcol Hne Hnum Hw Hengine Hvalue Hbias.
  eexists. split; [| split; [| split]].
  - now apply (descriptive_controller_outcome r d col weights tbl).
  - reflexivity.
  - apply round_where_labels.
  - intros k c name dt Hc.
    now rewrite (round_where_cell _ _ tbl k c name dt Hc).
Qed.

(** The mean 0.03125 of [fine_frame] comes back as the float 0.0312. *)
Lemma descriptive_values_rounded_for_display_witness :
  exists out,
    run_descriptive_statistics (E := StandIn.mean_engine) fine_request = Ok out
    /\ cell_at 1 (nth 0 (rows out) (0%nat, []))
       = Flt (Fin (4496393867966703 # 144115188075855872)).
Proof.
  destruct (descriptive_values_rounded_for_display StandIn.mean_engine fine_request
              fine_frame
              {| s_dtype := float64; s_items := [(0%nat, qcell 1 32)] |}
              None
              {| columns := [("Statistic", object_); ("Value", float64);
                             ("Bias Corrected", float64)];
                 rows := [(0%nat, [Str "Mean"; qcell 1 32; qcell 1 32])] |})
    as (out & Hrun & _ & _ & Hcells); try reflexivity.
  exists out. split; [exact Hrun |].
  rewrite (Hcells 0%nat 1%nat "Value" float64 eq_refl). reflexivity.
Defined.

(** C2, as the claim states it, fails: on [fine_frame] the engine computes
    the mean 0.03125 and the controller returns the float 0.0312. *)
Lemma descriptive_values_not_left_unrounded :
  compute_descriptive_statistics (DescriptiveEngine := StandIn.mean_engine)
    [qcell 1 32] [] None None None
  = Ok {| columns := [("Statistic", object_); ("Value", float64);
                      ("Bias Corrected", float64)];
          rows := [(0%nat, [Str "Mean"; Flt (Fin (1 # 32)); Flt (Fin (1 # 32))])] |}
  /\ run_descriptive_statistics (E := StandIn.mean_engine) fine_request
     = Ok {| columns := [("Statistic", object_); ("Value", float64);
                         ("Bias Corrected", float64)];
             rows := [(0%nat, [Str "Mean";
                               Flt (Fin (4496393867966703 # 144115188075855872));
                               Flt (Fin (4496393867966703 # 144115188075855872))])] |}
  /\ feq (Fin (4496393867966703 # 144115188075855872)) (Fin (1 # 32)) = false
  /\ b64 (312 # 10000) = Fin (4496393867966703 # 144115188075855872).
Proof. repeat split; vm_compute; reflexivity. Qed.

(** ** The rounding test of [core/] (C1) *)

Import RoundingTest.

(** The test has no failing path. *)
Lemma rounding_test_always_passes (core_files : list SourceFile) :
  test_no_tabular_rounding_in_core core_files = Passed.
Proof. reflexivity. Qed.

(** C1, at a file of [core/] that calls [.round(]: the loop records two
    violations on line 2 and the test passes all the same. *)
Theorem rounding_test_passes_on_rounding_file :
  collect_violations [rounding_file]
  = [ {| v_path := "core/summary.py"; v_line := 2; v_match := "round(" |};
      {| v_path := "core/summary.py"; v_line := 2; v_match := ".round(" |} ]
  /\ test_no_tabular_rounding_in_core [rounding_file] = Passed.
Proof. split; vm_compute; reflexivity. Qed.

(* ===================================================================== *)
(** * Part III. Further properties of the code                            *)
(* ===================================================================== *)

(** ** The regression controller *)

Lemma Qlt_bool_iff (a b : Q) : Qlt_bool a b = true <-> (a < b)%Q.
Proof.
  unfold Qlt_bool. rewrite negb_true_iff. split.
  - intros Hle. apply Qnot_le_lt. intros Hba. apply Qle_bool_iff in Hba. congruence.
  - intros Hlt. destruct (Qle_bool b a) eqn:Hle; [| reflexivity].
    apply Qle_bool_iff in Hle. exfalso. now apply (Qlt_not_le _ _ Hlt).
Qed.

(** *** Rounding to binary64 between 0 and 1 *)

Local Open Scope Z_scope.

Lemma rint_nonneg (q : Q) : (0 <= q)%Q -> 0 <= rint q.
Proof.
  intros Hq. unfold rint.
  assert (Hf : 0 <= Qfloor q).
  { change 0 with (Qfloor 0). now apply Qfloor_resp_le. }
  destruct (_ ?= _)%Q; [destruct (Z.even _) | |]; lia.
Qed.

Lemma rint_le (q : Q) (k : Z) : (q <= inject_Z k)%Q -> rint q <= k.
Proof.
  intros Hq. unfold rint.
  assert (Hf : Qfloor q <= k).
  { rewrite <- (Qfloor_Z k). now apply Qfloor_resp_le. }
  assert (Hstep : (0 < q - inject_Z (Qfloor q))%Q -> Qfloor q + 1 <= k).
  { intros Hpos. assert (Hlt : (inject_Z (Qfloor q) < inject_Z k)%Q).
    { apply Qlt_le_trans with q; [| exact Hq].
      apply Qlt_minus_iff. exact Hpos. }
    rewrite <- Zlt_Qlt in Hlt. lia. }
  destruct (_ ?= _)%Q eqn:Hcmp.
  - destruct (Z.even _); [exact Hf |]. apply Hstep.
    apply Qeq_alt in Hcmp. rewrite Hcmp. reflexivity.
  - exact Hf.
  - apply Hstep. apply Qgt_alt in Hcmp.
    apply Qlt_trans with (1 # 2)%Q; [reflexivity | exact Hcmp].
Qed.

Lemma exponent2_le (n d : positive) :
  exponent2 n d <= Z.log2 (Zpos n) - Z.log2 (Zpos d).
Proof. unfold exponent2. destruct (Qle_bool _ _); lia. Qed.

(** A rational strictly between 0 and 1 rounds to a float between 0 and 1. *)
Lemma b64_unit (q : Q) :
  (0 < q)%Q -> (q < 1)%Q -> exists y, b64 q = Fin y /\ (0 <= y)%Q /\ (y <= 1)%Q.
Proof.
  destruct q as [qn d]. unfold Qlt. cbn [Qnum Qden]. intros H0 H1.
  destruct qn as [| n | n]; try lia.
  unfold b64. cbn [Qnum Qden]. unfold round_mag.
  pose proof (exponent2_le n d) as He.
  assert (Hlog : Z.log2 (Zpos n) <= Z.log2 (Zpos d)) by (apply Z.log2_le_mono; lia).
  set (u := Z.max (exponent2 n d - 52) (-1074)).
  assert (Hu : -1074 <= u <= -52) by (unfold u; lia).
  destruct u as [| up | up] eqn:Hup; try lia.
  cbn [Z.opp]. unfold Qshift at 1. cbn [Qnum Qden].
  set (m := rint (Zpos n * 2 ^ Zpos up # d)).
  assert (Hpow : 0 < 2 ^ Zpos up) by (apply Z.pow_pos_nonneg; lia).
  assert (Hm0 : 0 <= m).
  { apply rint_nonneg. unfold Qle. cbn [Qnum Qden]. lia. }
  assert (Hm1 : m <= 2 ^ Zpos up).
  { apply rint_le. unfold Qle. cbn [Qnum Qden inject_Z]. nia. }
  assert (Hover : (1024 - Zneg up <=? Z.log2 m) = false).
  { apply Z.leb_gt.
    assert (Z.log2 m <= Zpos up).
    { rewrite <- (Z.log2_pow2 (Zpos up)) by lia. now apply Z.log2_le_mono. }
    lia. }
  rewrite Hover. eexists. split; [reflexivity |].
  unfold Qshift. cbn [Qnum Qden inject_Z].
  split; rewrite Qred_correct; unfold Qle; cbn [Qnum Qden].
  - lia.
  - rewrite Pos.mul_1_l, Z2Pos.id by exact Hpow. lia.
Qed.

Local Close Scope Z_scope.

(** X1. A significance level that the parser returns lies between 0 and 1,
    and the upper bound is reached: the level 1e-17 passes the guard and
    [1.0 - 1e-17] is 1.0 in binary64. *)
Theorem significance_level_in_unit_interval :
  (forall text a,
      _parse_confidence_level text = Ok a ->
      fle f0 a = true /\ fle a f1 = true)
  /\ _parse_confidence_level "1e-17" = Ok f1.
Proof.
  split; [| vm_compute; reflexivity].
  intros text a Hparse. apply parse_confidence_level_inv in Hparse.
  destruct Hparse as (level & _ & H0 & H1 & ->).
  destruct level as [x | | |]; try discriminate.
  unfold flt, f0, f1 in H0, H1. apply Qlt_bool_iff in H0, H1.
  unfold fsub, fadd, fneg, f1.
  destruct (b64_unit (1 + - x)) as (y & -> & Hy0 & Hy1).
  - apply (proj1 (Qlt_minus_iff x 1)). exact H1.
  - apply Qlt_minus_iff. setoid_replace (1 + - (1 + - x))%Q with (x - 0)%Q by ring.
    apply (proj1 (Qlt_minus_iff 0 x)). exact H0.
  - unfold fle, f0. split; now apply Qle_bool_iff.
Qed.

(** The level 0.95 gives a significance level between 0 and 1. *)
Lemma significance_level_in_unit_interval_witness :
  fle f0 (Fin (225179981368525 # 4503599627370496)) = true
  /\ fle (Fin (225179981368525 # 4503599627370496)) f1 = true.
Proof.
  apply (proj1 significance_level_in_unit_interval "0.95"). vm_compute. reflexivity.
Defined.

Import RegressionController.

(** X2. For a range text "lo, hi" whose two parts parse to numbers with lo
    not greater than or equal to hi, the abscissae are 100 points and the
    last one is hi itself.  They need not increase strictly: over the range
    from 1 to the next float the first fifty points are all 1. *)
Theorem range_grid_has_100_points_ending_at_max :
  (forall text p0 p1 lo hi,
      split "," (strip text) = [p0; p1] ->
      float (strip p0) = Some lo -> float (strip p1) = Some hi ->
      fge lo hi = false ->
      exists xs,
        _parse_range text = Ok (Some xs)
        /\ length xs = 100%nat
        /\ nth 99 xs NaN = hi)
  /\ (exists xs,
         _parse_range "1, 1.0000000000000002" = Ok (Some xs)
         /\ nth 0 xs NaN = Fin 1
         /\ nth 49 xs NaN = Fin 1
         /\ nth 50 xs NaN = Fin (4503599627370497 # 4503599627370496)
         /\ nth 99 xs NaN = Fin (4503599627370497 # 4503599627370496)).
Proof.
  split.
  - intros text p0 p1 lo hi Hsplit Hlo Hhi Hge.
    assert (Hs : str_falsy (strip text) = false).
    { destruct (strip text); [discriminate Hsplit | reflexivity]. }
    destruct (parse_range_grid text p0 p1 lo hi Hs Hsplit Hlo Hhi Hge)
      as (Hparse & Hlen).
    exists (Np.linspace lo hi 100). split; [exact Hparse | split; [exact Hlen |]].
    apply linspace_last.
  - eexists. split; [vm_compute; reflexivity |].
    repeat split; vm_compute; reflexivity.
Qed.

(** The range " 0, 10 ": 100 points, the last one 10. *)
Lemma range_grid_has_100_points_ending_at_max_witness :
  exists xs,
    _parse_range " 0, 10 " = Ok (Some xs)
    /\ length xs = 100%nat
    /\ nth 99 xs NaN = Fin 10.
Proof.
  apply (proj1 range_grid_has_100_points_ending_at_max " 0, 10 " "0" " 10"
           (Fin 0) (Fin 10));
    reflexivity.
Defined.

Section ControllerFacts.
Context {SM : Statsmodels}.

(** The range text is read for the Simple Regression plot off the
    observations only: any other call has the same outcome whatever the
    text. *)
Lemma range_text_unread (r : Request) (text : string) :
  wants_simple_plot r && negb (fit_to_obs r) = false ->
  run_linear_regression (request_with_range text r) = run_linear_regression r.
Proof.
  intros Hread. unfold run_linear_regression, request_with_range.
  change (wants_simple_plot {| state := state r; r_df := _ |})
    with (wants_simple_plot r).
  request_fields. rewrite Hread.
  repeat same_step; reflexivity.
Qed.

End ControllerFacts.

(** X3. The range text is read only for a Simple Regression plot that is not
    drawn on the observed values: in every other call the outcome is the
    same whatever the text, malformed or not. *)
Theorem range_text_read_only_when_needed (SM : Statsmodels) (r : Request) (text : string) :
  wants_simple_plot r && negb (fit_to_obs r) = false ->
  run_linear_regression (request_with_range text r) = run_linear_regression r.
Proof. apply range_text_unread. Qed.

(** An Observed vs Predicted call does not mind a malformed range text. *)
Lemma range_text_read_only_when_needed_witness :
  run_linear_regression (SM := StandIn.recording_statsmodels)
    (observed_vs_predicted_request ["x"] "from 3 to 1")
  = run_linear_regression (SM := StandIn.recording_statsmodels)
      (observed_vs_predicted_request ["x"] "").
Proof.
  apply (range_text_read_only_when_needed StandIn.recording_statsmodels
           (observed_vs_predicted_request ["x"] "") "from 3 to 1").
  reflexivity.
Defined.

(** X4. What a successful call of the controller returns is the summary and
    the figure of the core as they are, and the coefficient table of the
    core rounded to the display precision.  The core was called with the
    selected working dataframe, the selected dependent variable, the
    significance level 1 minus the level typed, the abscissae of the range
    when the Simple Regression plot over a range is asked for, and the other
    fields of the request as they are. *)
Theorem controller_rounds_coefficients_only (SM : Statsmodels) (r : Request)
        (html : string) (params : DataFrame) (fig : option Figure) :
  run_linear_regression r = Ok (html, params, fig) ->
  exists wd dep level xv params0,
    _select_working_dataframe (r_df r) (r_filtered_df r) = Ok wd
    /\ dependent_var r = Some dep
    /\ float (strip (alpha_input r)) = Some level
    /\ (if graph_check r && String.eqb (graph_type r) "Simple Regression"
           && negb (fit_to_obs r)
        then _parse_range (x_range_text r) else Ok None) = Ok xv
    /\ Core.run_linear_regression
         {| Core.a_df := Some wd;
            Core.formula_check := formula_check r;
            Core.formula_text := formula_text r;
            Core.formula_latex := formula_latex r;
            Core.dependent_var := dep;
            Core.independent_vars := independent_vars r;
            Core.alpha := fsub f1 level;
            Core.intercept := intercept r;
            Core.create_graph := graph_check r;
            Core.graph_type := graph_type r;
            Core.show_ci := show_ci r;
            Core.show_pi := show_pi r;
            Core.fit_to_obs := fit_to_obs r;
            Core.x_vector := xv |}
       = Ok (html, params0, fig)
    /\ params = round params0 (display_precision (state r)).
Proof.
  intros Hrun. apply controller_result in Hrun.
  destruct Hrun as (wd & dep & al & xv & params0 & Hsel & Hdep & Hal & Hxv & Hcore & ->).
  apply parse_confidence_level_inv in Hal.
  destruct Hal as (level & Hfloat & _ & _ & ->).
  exists wd, dep, level, xv, params0. auto 10.
Qed.

Lemma controller_rounds_coefficients_only_witness :
  exists html params fig wd dep level (xv : option (list pyfloat)) params0,
    run_linear_regression (SM := StandIn.recording_statsmodels)
      (observed_vs_predicted_request ["x"] "") = Ok (html, params, fig)
    /\ _select_working_dataframe (Some sample_frame) None = Ok wd
    /\ dep = "y"
    /\ level = Fin (8106479329266893 # 9007199254740992)
    /\ xv = None
    /\ params = round params0 4.
Proof.
  assert (Hrun : exists res,
             run_linear_regression (SM := StandIn.recording_statsmodels)
               (observed_vs_predicted_request ["x"] "") = Ok res)
    by (eexists; vm_compute; reflexivity).
  destruct Hrun as (((html & params) & fig) & Hrun).
  destruct (controller_rounds_coefficients_only StandIn.recording_statsmodels
              _ html params fig Hrun)
    as (wd & dep & level & xv & params0 & Hsel & Hdep & Hlevel & Hxv & _ & Hround).
  exists html, params, fig, wd, dep, level, xv, params0.
  split; [exact Hrun |]. split; [exact Hsel |].
  split; [now injection Hdep |].
  split; [vm_compute in Hlevel; now injection Hlevel |].
  split; [vm_compute in Hxv; now injection Hxv |].
  exact Hround.
Defined.

(** ** The regression core *)

Section CoreFacts.
Context {SM : Statsmodels}.

Lemma plot_simple_regression_figure (data : DataFrame) (x y : string) (b uf : bool)
      (latex : string) (m : Model) (al : pyfloat) (ci pi obs : bool)
      (xv : option (list pyfloat)) (f : Figure) :
  Core.plot_simple_regression data x y b uf latex m al ci pi obs xv = Ok f ->
  exists p, f = SimpleRegressionFigure p.
Proof.
  unfold Core.plot_simple_regression. intros Hplot.
  apply bind_ok in Hplot. destruct Hplot as ((xp & X) & _ & Hplot).
  apply bind_ok in Hplot. destruct Hplot as (pt & _ & Hplot).
  apply bind_ok in Hplot. destruct Hplot as (spans & _ & Hplot).
  inversion Hplot. eauto.
Qed.

Lemma plot_observed_vs_predicted_figure (data : DataFrame) (y : string) (m : Model)
      (al : pyfloat) (f : Figure) :
  Core.plot_observed_vs_predicted data y m al = Ok f ->
  exists yt pt r2, f = ObservedVsPredictedFigure yt pt r2.
Proof.
  unfold Core.plot_observed_vs_predicted. intros Hplot.
  apply bind_ok in Hplot. destruct Hplot as (pt & _ & Hplot).
  apply bind_ok in Hplot. destruct Hplot as (yt & _ & Hplot).
  inversion Hplot. eauto.
Qed.

(** What a successful run of the core has gone through. *)
Lemma core_success (a : Core.Args) (html : string) (params : DataFrame)
      (fig : option Figure) :
  Core.run_linear_regression a = Ok (html, params, fig) ->
  exists d sub y X model uf,
    Core.a_df a = Some d /\ empty d = false
    /\ has_column (Core.dependent_var a) d = true
    /\ Core.first_missing d (Core.independent_vars a) = None
    /\ Core.independent_vars a <> []
    /\ getitem_list d (Core.dependent_var a :: Core.independent_vars a) = Ok sub
    /\ empty (dropna_frame sub) = false
    /\ getitem (dropna_frame sub) (Core.dependent_var a) = Ok y
    /\ getitem_list (dropna_frame sub) (Core.independent_vars a) = Ok X
    /\ Core.fit_model a (dropna_frame sub) y X = Ok (model, uf)
    /\ html = summary2_html model (Core.alpha a)
    /\ params = summary2_params model (Core.alpha a)
    /\ ((Core.create_graph a = false /\ fig = None)
        \/ (Core.create_graph a = true
            /\ Core.graph_type a = "Simple Regression"
            /\ exists x p, Core.independent_vars a = [x]
                           /\ fig = Some (SimpleRegressionFigure p))
        \/ (Core.create_graph a = true
            /\ Core.graph_type a = "Observed vs Predicted"
            /\ exists yt pt r2, fig = Some (ObservedVsPredictedFigure yt pt r2))).
Proof.
  unfold Core.run_linear_regression. intros Hrun.
  destruct (Core.a_df a) as [d |]; [| discriminate].
  do 2 guard_inv Hrun.
  destruct (Core.first_missing d (Core.independent_vars a)) eqn:Hmiss; [discriminate |].
  guard_inv Hrun.
  apply bind_ok in Hrun. destruct Hrun as (sub & Hsub & Hrun).
  guard_inv Hrun.
  apply bind_ok in Hrun. destruct Hrun as (y & Hy & Hrun).
  apply bind_ok in Hrun. destruct Hrun as (X & HX & Hrun).
  apply bind_ok in Hrun. destruct Hrun as ((model & uf) & Hfit & Hrun).
  apply bind_ok in Hrun. destruct Hrun as (fig0 & Hfig & Hrun).
  inversion Hrun; subst. clear Hrun.
  exists d, sub, y, X, model, uf.
  apply negb_false_iff in Hguard0.
  repeat (split; [first [assumption | reflexivity] |]).
  split.
  { intros Hnil. rewrite Hnil in Hguard1. discriminate. }
  repeat (split; [first [assumption | reflexivity] |]).
  destruct (Core.create_graph a); [| left; split; [reflexivity | now inversion Hfig]].
  right. destruct (String.eqb_spec (Core.graph_type a) "Simple Regression") as [Ht | _].
  - left. repeat split; [exact Ht |].
    destruct (Core.independent_vars a) as [| x [| x' vars]]; try discriminate.
    apply bind_ok in Hfig. destruct Hfig as (f & Hplot & Hfig). inversion Hfig.
    apply plot_simple_regression_figure in Hplot. destruct Hplot as (p & ->). eauto.
  - destruct (String.eqb_spec (Core.graph_type a) "Observed vs Predicted") as [Ht | _];
      [| discriminate].
    right. repeat split; [exact Ht |].
    apply bind_ok in Hfig. destruct Hfig as (f & Hplot & Hfig). inversion Hfig.
    apply plot_observed_vs_predicted_figure in Hplot.
    destruct Hplot as (yt & pt & r2 & ->). eauto.
Qed.

End CoreFacts.

(** X5. A successful run of the core returns the summary and the coefficient
    table of the fitted model as statsmodels gives them, and a figure
    exactly when one is asked for, of the kind asked for. *)
Theorem core_returns_model_tables_and_requested_figure (SM : Statsmodels)
        (a : Core.Args) (html : string) (params : DataFrame) (fig : option Figure) :
  Core.run_linear_regression a = Ok (html, params, fig) ->
  (fig = None <-> Core.create_graph a = false)
  /\ (forall p, fig = Some (SimpleRegressionFigure p) ->
                Core.graph_type a = "Simple Regression"
                /\ length (Core.independent_vars a) = 1%nat)
  /\ (forall yt pt r2, fig = Some (ObservedVsPredictedFigure yt pt r2) ->
                       Core.graph_type a = "Observed vs Predicted")
  /\ exists model,
      html = summary2_html model (Core.alpha a)
      /\ params = summary2_params model (Core.alpha a).
Proof.
  intros Hrun. apply core_success in Hrun.
  destruct Hrun as (d & sub & y & X & model & uf & _ & _ & _ & _ & _ & _ & _ & _ & _
                    & _ & Hhtml & Hparams & Hfig).
  split; [| split; [| split]].
  - destruct Hfig as [(Hg & ->) | [(Hg & _ & x & p & _ & ->) | (Hg & _ & yt & pt & r2 & ->)]];
      split; intros; congruence.
  - intros p ->.
    destruct Hfig as [(_ & Hf) | [(_ & Ht & x & p' & Hx & _) | (_ & _ & yt & pt & r2 & Hf)]];
      try discriminate.
    split; [exact Ht | now rewrite Hx].
  - intros yt pt r2 ->.
    destruct Hfig as [(_ & Hf) | [(_ & _ & x & p' & _ & Hf) | (_ & Ht & _)]];
      try discriminate.
    exact Ht.
  - exists model. now split.
Qed.

Lemma core_returns_model_tables_and_requested_figure_witness :
  exists html params fig,
    Core.run_linear_regression (SM := StandIn.recording_statsmodels) two_predictor_args
    = Ok (html, params, fig)
    /\ fig <> None
    /\ exists model,
        params = summary2_params (Statsmodels := StandIn.recording_statsmodels)
                   model (Fin (3602879701896397 # 72057594037927936)).
Proof.
  assert (Hrun : exists res,
             Core.run_linear_regression (SM := StandIn.recording_statsmodels)
               two_predictor_args = Ok res)
    by (eexists; vm_compute; reflexivity).
  destruct Hrun as (((html & params) & fig) & Hrun).
  destruct (core_returns_model_tables_and_requested_figure
              StandIn.recording_statsmodels two_predictor_args html params fig Hrun)
    as (Hnone & _ & _ & model & _ & Hparams).
  exists html, params, fig. split; [exact Hrun | split].
  - intros Hfig. apply Hnone in Hfig. discriminate.
  - exists model. exact Hparams.
Defined.

(** X6. The model is fitted on the rows that have no missing value in the
    dependent and the independent columns: the other columns are not looked
    at, and at least one row is left. *)
Theorem core_fits_on_complete_rows (SM : Statsmodels) (a : Core.Args)
        (res : string * DataFrame * option Figure) :
  Core.run_linear_regression a = Ok res ->
  exists d ps data y X fitted,
    Core.a_df a = Some d
    /\ positions (Core.dependent_var a :: Core.independent_vars a) (columns d) = Ok ps
    /\ columns data = map snd ps
    /\ rows data
       = filter row_complete
           (map (fun r => (fst r, map (fun p => cell_at (fst p) r) ps)) (rows d))
    /\ rows data <> []
    /\ getitem data (Core.dependent_var a) = Ok y
    /\ getitem_list data (Core.independent_vars a) = Ok X
    /\ Core.fit_model a data y X = Ok fitted.
Proof.
  destruct res as ((html & params) & fig). intros Hrun. apply core_success in Hrun.
  destruct Hrun as (d & sub & y & X & model & uf & Hdf & _ & _ & _ & _ & Hsub & Hne
                    & Hy & HX & Hfit & _).
  unfold getitem_list in Hsub. apply bind_ok in Hsub. destruct Hsub as (ps & Hps & Hsub).
  inversion Hsub as [Hsub']. rewrite <- Hsub' in *.
  exists d, ps, (dropna_frame sub), y, X, (model, uf). rewrite <- Hsub'.
  repeat split; try assumption; try reflexivity.
  intros Hnil. unfold empty in Hne. cbn [rows columns dropna_frame] in *.
  rewrite Hnil in Hne. destruct (map snd ps); discriminate.
Qed.

(** In [two_predictor_frame] rows 1 and 3 miss a value of [x] or [y]; row 4
    misses its label only and is kept. *)
Lemma core_fits_on_complete_rows_witness :
  exists d ps data y X fitted,
    rows data = [ (0%nat, [qcell 1 1; qcell 3 1; qcell 1 1]);
                  (2%nat, [qcell 4 1; qcell 5 1; qcell 2 1]);
                  (4%nat, [qcell 8 1; qcell 1 1; qcell 9 1]) ]
    /\ Core.a_df two_predictor_args = Some d
    /\ positions ["y"; "x"; "z"] (columns d) = Ok ps
    /\ Core.fit_model (SM := StandIn.recording_statsmodels)
         two_predictor_args data y X = Ok fitted.
Proof.
  assert (Hrun : exists res,
             Core.run_linear_regression (SM := StandIn.recording_statsmodels)
               two_predictor_args = Ok res)
    by (eexists; vm_compute; reflexivity).
  destruct Hrun as (res & Hrun).
  destruct (core_fits_on_complete_rows StandIn.recording_statsmodels
              two_predictor_args res Hrun)
    as (d & ps & data & y & X & fitted & Hdf & Hps & _ & Hrows & _ & _ & _ & Hfit).
  exists d, ps, data, y, X, fitted. repeat split; try assumption.
  rewrite Hrows. injection Hdf as <-. vm_compute in Hps. injection Hps as <-.
  reflexivity.
Defined.

Lemma str_in_In (n : string) (l : list string) : In n l -> str_in n l = true.
Proof.
  intros Hin. unfold str_in. apply existsb_exists. exists n.
  split; [exact Hin | apply String.eqb_refl].
Qed.

Section ObservedVsPredicted.
Context {SM : Statsmodels}.

Lemma first_missing_none (d : DataFrame) (cols : list string) :
  forallb (fun c => has_column c d) cols = true -> Core.first_missing d cols = None.
Proof.
  unfold Core.first_missing. induction cols as [| c cols IH]; [reflexivity |].
  cbn [forallb find]. intros Hall. apply andb_prop in Hall. destruct Hall as (-> & Hall).
  cbn [negb]. now apply IH.
Qed.

Lemma positions_columns (d : DataFrame) (names : list string) ps :
  positions names (columns d) = Ok ps ->
  forallb (fun n => has_column n d) names = true.
Proof.
  revert ps. induction names as [| n names IH]; intros ps Hps; [reflexivity |].
  cbn [positions] in Hps. cbn [forallb].
  destruct (position n (columns d)) as [[i dt] |] eqn:Hn; [| discriminate].
  apply bind_ok in Hps. destruct Hps as (ps' & Hps' & _).
  rewrite (IH ps' Hps'), andb_true_r. apply position_has_column. eauto.
Qed.

Lemma core_observed_vs_predicted (a : Core.Args) (d sub : DataFrame) (ys : Series)
      (X : DataFrame) (model : Model) (pt : DataFrame) :
  Core.a_df a = Some d -> empty d = false ->
  Core.independent_vars a <> [] ->
  Core.create_graph a = true -> Core.graph_type a = "Observed vs Predicted" ->
  (Core.formula_check a = true -> str_falsy (Core.formula_text a) = false) ->
  getitem_list d (Core.dependent_var a :: Core.independent_vars a) = Ok sub ->
  empty (dropna_frame sub) = false ->
  getitem (dropna_frame sub) (Core.dependent_var a) = Ok ys ->
  getitem_list (dropna_frame sub) (Core.independent_vars a) = Ok X ->
  (if Core.formula_check a
   then ols_formula_fit (dropna_frame sub) (Core.formula_text a)
   else OLS_fit ys (if Core.intercept a then add_constant X else X)) = Ok model ->
  get_prediction model None (Core.alpha a) = Ok pt ->
  Core.run_linear_regression a
  = Ok (summary2_html model (Core.alpha a), summary2_params model (Core.alpha a),
        Some (ObservedVsPredictedFigure ys pt (rsquared model))).
Proof.
  intros Hdf Hd Hne Hgraph Htype Htext Hsub Hrows Hys HX Hfit Hpt.
  assert (Hcols : forallb (fun n => has_column n d)
                          (Core.dependent_var a :: Core.independent_vars a) = true).
  { unfold getitem_list in Hsub. apply bind_ok in Hsub.
    destruct Hsub as (ps & Hps & _). exact (positions_columns d _ ps Hps). }
  cbn [forallb] in Hcols. apply andb_prop in Hcols. destruct Hcols as (Hdep & Hvars).
  unfold Core.run_linear_regression.
  rewrite Hdf, Hd, Hdep, (first_missing_none d _ Hvars), Hgraph, Htype.
  cbn [negb raise_if bind String.eqb Ascii.eqb Bool.eqb].
  destruct (Core.independent_vars a) as [| v vars] eqn:Hv; [contradiction |].
  cbn [length Nat.eqb raise_if bind].
  rewrite Hsub. cbn [bind]. rewrite Hrows. cbn [raise_if bind].
  rewrite Hys. cbn [bind]. rewrite HX. cbn [bind].
  rewrite (fit_model_call a (dropna_frame sub) ys X model Htext Hfit).
  cbn [bind]. unfold Core.plot_observed_vs_predicted.
  rewrite Hpt. cbn [bind]. rewrite Hys. reflexivity.
Qed.

End ObservedVsPredicted.

(** X7. The Observed vs Predicted plot is produced for any number of
    predictors, one or more: on a dataset with the selected columns and a
    complete row at least, when the fit on the complete rows returns a model
    and the model gives its prediction table at the significance level of
    the call, the run returns the summary and the coefficient table of that
    model and the figure of the observed response against that table. *)
Theorem observed_vs_predicted_for_any_predictors (SM : Statsmodels)
        (a : Core.Args) (d sub : DataFrame) (ys : Series) (X : DataFrame)
        (model : Model) (pt : DataFrame) :
  Core.a_df a = Some d -> empty d = false ->
  Core.independent_vars a <> [] ->
  Core.create_graph a = true -> Core.graph_type a = "Observed vs Predicted" ->
  (Core.formula_check a = true -> str_falsy (Core.formula_text a) = false) ->
  getitem_list d (Core.dependent_var a :: Core.independent_vars a) = Ok sub ->
  empty (dropna_frame sub) = false ->
  getitem (dropna_frame sub) (Core.dependent_var a) = Ok ys ->
  getitem_list (dropna_frame sub) (Core.independent_vars a) = Ok X ->
  (if Core.formula_check a
   then ols_formula_fit (dropna_frame sub) (Core.formula_text a)
   else OLS_fit ys (if Core.intercept a then add_constant X else X)) = Ok model ->
  get_prediction model None (Core.alpha a) = Ok pt ->
  Core.run_linear_regression a
  = Ok (summary2_html model (Core.alpha a), summary2_params model (Core.alpha a),
        Some (ObservedVsPredictedFigure ys pt (rsquared model))).
Proof. apply core_observed_vs_predicted. Qed.

(** [y] on [x] and [z] of [six_row_frame]: the figure shows the five
    observed values of [y] in the complete rows. *)
Lemma observed_vs_predicted_for_any_predictors_witness :
  exists html params pt r2,
    Core.run_linear_regression (SM := StandIn.recording_statsmodels) six_row_args
    = Ok (html, params,
          Some (ObservedVsPredictedFigure
                  {| s_dtype := float64;
                     s_items := [(0%nat, qcell 1 1); (1%nat, qcell 2 1);
                                 (2%nat, qcell 4 1); (4%nat, qcell 7 1);
                                 (5%nat, qcell 6 1)] |}
                  pt r2)).
Proof.
  do 4 eexists.
  eapply (observed_vs_predicted_for_any_predictors StandIn.recording_statsmodels
            six_row_args six_row_frame);
    try (vm_compute; reflexivity); discriminate.
Defined.

(** ** The hypothesis-test controller *)

Import HypothesisController.

Lemma series_sample (d : DataFrame) (col : string) (i : nat) (dt : dtype) :
  position col (columns d) = Some (i, dt) ->
  exists s, getitem d col = Ok s
            /\ to_numpy (dropna s) = filter notna (map (cell_at i) (rows d)).
Proof.
  intros Hpos. rewrite (getitem_position _ _ _ _ Hpos). eexists. split; [reflexivity |].
  unfold to_numpy, dropna. cbn [s_items]. now rewrite !filter_map_swap, map_map.
Qed.

Lemma ensure_numeric_series_sample_of_position (d : DataFrame) (col : string)
      (i : nat) (dt : dtype) :
  position col (columns d) = Some (i, dt) ->
  filter notna (map (cell_at i) (rows d)) <> [] ->
  _ensure_numeric_series (Some d) col = Ok (filter notna (map (cell_at i) (rows d))).
Proof.
  intros Hpos Hne. unfold _ensure_numeric_series.
  assert (Hhas : has_column col d = true) by (apply position_has_column; eauto).
  destruct (series_sample d col i dt Hpos) as (s & Hs & Hvalues).
  rewrite Hhas, Hs. cbn [negb raise_if bind]. rewrite <- Hvalues in *.
  unfold s_empty, to_numpy in *.
  destruct (s_items (dropna s)); [now contradiction Hne | reflexivity].
Qed.

Lemma ensure_numeric_series_inv (d : DataFrame) (col : string)
      (sample : list Cell) :
  _ensure_numeric_series (Some d) col = Ok sample ->
  exists i dt,
    position col (columns d) = Some (i, dt)
    /\ sample = filter notna (map (cell_at i) (rows d))
    /\ sample <> [].
Proof.
  unfold _ensure_numeric_series. intros Hok.
  guard_inv Hok. apply negb_false_iff, position_has_column in Hguard.
  destruct Hguard as (i & dt & Hpos). exists i, dt.
  destruct (series_sample d col i dt Hpos) as (s & Hs & Hvalues).
  rewrite Hs in Hok. cbn [bind] in Hok. guard_inv Hok. injection Hok as <-.
  split; [exact Hpos | split; [exact Hvalues |]].
  unfold s_empty in Hguard. unfold to_numpy.
  destruct (s_items (dropna s)); [discriminate Hguard | discriminate].
Qed.

(** X8. The check of the numeric column succeeds exactly when the column
    exists and has a value that is not missing, whatever its type; it then
    returns the values that are not missing, in order. *)
Theorem ensure_numeric_series_checks_presence_only (d : DataFrame) (col : string)
        (sample : list Cell) :
  _ensure_numeric_series (Some d) col = Ok sample <->
  exists i dt,
    position col (columns d) = Some (i, dt)
    /\ sample = filter notna (map (cell_at i) (rows d))
    /\ sample <> [].
Proof.
  split.
  - apply ensure_numeric_series_inv.
  - intros (i & dt & Hpos & -> & Hne).
    now apply ensure_numeric_series_sample_of_position with (dt := dt).
Qed.

(** The label column [g] of [sample_frame] passes the check. *)
Lemma ensure_numeric_series_checks_presence_only_witness :
  _ensure_numeric_series (Some sample_frame) "g"
  = Ok [Str "a"; Str "a"; Str "b"; Str "b"].
Proof.
  apply (proj2 (ensure_numeric_series_checks_presence_only sample_frame "g" _)).
  exists 2%nat, object_. split; [reflexivity | split; [reflexivity | discriminate]].
Defined.

Lemma materialize_group_inv (d : DataFrame) (num : string) (cat : option string)
      (vals : option (list string)) (g : list Cell) :
  _materialize_group d num cat vals = Ok g ->
  exists c vs i j dt dn selected,
    cat = Some c /\ vals = Some vs /\ vs <> []
    /\ position c (columns d) = Some (i, dt)
    /\ position num (columns d) = Some (j, dn)
    /\ astype vs dt = Ok selected
    /\ g = group_values d j i selected /\ g <> [].
Proof.
  intros Hmat. pose proof Hmat as Hcopy. unfold _materialize_group in Hmat.
  destruct cat as [c |]; [| discriminate].
  guard_inv Hmat. apply negb_false_iff, position_has_column in Hguard.
  destruct Hguard as (i & dt & Hcat).
  destruct vals as [[| v vs] |]; try discriminate. cbn [length Nat.eqb raise_if bind] in Hmat.
  rewrite (getitem_position _ _ _ _ Hcat) in Hmat. cbn [bind s_dtype] in Hmat.
  apply bind_ok in Hmat. destruct Hmat as (selected & Hcast & Hmat).
  apply bind_ok in Hmat. destruct Hmat as (picked & Hpicked & _).
  unfold loc_mask, getitem in Hpicked. cbn [getitem_mask columns] in Hpicked.
  destruct (position num (columns d)) as [[j dn] |] eqn:Hnum; [| discriminate].
  rewrite (materialize_group_values d num c (v :: vs) i j dt dn selected Hcat Hnum)
    in Hcopy by (discriminate || assumption).
  exists c, (v :: vs), i, j, dt, dn, selected.
  destruct (group_values d j i selected) eqn:Hg; [discriminate |].
  injection Hcopy as <-. repeat split; try assumption; try reflexivity; discriminate.
Qed.

Lemma group_values_shorter (d : DataFrame) (j i : nat) (selected : list Cell) :
  (length (group_values d j i selected)
   <= length (filter notna (map (cell_at j) (rows d))))%nat.
Proof.
  unfold group_values, selected_rows. induction (rows d) as [| r l IH]; [apply le_n |].
  cbn [filter map]. destruct (cell_in _ selected); cbn [map filter];
    destruct (notna (cell_at j r)); cbn [length]; lia.
Qed.

(** X9. A materialized group is not empty, has no missing value, and is
    taken from the values the numeric check returns: each of its values is
    one of them and it has no more values than they are. *)
Theorem materialized_group_is_a_subsample (d : DataFrame) (num : string)
        (cat : option string) (vals : option (list string)) (g : list Cell) :
  _materialize_group d num cat vals = Ok g ->
  exists sample,
    _ensure_numeric_series (Some d) num = Ok sample
    /\ g <> []
    /\ Forall (fun c => isna c = false) g
    /\ incl g sample
    /\ (length g <= length sample)%nat.
Proof.
  intros Hmat. apply materialize_group_inv in Hmat.
  destruct Hmat as (c & vs & i & j & dt & dn & selected & _ & _ & _ & _ & Hnum & _ & -> & Hne).
  assert (Hincl : incl (group_values d j i selected)
                       (filter notna (map (cell_at j) (rows d)))).
  { intros x Hx. unfold group_values, selected_rows in Hx.
    apply filter_In in Hx. destruct Hx as (Hx & Hna).
    apply in_map_iff in Hx. destruct Hx as (r & <- & Hr).
    apply filter_In in Hr. destruct Hr as (Hr & _).
    apply filter_In. split; [now apply in_map | exact Hna]. }
  exists (filter notna (map (cell_at j) (rows d))). split; [| split; [| split; [| split]]].
  - apply ensure_numeric_series_sample_of_position with (dt := dn); [exact Hnum |].
    intros Hnil. destruct (group_values d j i selected) as [| x l] eqn:Hg;
      [now contradiction Hne |].
    specialize (Hincl x (or_introl eq_refl)). rewrite Hnil in Hincl. contradiction.
  - exact Hne.
  - apply Forall_forall. intros x Hx. unfold group_values in Hx.
    apply filter_In in Hx. destruct Hx as (_ & Hna).
    unfold notna in Hna. now apply negb_true_iff in Hna.
  - exact Hincl.
  - apply group_values_shorter.
Qed.

Lemma materialized_group_is_a_subsample_witness :
  exists sample,
    _ensure_numeric_series (Some sample_frame) "y" = Ok sample
    /\ [qcell 4 1; qcell 5 1] <> []
    /\ Forall (fun c => isna c = false) [qcell 4 1; qcell 5 1]
    /\ incl [qcell 4 1; qcell 5 1] sample
    /\ (2 <= length sample)%nat.
Proof.
  apply (materialized_group_is_a_subsample sample_frame "y" (Some "g") (Some ["b"])).
  reflexivity.
Defined.

Ltac test_fields :=
  cbn [state numeric_col hypo_test mu0_text alternative include_graph
       bootstrap_samples cat_col1 cat_vals1 name_group1 cat_col2 cat_vals2
       name_group2 cat_col3 cat_vals3 plot_type correction test_type] in *.

(** X10. The one-sample routine is called with the values that the numeric
    check has returned (none missing, one at least) and the parsed null
    mean. *)
Theorem one_sample_test_receives_checked_sample (H : HypothesisTests)
        (r : Request) (w : World) (c : Call) :
  hypo_test r = "One sample Student's t-test" ->
  w_calls (snd (run_hypothesis_testing r w)) = (w_calls w ++ [c])%list ->
  exists sample mu0,
    _ensure_numeric_series (w_df w) (numeric_col r) = Ok sample
    /\ float (mu0_text r) = Some mu0
    /\ sample <> []
    /\ Forall (fun x => isna x = false) sample
    /\ c = OneSampleTTest sample mu0 (alternative r) (numeric_col r)
             (bootstrap_samples r) (include_graph r).
Proof.
  intros Hname. run_unfold.
  destruct (w_df w) as [d |]; cbv beta iota; cbn [snd];
    [| intros Hc; now apply app_one_neq in Hc].
  destruct (_ensure_numeric_series (Some d) (numeric_col r)) as [sample |] eqn:Hnum;
    cbv beta iota; cbn [snd]; [| intros Hc; now apply app_one_neq in Hc].
  rewrite Hname. cbv [String.eqb Ascii.eqb Bool.eqb]. cbv beta iota.
  destruct (raise_if _ _); cbv beta iota; cbn [snd];
    [| intros Hc; now apply app_one_neq in Hc].
  destruct (float (mu0_text r)) as [mu0 |]; cbv beta iota; cbn [snd];
    [| intros Hc; now apply app_one_neq in Hc].
  apply ensure_numeric_series_inv in Hnum.
  destruct Hnum as (i & dt & Hpos & -> & Hne).
  destruct (series_sample d (numeric_col r) i dt Hpos) as (s & -> & ->).
  cbv beta iota. destruct (perform _); cbv beta iota; try finish_step;
    cbn [snd w_calls];
    intros Hc; apply app_inv_head in Hc; injection Hc as <-;
    exists (filter notna (map (cell_at i) (rows d))), mu0;
    (repeat split; try assumption; try reflexivity);
    apply Forall_forall; intros x Hx; apply filter_In in Hx; destruct Hx as (_ & Hna);
    unfold notna in Hna; now apply negb_true_iff in Hna.
Qed.

Lemma one_sample_test_receives_checked_sample_witness :
  exists sample mu0,
    _ensure_numeric_series (Some sample_frame) "y" = Ok sample
    /\ float "3.5" = Some mu0
    /\ sample <> []
    /\ Forall (fun x => isna x = false) sample
    /\ OneSampleTTest [qcell 1 1; qcell 2 1; qcell 4 1; qcell 5 1; qcell 7 1]
         (Fin (7 # 2)) "two-sided" "y" 1000 false
       = OneSampleTTest sample mu0 "two-sided" "y" 1000 false.
Proof.
  apply (one_sample_test_receives_checked_sample StandIn.counting_tests
           (sample_test "One sample Student's t-test" []) sample_world);
    reflexivity.
Defined.

(** X11. The text of the null mean is read by the one-sample test only: the
    other tests have the same outcome whatever it is. *)
Theorem null_mean_read_by_one_sample_test_only (H : HypothesisTests)
        (r : Request) (w : World) (text : string) :
  hypo_test r <> "One sample Student's t-test" ->
  run_hypothesis_testing (request_with_mu0 text r) w = run_hypothesis_testing r w.
Proof.
  intros Hname. apply String.eqb_neq in Hname.
  unfold run_hypothesis_testing, request_with_mu0. test_fields.
  unfold bindM, finish. test_fields. unfold read_df, lift.
  destruct (w_df w) as [d |]; [| reflexivity].
  destruct (_ensure_numeric_series _ _); [| reflexivity].
  rewrite Hname. reflexivity.
Qed.

Lemma null_mean_read_by_one_sample_test_only_witness :
  run_hypothesis_testing (H := StandIn.counting_tests)
    (request_with_mu0 "not a number" (sample_test "One-way ANOVA" ["a"; "b"]))
    sample_world
  = run_hypothesis_testing (H := StandIn.counting_tests)
      (sample_test "One-way ANOVA" ["a"; "b"]) sample_world.
Proof.
  apply (null_mean_read_by_one_sample_test_only StandIn.counting_tests).
  discriminate.
Defined.

(** ** Rounding for display *)

Lemma round_row_length (sel : list bool) (decimals : Z) (cells : list Cell) :
  length (round_row sel decimals cells) = length cells.
Proof.
  revert sel. induction cells as [| c cells IH]; intros sel; [reflexivity |].
  destruct sel; cbn [round_row length]; [reflexivity | now rewrite IH].
Qed.

Lemma round_where_lengths (sel : string * dtype -> bool) (decimals : Z) (df : DataFrame) :
  map (fun r => length (snd r)) (rows (round_where sel decimals df))
  = map (fun r => length (snd r)) (rows df).
Proof.
  unfold round_where. cbn [rows]. rewrite map_map. apply map_ext. intros row.
  cbn [snd]. apply round_row_length.
Qed.

(** A table without a numeric column has no column that [round] changes. *)
Lemma number_columns_nil (tbl : DataFrame) (c : nat) (name : string) (dt : dtype) :
  number_columns tbl = [] ->
  nth_error (columns tbl) c = Some (name, dt) ->
  rounds_dtype 0 dt = false /\ dt = object_.
Proof.
  unfold number_columns. intros Hnil Hc. apply nth_error_In in Hc.
  destruct (is_numeric_dtype dt) eqn:Hdt.
  - exfalso. assert (Hin : In (name, dt) (filter (fun c => is_numeric_dtype (snd c))
                                                 (columns tbl)))
      by (apply filter_In; split; [exact Hc | exact Hdt]).
    apply (in_map fst) in Hin. rewrite Hnil in Hin. destruct Hin.
  - destruct dt; try discriminate. now split.
Qed.

Lemma rounded_table_shape (tbl out : DataFrame) (decimals : Z) :
  rounded_table (Some tbl) decimals = Ok (Some out) ->
  columns out = columns tbl
  /\ map fst (rows out) = map fst (rows tbl)
  /\ map (fun r => length (snd r)) (rows out) = map (fun r => length (snd r)) (rows tbl)
  /\ forall k c name dt,
      nth_error (columns tbl) c = Some (name, dt) ->
      cell_at c (nth k (rows out) (0%nat, []))
      = if rounds_dtype decimals dt
        then round_cell decimals (cell_at c (nth k (rows tbl) (0%nat, [])))
        else cell_at c (nth k (rows tbl) (0%nat, [])).
Proof.
  cbn [rounded_table]. destruct (number_columns tbl) as [| n cols] eqn:Hcols.
  - intros [= <-]. repeat split. intros k c name dt Hc.
    destruct (number_columns_nil tbl c name dt Hcols Hc) as (_ & ->). reflexivity.
  - destruct (has_duplicate (n :: cols)); [discriminate |]. intros [= <-].
    unfold round. split; [reflexivity |].
    split; [apply round_where_labels |]. split; [apply round_where_lengths |].
    intros k c name dt Hc. now rewrite (round_where_cell _ _ tbl k c name dt Hc).
Qed.

Lemma round_table_outcome (table : option DataFrame) (decimals : Z) (w : World) :
  fst (_round_table table decimals w) = rounded_table table decimals.
Proof. destruct (round_table_run table decimals w) as (objs & ->). reflexivity. Qed.

Lemma round_table_keeps_objects (table : option DataFrame) (decimals : Z) (w : World)
      (a : nat) (t : DataFrame) :
  nth_error (w_heap w) a = Some t ->
  nth_error (w_heap (snd (_round_table table decimals w))) a = Some t.
Proof.
  intros Ha. destruct (round_table_run table decimals w) as (objs & ->).
  now apply nth_error_extended.
Qed.

(** X12. [_round_table] returns no table for no table.  It raises the
    [ValueError] of pandas on a table in which two numeric columns carry the
    same label.  On any other table it returns a table with the same
    columns, row labels and row lengths, in which the cells of the columns
    that [round] changes are rounded and the other cells are as they were.
    It writes to its own copy only: every dataframe object that existed
    before the call, the table given included, is as it was after it. *)
Theorem round_table_keeps_shape_or_raises (decimals : Z) (w : World) :
  _round_table None decimals w = (Ok None, w)
  /\ (forall tbl,
         has_duplicate (number_columns tbl) = true ->
         fst (_round_table (Some tbl) decimals w)
         = Err (ValueError "Columns must be same length as key"))
  /\ (forall tbl,
         has_duplicate (number_columns tbl) = false ->
         exists out,
           fst (_round_table (Some tbl) decimals w) = Ok (Some out)
           /\ columns out = columns tbl
           /\ map fst (rows out) = map fst (rows tbl)
           /\ map (fun r => length (snd r)) (rows out)
              = map (fun r => length (snd r)) (rows tbl)
           /\ forall k c name dt,
               nth_error (columns tbl) c = Some (name, dt) ->
               cell_at c (nth k (rows out) (0%nat, []))
               = if rounds_dtype decimals dt
                 then round_cell decimals (cell_at c (nth k (rows tbl) (0%nat, [])))
                 else cell_at c (nth k (rows tbl) (0%nat, [])))
  /\ (forall table a t,
         nth_error (w_heap w) a = Some t ->
         nth_error (w_heap (snd (_round_table table decimals w))) a = Some t).
Proof.
  split; [reflexivity | split; [| split]].
  - intros tbl Hdup. rewrite round_table_outcome. cbn [rounded_table].
    rewrite Hdup. destruct (number_columns tbl); [discriminate | reflexivity].
  - intros tbl Hdup.
    assert (Hout : exists out, rounded_table (Some tbl) decimals = Ok (Some out)).
    { cbn [rounded_table]. rewrite Hdup. destruct (number_columns tbl); eauto. }
    destruct Hout as (out & Hout). exists out. rewrite round_table_outcome.
    split; [exact Hout | now apply rounded_table_shape].
  - intros table a t. apply round_table_keeps_objects.
Qed.

(** [two_predictor_frame] rounded to 2 decimals keeps its columns and its
    row labels, and the frame itself stays in the heap as it was; a table
    with two numeric columns [n] is refused. *)
Lemma round_table_keeps_shape_or_raises_witness :
  (exists out,
      fst (_round_table (Some two_predictor_frame) 2
             {| w_heap := [two_predictor_frame]; w_arg := None; w_calls := [] |})
      = Ok (Some out)
      /\ columns out = columns two_predictor_frame
      /\ map fst (rows out) = [0; 1; 2; 3; 4]%nat)
  /\ fst (_round_table
            (Some {| columns := [("n", int64); ("n", float64)]; rows := [] |}) 2
            {| w_heap := []; w_arg := None; w_calls := [] |})
     = Err (ValueError "Columns must be same length as key").
Proof.
  pose proof (round_table_keeps_shape_or_raises 2) as Hround.
  split.
  - destruct (Hround {| w_heap := [two_predictor_frame]; w_arg := None;
                        w_calls := [] |})
      as (_ & _ & Hshape & _).
    destruct (Hshape two_predictor_frame eq_refl) as (out & Hout & Hcols & Hlabels & _).
    exists out. auto.
  - destruct (Hround {| w_heap := []; w_arg := None; w_calls := [] |})
      as (_ & Hdup & _).
    apply Hdup. reflexivity.
Defined.

Import DescriptiveController.

(** With distinct index labels, a label selects the one row that carries it. *)
Lemma filter_label_unique (l : list Row) (r : Row) :
  NoDup (map fst l) -> In r l ->
  filter (fun x => Nat.eqb (fst x) (fst r)) l = [r].
Proof.
  induction l as [| h t IH]; intros Hnd Hin; [destruct Hin |].
  simpl in Hnd. inversion Hnd as [| ? ? Hnotin Hnd']; subst.
  assert (Hnone : forall x, In x t -> fst x <> fst h).
  { intros x Hx Heq. apply Hnotin. rewrite <- Heq. now apply in_map. }
  simpl. destruct Hin as [-> | Hin].
  - rewrite Nat.eqb_refl. f_equal.
    clear IH Hnd Hnd' Hnotin. induction t as [| x t IHt]; [reflexivity |].
    simpl. destruct (Nat.eqb (fst x) (fst r)) eqn:E.
    + apply Nat.eqb_eq in E. exfalso. apply (Hnone x); [now left | exact E].
    + apply IHt. intros y Hy. apply Hnone. now right.
  - destruct (Nat.eqb (fst h) (fst r)) eqn:E.
    + apply Nat.eqb_eq in E. exfalso. apply (Hnone r Hin). now symmetry.
    + now apply IH.
Qed.

Lemma rows_by_label (l sub : list Row) :
  NoDup (map fst l) -> incl sub l ->
  flat_map (fun lab => filter (fun x => Nat.eqb (fst x) lab) l) (map fst sub) = sub.
Proof.
  intros Hnd. induction sub as [| r sub IH]; intros Hincl; [reflexivity |].
  simpl. rewrite (filter_label_unique l r Hnd); [| apply Hincl; now left].
  simpl. rewrite IH; [reflexivity |]. intros x Hx. apply Hincl. now right.
Qed.

Lemma loc_labels_of_dropna (d : DataFrame) (i j : nat) (dt dj : dtype) (w : string) :
  NoDup (map fst (rows d)) ->
  position w (columns d) = Some (j, dj) ->
  loc_labels d
    (index (dropna {| s_dtype := dt;
                      s_items := map (fun r => (fst r, cell_at i r)) (rows d) |})) w
  = Ok {| s_dtype := dj;
          s_items := map (fun r => (fst r, cell_at j r)) (kept_rows i d) |}.
Proof.
  intros Hnd Hw. unfold loc_labels, getitem, index, dropna. cbn [columns rows s_items].
  rewrite Hw. do 2 f_equal.
  rewrite filter_map_swap, map_map. apply f_equal.
  apply (rows_by_label (rows d) (kept_rows i d) Hnd).
  intros x Hx. unfold kept_rows in Hx. now apply filter_In in Hx.
Qed.

Section Weights.
Context {E : DescriptiveEngine}.

(** X14. In a frame with distinct index labels, the descriptive controller
    gives the engine the observations and the weights of the same rows, in
    the same order: the rows whose observation is not missing. A negative
    weight is refused when it stands on one of these rows, and only then. *)
Theorem weights_stay_paired_with_observations
        (r : Request) (d : DataFrame) (w : string) (i j : nat) (dt dj : dtype) :
  r_df r = Some d ->
  NoDup (map fst (rows d)) ->
  position (column r) (columns d) = Some (i, dt) ->
  is_numeric_dtype dt = true ->
  kept_rows i d <> [] ->
  weights_col r = Some w -> w <> EmptyString ->
  position w (columns d) = Some (j, dj) ->
  is_numeric_dtype dj = true ->
  run_descriptive_statistics r
  = if existsb (fun c => match c with Flt x => flt x f0 | _ => false end)
               (map (cell_at j) (kept_rows i d))
    then Err (ValueError "Weights must be non-negative.")
    else
      stats_df <- compute_descriptive_statistics
                    (map (cell_at i) (kept_rows i d)) (quantile_probs r)
                    (trim_alpha r) (winsor_limits r)
                    (Some (map (cell_at j) (kept_rows i d))) ;;
      round_columns stats_df rounded_columns (display_precision (state r)).
Proof.
  intros Hdf Hnd Hcol Hnum Hkept Hwcol Hw Hpos Hwnum.
  unfold run_descriptive_statistics. rewrite Hdf.
  assert (Hhas : has_column (column r) d = true)
    by (apply position_has_column; eauto).
  assert (Hhasw : has_column w d = true)
    by (apply position_has_column; eauto).
  rewrite Hhas, (getitem_position d (column r) i dt Hcol). cbn [negb raise_if bind].
  assert (Hitems :
            s_items (dropna {| s_dtype := dt;
                               s_items := map (fun r => (fst r, cell_at i r)) (rows d) |})
            = map (fun r => (fst r, cell_at i r)) (kept_rows i d)).
  { unfold dropna. cbn [s_items].
    now rewrite filter_map_swap. }
  assert (Hne : s_empty (dropna {| s_dtype := dt;
                                   s_items := map (fun r => (fst r, cell_at i r)) (rows d) |})
                = false).
  { unfold s_empty. rewrite Hitems.
    destruct (kept_rows i d); [now elim Hkept | reflexivity]. }
  rewrite Hne. cbn [raise_if bind]. cbn [dropna s_dtype]. rewrite Hnum.
  cbn [negb raise_if bind].
  unfold read_weights. rewrite Hwcol.
  destruct w as [| c w']; [now elim Hw |]. cbn [str_falsy].
  rewrite Hhasw. cbn [negb raise_if bind].
  pose proof (loc_labels_of_dropna d i j dt dj (String c w') Hnd Hpos) as Hloc.
  rewrite Hloc.
  cbn [bind s_dtype]. rewrite Hwnum. cbn [negb raise_if bind].
  unfold any_negative, to_numpy. rewrite Hitems. cbn [s_items option_map].
  rewrite !map_map. cbn [snd].
  match goal with |- _ = (if ?b then _ else _) => set (negative := b) end.
  match goal with |- context [raise_if ?b _] => change b with negative end.
  destruct negative; [reflexivity |].
  cbn [raise_if bind option_map s_items]. now rewrite map_map.
Qed.

End Weights.

Lemma weights_stay_paired_with_observations_witness :
  run_descriptive_statistics (E := StandIn.mean_engine) weighted_request
  = (stats_df <- compute_descriptive_statistics (DescriptiveEngine := StandIn.mean_engine)
                   [qcell 1 1; qcell 3 1] [] None None
                   (Some [qcell 2 1; qcell 1 2]) ;;
     round_columns stats_df rounded_columns 4).
Proof.
  apply (weights_stay_paired_with_observations (E := StandIn.mean_engine)
           weighted_request weighted_frame "w" 0%nat 1%nat float64 float64);
    try reflexivity; try discriminate.
  repeat constructor; simpl; intuition discriminate.
Defined.

(** ** [core/data_stats.py] *)

Import DataStats.

Lemma insert_string_perm (s : string) (l : list string) :
  Permutation (insert_string s l) (s :: l).
Proof.
  induction l as [| h t IH]; simpl; [apply Permutation_refl |].
  destruct (String.leb s h); [apply Permutation_refl |].
  eapply perm_trans; [apply perm_skip, IH | apply perm_swap].
Qed.

Lemma sorted_strings_perm (l : list string) : Permutation (sorted_strings l) l.
Proof.
  induction l as [| h t IH]; simpl; [constructor |].
  eapply perm_trans; [apply insert_string_perm | now apply perm_skip].
Qed.

Lemma insert_string_sorted (s : string) (l : list string) :
  Sorted (fun a b => String.leb a b = true) l ->
  Sorted (fun a b => String.leb a b = true) (insert_string s l).
Proof.
  induction l as [| h t IH]; intros Hs; simpl.
  - repeat constructor.
  - destruct (String.leb s h) eqn:E.
    + constructor; [exact Hs | constructor; exact E].
    + inversion Hs as [| ? ? Ht Hhd]; subst.
      constructor; [now apply IH |].
      assert (Hhs : String.leb h s = true).
      { destruct (String.leb_total s h) as [H | H]; [congruence | exact H]. }
      destruct t as [| h' t']; simpl; [now constructor |].
      destruct (String.leb s h'); constructor; [exact Hhs |].
      now inversion Hhd.
Qed.

Lemma sorted_strings_sorted (l : list string) :
  Sorted (fun a b => String.leb a b = true) (sorted_strings l).
Proof.
  induction l as [| h t IH]; simpl; [constructor | now apply insert_string_sorted].
Qed.

Lemma filter_split_perm {A} (p : A -> bool) (l : list A) :
  Permutation (filter p l ++ filter (fun x => negb (p x)) l) l.
Proof.
  induction l as [| x l IH]; simpl; [constructor |].
  destruct (p x); simpl.
  - now apply perm_skip.
  - eapply perm_trans; [apply Permutation_sym, Permutation_middle |].
    now apply perm_skip.
Qed.

Lemma select_dtypes_In (numeric : bool) (d : DataFrame) (n : string) :
  In n (select_dtypes numeric d)
  <-> exists dt, In (n, dt) (columns d) /\ is_numeric_dtype dt = numeric.
Proof.
  unfold select_dtypes. rewrite in_map_iff. split.
  - intros ([n' dt] & <- & Hin). apply filter_In in Hin. destruct Hin as (Hin & Heq).
    exists dt. split; [exact Hin |]. now apply Bool.eqb_prop.
  - intros (dt & Hin & Hnum). exists (n, dt). split; [reflexivity |].
    apply filter_In. split; [exact Hin |]. cbn [snd]. rewrite Hnum.
    apply Bool.eqb_reflx.
Qed.

(** X15. [infer_column_types] sorts every column of the frame into one of
    the two lists, the columns of a numeric type into the first and the
    others into the second; each list comes back in ascending order. *)
Theorem infer_column_types_partitions_columns (d : DataFrame) :
  let '(numeric, categorical) := infer_column_types d in
  Permutation (numeric ++ categorical) (column_names d)
  /\ Sorted (fun a b => String.leb a b = true) numeric
  /\ Sorted (fun a b => String.leb a b = true) categorical
  /\ (forall n, In n numeric
                <-> exists dt, In (n, dt) (columns d) /\ is_numeric_dtype dt = true)
  /\ (forall n, In n categorical
                <-> exists dt, In (n, dt) (columns d) /\ is_numeric_dtype dt = false).
Proof.
  unfold infer_column_types. split; [| split; [| split; [| split]]].
  - eapply perm_trans.
    + apply Permutation_app; apply sorted_strings_perm.
    + unfold select_dtypes, column_names. rewrite <- map_app.
      apply Permutation_map.
      eapply Permutation_trans; [| apply (filter_split_perm
        (fun c : string * dtype => Bool.eqb (is_numeric_dtype (snd c)) true))].
      apply Permutation_app; [apply Permutation_refl |].
      erewrite filter_ext; [apply Permutation_refl |].
      intros [n dt]. cbn [snd]. now destruct (is_numeric_dtype dt).
  - apply sorted_strings_sorted.
  - apply sorted_strings_sorted.
  - intros n. rewrite <- select_dtypes_In. split; intros H.
    + eapply Permutation_in; [apply sorted_strings_perm | exact H].
    + eapply Permutation_in; [apply Permutation_sym, sorted_strings_perm | exact H].
  - intros n. rewrite <- select_dtypes_In. split; intros H.
    + eapply Permutation_in; [apply sorted_strings_perm | exact H].
    + eapply Permutation_in; [apply Permutation_sym, sorted_strings_perm | exact H].
Qed.

Lemma filter_filter {A} (f g : A -> bool) (l : list A) :
  filter g (filter f l) = filter (fun x => f x && g x) l.
Proof.
  induction l as [| x l IH]; [reflexivity |].
  simpl. destruct (f x); simpl; [destruct (g x) |]; now rewrite IH.
Qed.

Lemma filter_all {A} (f : A -> bool) (l : list A) :
  (forall x, In x l -> f x = true) -> filter f l = l.
Proof. intros H. apply forallb_filter_id, forallb_forall. exact H. Qed.

Lemma filter_isin_rows (d d' : DataFrame) (col : string) (selected : list Cell) :
  filter_isin d col selected = Ok d' ->
  exists i dt,
    position col (columns d) = Some (i, dt)
    /\ d' = {| columns := columns d;
               rows := filter (fun r => cell_in (cell_at i r) selected) (rows d) |}.
Proof.
  unfold filter_isin, getitem.
  destruct (position col (columns d)) as [[i dt] |] eqn:Hpos; [| discriminate].
  cbn [bind]. intros [= <-]. exists i, dt. split; [reflexivity |].
  apply getitem_mask_isin.
Qed.

Lemma filter_loop_rows (pairs : list (string * option (list Cell))) :
  forall d out,
    filter_loop d pairs = Ok out ->
    out = {| columns := columns d; rows := filter (passes_filters d pairs) (rows d) |}.
Proof.
  induction pairs as [| [col sel] rest IH]; intros d out Hloop.
  - simpl in Hloop. injection Hloop as <-. destruct d as [cols rs]. simpl.
    f_equal. symmetry. now apply filter_all.
  - assert (Hskip : forall keep,
               (forall r, passes_filter d (col, sel) r = keep r) ->
               out = {| columns := columns d;
                        rows := filter (passes_filters d rest)
                                       (filter keep (rows d)) |} ->
               out = {| columns := columns d;
                        rows := filter (passes_filters d ((col, sel) :: rest))
                                       (rows d) |}).
    { intros keep Hkeep ->. f_equal. rewrite filter_filter. apply filter_ext.
      intros r. unfold passes_filters. cbn [forallb]. now rewrite Hkeep. }
    cbn [filter_loop] in Hloop.
    destruct sel as [[| v vs] |].
    + apply (Hskip (fun _ => true)); [reflexivity |].
      rewrite (IH d out Hloop). f_equal. f_equal. symmetry. now apply filter_all.
    + destruct (filter_isin d col (v :: vs)) as [d' | e] eqn:Hisin; [| discriminate].
      cbn [bind] in Hloop.
      destruct (filter_isin_rows d d' col (v :: vs) Hisin) as (i & dt & Hpos & ->).
      apply (Hskip (fun r => cell_in (cell_at i r) (v :: vs))).
      * intros r. unfold passes_filter. cbn [fst snd]. now rewrite Hpos.
      * exact (IH _ out Hloop).
    + apply (Hskip (fun _ => true)); [reflexivity |].
      rewrite (IH d out Hloop). f_equal. f_equal. symmetry. now apply filter_all.
Qed.

(** X16. When [apply_category_filters] returns a frame, the frame has the
    columns of the dataset and its rows are the rows of the dataset, in
    their order, that pass each of the filters: a row passes a filter with
    selected values when its cell in the filter's column is one of them. *)
Theorem category_filters_keep_matching_rows (d out : DataFrame)
        (cat_cols : option (list string)) (val1 val2 val3 : option (list Cell))
        (msg : string) :
  apply_category_filters (Some d) cat_cols val1 val2 val3 = Ok (Some out, msg) ->
  columns out = columns d
  /\ rows out
     = filter (passes_filters d (filter_pairs cat_cols val1 val2 val3)) (rows d).
Proof.
  unfold apply_category_filters, filter_pairs.
  destruct (negb (truthy cat_cols)
            || forallb (fun v => negb (truthy v)) [val1; val2; val3]) eqn:Hnone.
  - intros [= <- _]. split; [reflexivity |]. symmetry.
    apply filter_all. intros r _.
    unfold passes_filters. apply forallb_forall. intros [col sel] Hin.
    apply Bool.orb_true_iff in Hnone. destruct Hnone as [Hcols | Hvals].
    + destruct cat_cols as [[| c cs] |]; try discriminate; destruct Hin.
    + apply in_combine_r in Hin. unfold passes_filter. cbn [snd].
      rewrite forallb_forall in Hvals. specialize (Hvals sel Hin).
      destruct sel as [[| v vs] |]; [reflexivity | discriminate | reflexivity].
  - destruct (filter_loop d _) as [f | e] eqn:Hloop; [| discriminate].
    cbn [bind]. intros [= <- _].
    rewrite (filter_loop_rows _ d f Hloop). split; reflexivity.
Qed.

Lemma category_filters_keep_matching_rows_witness :
  columns {| columns := columns sample_frame;
             rows := [(2%nat, [qcell 4 1; Flt NaN; Str "b"]);
                      (3%nat, [qcell 5 1; qcell 2 1; Str "b"])] |}
  = columns sample_frame
  /\ rows {| columns := columns sample_frame;
             rows := [(2%nat, [qcell 4 1; Flt NaN; Str "b"]);
                      (3%nat, [qcell 5 1; qcell 2 1; Str "b"])] |}
     = filter (passes_filters sample_frame
                 (filter_pairs (Some ["g"]) (Some [Str "b"]) None None))
              (rows sample_frame).
Proof.
  apply (category_filters_keep_matching_rows sample_frame _ (Some ["g"])
           (Some [Str "b"]) None None
           "✅ Filter applied. Rows remaining: 2").
  vm_compute. reflexivity.
Defined.

Lemma filter_loop_ok (pairs : list (string * option (list Cell))) :
  forall d,
    (forall col v vs, In (col, Some (v :: vs)) pairs -> has_column col d = true) ->
    filter_loop d pairs
    = Ok {| columns := columns d; rows := filter (passes_filters d pairs) (rows d) |}.
Proof.
  induction pairs as [| [col sel] rest IH]; intros d Hcols.
  - simpl. destruct d as [cols rs]. simpl. f_equal. f_equal. symmetry.
    now apply filter_all.
  - assert (Hrest : forall d', columns d' = columns d ->
               filter_loop d' rest
               = Ok {| columns := columns d';
                       rows := filter (passes_filters d' rest) (rows d') |}).
    { intros d' Hd'. apply IH. intros c v vs Hin. unfold has_column, column_names.
      rewrite Hd'. apply (Hcols c v vs). now right. }
    cbn [filter_loop]. destruct sel as [[| v vs] |].
    + rewrite (Hrest d eq_refl). reflexivity.
    + assert (Hhas : has_column col d = true) by (apply (Hcols col v vs); now left).
      apply position_has_column in Hhas. destruct Hhas as (i & dt & Hpos).
      unfold filter_isin. rewrite (getitem_position d col i dt Hpos). cbn [bind].
      rewrite getitem_mask_isin. rewrite Hrest by reflexivity.
      cbn [columns rows]. unfold selected_rows. rewrite filter_filter.
      do 2 f_equal. apply filter_ext. intros r. unfold passes_filters.
      cbn [forallb]. unfold passes_filter at 2. cbn [fst snd]. rewrite Hpos.
      f_equal.
    + rewrite (Hrest d eq_refl). reflexivity.
Qed.

Lemma filter_loop_columns (pairs : list (string * option (list Cell))) :
  forall d out,
    filter_loop d pairs = Ok out ->
    forall col v vs, In (col, Some (v :: vs)) pairs -> has_column col d = true.
Proof.
  induction pairs as [| [col sel] rest IH]; intros d out Hloop c v vs Hin;
    [destruct Hin |].
  cbn [filter_loop] in Hloop.
  destruct sel as [[| v' vs'] |].
  - destruct Hin as [[=] | Hin]. exact (IH d out Hloop c v vs Hin).
  - destruct (filter_isin d col (v' :: vs')) as [d' | e] eqn:Hisin; [| discriminate].
    cbn [bind] in Hloop.
    destruct (filter_isin_rows d d' col (v' :: vs') Hisin) as (i & dt & Hpos & ->).
    destruct Hin as [[= <- <- <-] | Hin].
    + apply position_has_column. eauto.
    + exact (IH _ out Hloop c v vs Hin).
  - destruct Hin as [[=] | Hin]. exact (IH d out Hloop c v vs Hin).
Qed.

(** X17. Filtering again what [apply_category_filters] returned, with the
    same selection, returns it unchanged, with the same message. *)
Theorem category_filters_idempotent (d out : DataFrame)
        (cat_cols : option (list string)) (val1 val2 val3 : option (list Cell))
        (msg : string) :
  apply_category_filters (Some d) cat_cols val1 val2 val3 = Ok (Some out, msg) ->
  apply_category_filters (Some out) cat_cols val1 val2 val3 = Ok (Some out, msg).
Proof.
  unfold apply_category_filters.
  destruct (negb (truthy cat_cols)
            || forallb (fun v => negb (truthy v)) [val1; val2; val3]).
  - now intros [= <- <-].
  - destruct (filter_loop d _) as [f | e] eqn:Hloop; [| discriminate].
    cbn [bind]. intros [= <- <-].
    pose proof (filter_loop_columns _ d f Hloop) as Hcols.
    rewrite (filter_loop_rows _ d f Hloop).
    rewrite filter_loop_ok.
    + cbn [bind columns rows]. rewrite filter_filter.
      assert (Hsame : forall l,
                 filter (fun x => passes_filters d l x
                                  && passes_filters
                                       {| columns := columns d;
                                          rows := filter (passes_filters d l) (rows d) |}
                                       l x) (rows d)
                 = filter (passes_filters d l) (rows d)).
      { intros l. apply filter_ext. intros r.
        change (passes_filters {| columns := columns d;
                                  rows := filter (passes_filters d l) (rows d) |} l r)
          with (passes_filters d l r).
        now destruct (passes_filters d l r). }
      now rewrite Hsame.
    + intros c v vs Hin. exact (Hcols c v vs Hin).
Qed.

Lemma category_filters_idempotent_witness :
  apply_category_filters
    (Some {| columns := columns sample_frame;
             rows := [(2%nat, [qcell 4 1; Flt NaN; Str "b"]);
                      (3%nat, [qcell 5 1; qcell 2 1; Str "b"])] |})
    (Some ["g"]) (Some [Str "b"]) None None
  = Ok (Some {| columns := columns sample_frame;
                rows := [(2%nat, [qcell 4 1; Flt NaN; Str "b"]);
                         (3%nat, [qcell 5 1; qcell 2 1; Str "b"])] |},
        "✅ Filter applied. Rows remaining: 2").
Proof.
  apply (category_filters_idempotent sample_frame).
  vm_compute. reflexivity.
Defined.

(** X18. A filter on a column the dataset does not have makes
    [apply_category_filters] raise; without one it returns a frame. *)
Theorem category_filters_need_their_columns (d : DataFrame)
        (cat_cols : option (list string)) (val1 val2 val3 : option (list Cell)) :
  truthy cat_cols
  && negb (forallb (fun v => negb (truthy v)) [val1; val2; val3]) = true ->
  (is_ok (apply_category_filters (Some d) cat_cols val1 val2 val3) = true
   <-> forall col v vs,
         In (col, Some (v :: vs)) (filter_pairs cat_cols val1 val2 val3) ->
         has_column col d = true).
Proof.
  intros Hactive. apply Bool.andb_true_iff in Hactive. destruct Hactive as (Hc & Hv).
  apply Bool.negb_true_iff in Hv.
  unfold apply_category_filters, filter_pairs. rewrite Hc, Hv. cbn [negb orb].
  split.
  - destruct (filter_loop d _) as [f | e] eqn:Hloop; [| discriminate].
    intros _. exact (filter_loop_columns _ d f Hloop).
  - intros Hcols. now rewrite (filter_loop_ok _ d Hcols).
Qed.

Lemma category_filters_need_their_columns_witness :
  is_ok (apply_category_filters (Some sample_frame) (Some ["g"; "h"])
           (Some [Str "b"]) (Some [Str "u"]) None) = true
  <-> forall col v vs,
        In (col, Some (v :: vs))
           (filter_pairs (Some ["g"; "h"]) (Some [Str "b"]) (Some [Str "u"]) None) ->
        has_column col sample_frame = true.
Proof.
  apply (category_filters_need_their_columns sample_frame (Some ["g"; "h"])
           (Some [Str "b"]) (Some [Str "u"]) None).
  reflexivity.
Defined.

(** X19. Values selected in the second or third list when there is one
    categorical column only are ignored: the whole dataset comes back, with
    the message of an applied filter. *)
Theorem selection_without_column_is_ignored (d : DataFrame) (c : string)
        (val1 val2 val3 : option (list Cell)) :
  truthy val1 = false -> truthy val2 || truthy val3 = true ->
  apply_category_filters (Some d) (Some [c]) val1 val2 val3
  = Ok (Some d, "✅ Filter applied. Rows remaining: " ++ str_of_nat (length (rows d))).
Proof.
  intros H1 H23. unfold apply_category_filters. cbn [truthy negb orb forallb].
  rewrite H1. cbn [negb andb].
  assert (Hguard : negb (truthy val2) && (negb (truthy val3) && true) = false).
  { destruct (truthy val2), (truthy val3); try reflexivity; discriminate. }
  rewrite Hguard. cbn [firstn combine filter_loop].
  destruct val1 as [[| v vs] |]; try discriminate; reflexivity.
Qed.

Lemma selection_without_column_is_ignored_witness :
  apply_category_filters (Some sample_frame) (Some ["g"]) (Some []) (Some [Str "b"]) None
  = Ok (Some sample_frame, "✅ Filter applied. Rows remaining: 5").
Proof.
  apply (selection_without_column_is_ignored sample_frame "g"
           (Some []) (Some [Str "b"]) None); reflexivity.
Defined.

Lemma remove_first_perm (c : string) (l : list string) :
  str_in c l = true -> Permutation (c :: remove_first c l) l.
Proof.
  unfold str_in. induction l as [| h t IH]; simpl; [discriminate |].
  rewrite (String.eqb_sym c h). destruct (String.eqb h c) eqn:E.
  - apply String.eqb_eq in E. subst h. intros _. apply Permutation_refl.
  - simpl. intros Hin. eapply perm_trans; [apply perm_swap |].
    apply perm_skip. now apply IH.
Qed.

Lemma selected_in_inv (column : option string) (cols : list string) :
  selected_in column cols = true ->
  exists c, column = Some c /\ c <> EmptyString /\ str_in c cols = true.
Proof.
  destruct column as [c |]; [| discriminate]. simpl.
  destruct c as [| a c']; [discriminate |]. simpl. intros H.
  exists (String a c'). repeat split; [discriminate | exact H].
Qed.

Lemma moved_to_second_perm (c : string) (a b : list string) :
  str_in c a = true -> Permutation (remove_first c a ++ (b ++ [c])) (a ++ b).
Proof.
  intros Hin. rewrite app_assoc.
  eapply perm_trans; [apply Permutation_sym, Permutation_cons_append |].
  apply (Permutation_app_tail b (l := c :: remove_first c a)).
  now apply remove_first_perm.
Qed.

Lemma moved_to_first_perm (c : string) (a b : list string) :
  str_in c b = true -> Permutation ((a ++ [c]) ++ remove_first c b) (a ++ b).
Proof.
  intros Hin. rewrite <- app_assoc. apply Permutation_app_head.
  now apply remove_first_perm.
Qed.

(** X20. Reclassifying a column moves one occurrence of its name from one
    list to the end of the other: between them the two lists hold the same
    names before and after, whether the call succeeds or not. The data, the
    filtered data and the display precision are not touched. *)
Theorem reclassification_conserves_columns (s : Session) (column : option string) :
  let after_c := fst (reclassify_as_categorical s column) in
  let after_n := fst (reclassify_as_numeric s column) in
  Permutation (numeric_cols (app after_c) ++ categorical_cols (app after_c))
              (numeric_cols (app s) ++ categorical_cols (app s))
  /\ Permutation (numeric_cols (app after_n) ++ categorical_cols (app after_n))
                 (numeric_cols (app s) ++ categorical_cols (app s))
  /\ df (app after_c) = df (app s) /\ df (app after_n) = df (app s)
  /\ filtered_df (app after_c) = filtered_df (app s)
  /\ filtered_df (app after_n) = filtered_df (app s)
  /\ display_precision (app after_c) = display_precision (app s)
  /\ display_precision (app after_n) = display_precision (app s).
Proof.
  unfold reclassify_as_categorical, reclassify_as_numeric.
  split; [| split].
  - destruct (selected_in column (numeric_cols (app s))) eqn:Hn;
      [| apply Permutation_refl].
    apply selected_in_inv in Hn. destruct Hn as (c & -> & _ & Hn).
    cbn [fst with_columns app numeric_cols categorical_cols str_of_column].
    now apply moved_to_second_perm.
  - destruct (selected_in column (categorical_cols (app s))) eqn:Hc;
      [| apply Permutation_refl].
    apply selected_in_inv in Hc. destruct Hc as (c & -> & _ & Hc).
    cbn [fst with_columns app numeric_cols categorical_cols str_of_column].
    now apply moved_to_first_perm.
  - destruct (selected_in column (numeric_cols (app s)));
      destruct (selected_in column (categorical_cols (app s)));
      repeat split; reflexivity.
Qed.

Lemma remove_first_appended (c : string) (l : list string) :
  str_in c l = false -> remove_first c (l ++ [c]) = l.
Proof.
  unfold str_in. induction l as [| h t IH]; simpl.
  - now rewrite String.eqb_refl.
  - rewrite (String.eqb_sym c h). destruct (String.eqb h c); [discriminate |].
    simpl. intros Hin. now rewrite IH.
Qed.

Lemma str_in_app (c : string) (a b : list string) :
  str_in c (a ++ b) = str_in c a || str_in c b.
Proof. unfold str_in. apply existsb_app. Qed.

(** X21. A numeric column reclassified as categorical and then as numeric
    again: both calls succeed, the categorical list is as it was, the column
    now stands at the end of the numeric list, and the active filters are
    gone. *)
Theorem reclassification_round_trip (s : Session) (c : string) :
  c <> EmptyString ->
  str_in c (numeric_cols (app s)) = true ->
  str_in c (categorical_cols (app s)) = false ->
  let first := reclassify_as_categorical s (Some c) in
  let second := reclassify_as_numeric (fst first) (Some c) in
  fst (snd first) = true /\ fst (snd second) = true
  /\ categorical_cols (app (fst second)) = categorical_cols (app s)
  /\ numeric_cols (app (fst second)) = (remove_first c (numeric_cols (app s)) ++ [c])%list
  /\ Permutation (numeric_cols (app (fst second))) (numeric_cols (app s))
  /\ active_filters (fst second) = [].
Proof.
  intros Hc Hnum Hcat. unfold reclassify_as_categorical.
  assert (Hsel : selected_in (Some c) (numeric_cols (app s)) = true).
  { simpl. rewrite Hnum. destruct c; [now elim Hc | reflexivity]. }
  rewrite Hsel. cbn [fst snd str_of_column]. unfold reclassify_as_numeric.
  cbn [with_columns app categorical_cols numeric_cols].
  assert (Hsel' : selected_in (Some c) (categorical_cols (app s) ++ [c]) = true).
  { simpl. rewrite str_in_app, str_in_refl, Bool.orb_true_r.
    destruct c; [now elim Hc | reflexivity]. }
  rewrite Hsel'.
  cbn [fst snd str_of_column with_columns app categorical_cols numeric_cols
       active_filters].
  rewrite (remove_first_appended c _ Hcat).
  repeat split.
  eapply perm_trans; [apply Permutation_sym, Permutation_cons_append |].
  now apply remove_first_perm.
Qed.

Lemma reclassification_round_trip_witness :
  let first := reclassify_as_categorical sample_session (Some "x") in
  let second := reclassify_as_numeric (fst first) (Some "x") in
  fst (snd first) = true /\ fst (snd second) = true
  /\ categorical_cols (app (fst second)) = ["g"]
  /\ numeric_cols (app (fst second)) = ["y"; "x"]
  /\ Permutation (numeric_cols (app (fst second))) ["x"; "y"]
  /\ active_filters (fst second) = [].
Proof.
  apply (reclassification_round_trip sample_session "x");
    [discriminate | reflexivity | reflexivity].
Defined.

(** [cell_eqb] is an equivalence. *)
Lemma fle_refl (x : pyfloat) : x <> NaN -> fle x x = true.
Proof.
  destruct x as [q | | |]; intros H; try reflexivity; [| now elim H].
  apply Qle_bool_iff, Qle_refl.
Qed.

Lemma cell_eqb_refl (a : Cell) : cell_eqb a a = true.
Proof.
  destruct a as [[q | | |] | s |]; simpl; try reflexivity.
  - unfold feq. now rewrite (fle_refl (Fin q)) by discriminate.
  - apply String.eqb_refl.
Qed.

Lemma cell_eqb_sym (a b : Cell) : cell_eqb a b = cell_eqb b a.
Proof.
  destruct a as [[p | | |] | s |], b as [[q | | |] | t |]; simpl;
    try reflexivity; unfold feq; simpl; try apply Bool.andb_comm.
  apply String.eqb_sym.
Qed.

Lemma cell_eqb_trans (a b c : Cell) :
  cell_eqb a b = true -> cell_eqb b c = true -> cell_eqb a c = true.
Proof.
  destruct a as [[p | | |] | s |], b as [[q | | |] | t |], c as [[r | | |] | u |];
    simpl; try discriminate; try reflexivity; unfold feq; simpl;
    try discriminate.
  - rewrite !Bool.andb_true_iff, !Qle_bool_iff. intros (H1 & H2) (H3 & H4).
    split; eapply Qle_trans; eauto.
  - rewrite !String.eqb_eq. congruence.
Qed.

(** Among the distinct values of a list, one and only one equals a given
    value of the list. *)
Lemma distinct_count (x : Cell) (l : list Cell) :
  length (filter (fun v => cell_eqb v x) (distinct l))
  = if existsb (fun v => cell_eqb v x) l then 1%nat else 0%nat.
Proof.
  induction l as [| c r IH]; [reflexivity |].
  cbn [distinct filter existsb]. destruct (cell_eqb c x) eqn:Hcx.
  - cbn [orb length]. f_equal. rewrite filter_filter.
    replace (filter _ (distinct r)) with (@nil Cell); [reflexivity |].
    symmetry. clear IH.
    induction (distinct r) as [| d t IHt]; [reflexivity |].
    simpl. destruct (cell_eqb c d) eqn:Hcd; simpl; [exact IHt |].
    destruct (cell_eqb d x) eqn:Hdx; [| exact IHt].
    rewrite cell_eqb_sym in Hdx.
    now rewrite (cell_eqb_trans c x d Hcx Hdx) in Hcd.
  - cbn [orb]. rewrite <- IH. rewrite filter_filter. f_equal. apply filter_ext_in.
    intros d _. destruct (cell_eqb d x) eqn:Hdx; [| apply Bool.andb_false_r].
    destruct (cell_eqb c d) eqn:Hcd; [| reflexivity].
    now rewrite (cell_eqb_trans c d x Hcd Hdx) in Hcx.
Qed.

Lemma distinct_In (x : Cell) (l : list Cell) : In x (distinct l) -> In x l.
Proof.
  induction l as [| c r IH]; [intros [] |].
  simpl. intros [-> | Hin]; [now left |].
  right. apply IH. now apply filter_In in Hin.
Qed.

Lemma insert_cell_perm (c : Cell) (l : list Cell) :
  Permutation (insert_cell c l) (c :: l).
Proof.
  induction l as [| h t IH]; simpl; [apply Permutation_refl |].
  destruct (key_le c h); [apply Permutation_refl |].
  eapply perm_trans; [apply perm_skip, IH | apply perm_swap].
Qed.

Lemma sort_cells_perm (l : list Cell) : Permutation (sort_cells l) l.
Proof.
  induction l as [| h t IH]; simpl; [constructor |].
  eapply perm_trans; [apply insert_cell_perm | now apply perm_skip].
Qed.

Lemma filter_perm_length {A} (p : A -> bool) (l l' : list A) :
  Permutation l l' -> length (filter p l) = length (filter p l').
Proof.
  induction 1 as [| x l l' _ IH | x y l | l l' l'' _ IH1 _ IH2]; simpl.
  - reflexivity.
  - destruct (p x); simpl; now rewrite IH.
  - destruct (p x), (p y); reflexivity.
  - now rewrite IH1.
Qed.

Lemma insert_cell_sorted (x : Cell) (l : list Cell) :
  (forall y, In y l -> key_le x y = false -> key_le y x = true) ->
  Sorted (fun a b => key_le a b = true) l ->
  Sorted (fun a b => key_le a b = true) (insert_cell x l).
Proof.
  induction l as [| h t IH]; intros Htot Hs; simpl.
  - repeat constructor.
  - destruct (key_le x h) eqn:E.
    + constructor; [exact Hs | constructor; exact E].
    + inversion Hs as [| ? ? Ht Hhd]; subst.
      constructor; [apply IH; [intros y Hy; apply Htot; now right | exact Ht] |].
      assert (Hhx : key_le h x = true) by (apply Htot; [now left | exact E]).
      destruct t as [| h' t']; simpl; [now constructor |].
      destruct (key_le x h'); constructor; [exact Hhx |].
      now inversion Hhd.
Qed.

Lemma sort_cells_sorted (l : list Cell) :
  (forall x y, In x l -> In y l -> key_le x y = false -> key_le y x = true) ->
  Sorted (fun a b => key_le a b = true) (sort_cells l).
Proof.
  induction l as [| h t IH]; intros Htot; simpl; [constructor |].
  apply insert_cell_sorted.
  - intros y Hy. apply Htot; [now left | right].
    eapply Permutation_in; [apply sort_cells_perm | exact Hy].
  - apply IH. intros x y Hx Hy. apply Htot; now right.
Qed.

(** Two cells of a list of one kind, neither of them missing, compare one
    way or the other. *)
Lemma key_le_total_in (l : list Cell) (x y : Cell) :
  homogeneous l = true -> In x l -> In y l ->
  notna x = true -> notna y = true ->
  key_le x y = false -> key_le y x = true.
Proof.
  intros Hh Hx Hy Hnx Hny.
  assert (Hkind : same_kind x y = true).
  { destruct l as [| c r]; [destruct Hx |]. simpl in Hh.
    rewrite forallb_forall in Hh.
    assert (Hc : forall z, In z (c :: r) -> notna z = true -> same_kind c z = true).
    { intros z [<- | Hz] Hnz; [| now apply Hh].
      destruct c as [[q | | |] | s |]; try reflexivity; discriminate. }
    specialize (Hc x Hx Hnx) as Hcx. specialize (Hc y Hy Hny) as Hcy.
    destruct c, x, y; try discriminate; reflexivity. }
  destruct x as [a | s |], y as [b | t |]; try discriminate.
  - apply key_le_total.
  - simpl. pose proof (String.leb_total s t) as Htot. unfold String.leb in Htot.
    destruct (String.compare s t), (String.compare t s);
      try reflexivity; try discriminate; destruct Htot; discriminate.
Qed.

(** X22. For a column of the dataset, [category_value_choices] shows the
    list with nothing selected; the choices stand in ascending order, each
    is a value of the column that is not missing, and every such value of
    the column equals one choice and no more. *)
Theorem category_choices_are_the_column_values (d : DataFrame) (c : string)
        (i : nat) (dt : dtype) (u : ChoicesUpdate) :
  position c (columns d) = Some (i, dt) ->
  category_value_choices (Some d) (Some c) = Ok u ->
  u_visible u = true /\ u_value u = []
  /\ Sorted (fun a b => key_le a b = true) (u_choices u)
  /\ (forall v, In v (u_choices u) ->
                notna v = true /\ exists r, In r (rows d) /\ cell_at i r = v)
  /\ (forall r, In r (rows d) -> notna (cell_at i r) = true ->
                length (filter (fun v => cell_eqb v (cell_at i r)) (u_choices u)) = 1%nat).
Proof.
  intros Hpos. unfold category_value_choices.
  assert (Hhas : has_column c d = true) by (apply position_has_column; eauto).
  rewrite Hhas, (getitem_position d c i dt Hpos). cbn [negb bind].
  set (values := to_numpy (dropna _)).
  assert (Hvalues : forall v, In v values <->
                              notna v = true /\ exists r, In r (rows d) /\ cell_at i r = v).
  { intros v. unfold values, to_numpy, dropna. cbn [s_items]. rewrite in_map_iff. split.
    - intros ([lab v'] & <- & Hin). apply filter_In in Hin. destruct Hin as (Hin & Hn).
      apply in_map_iff in Hin. destruct Hin as (r & [= <- <-] & Hr). cbn [snd] in *.
      split; [exact Hn | eauto].
    - intros (Hn & r & Hr & <-). exists (fst r, cell_at i r). split; [reflexivity |].
      apply filter_In. split; [| exact Hn]. apply in_map_iff. eauto. }
  unfold sorted_cells. destruct (homogeneous (distinct values)) eqn:Hh; [| discriminate].
  cbn [bind]. intros [= <-]. cbn [u_visible u_value u_choices].
  assert (Hin : forall v, In v (sort_cells (distinct values)) -> In v values).
  { intros v Hv. apply distinct_In.
    eapply Permutation_in; [apply sort_cells_perm | exact Hv]. }
  split; [reflexivity | split; [reflexivity | split; [| split]]].
  - apply sort_cells_sorted. intros x y Hx Hy.
    apply (key_le_total_in (distinct values) x y Hh Hx Hy).
    + now apply (Hvalues x), distinct_In.
    + now apply (Hvalues y), distinct_In.
  - intros v Hv. now apply Hvalues, Hin.
  - intros r Hr Hn.
    rewrite (filter_perm_length _ _ _ (sort_cells_perm (distinct values))).
    rewrite distinct_count.
    assert (Hex : existsb (fun v => cell_eqb v (cell_at i r)) values = true).
    { apply existsb_exists. exists (cell_at i r). split; [| apply cell_eqb_refl].
      apply Hvalues. eauto. }
    now rewrite Hex.
Qed.

Lemma category_choices_are_the_column_values_witness :
  exists u,
    category_value_choices (Some sample_frame) (Some "g") = Ok u
    /\ u_choices u = [Str "a"; Str "b"]
    /\ Sorted (fun a b => key_le a b = true) (u_choices u).
Proof.
  eexists. split; [reflexivity |]. split; [reflexivity |].
  apply (category_choices_are_the_column_values sample_frame "g" 2%nat object_);
    reflexivity.
Defined.

(** ** The dataframe a tab works on *)

Import RegressionController.

(** X23. The frame that the regression controller selects is the frame that
    the other tabs take from the state, unless the filter has left no row:
    the tabs then work on the empty filtered frame, the regression on the
    whole dataset. *)
Theorem tabs_and_regression_agree_unless_filter_is_empty (s : AppState) (w : DataFrame) :
  _select_working_dataframe (df s) (filtered_df s) = Ok w ->
  (tab_dataframe s = Some w
   <-> forall f, filtered_df s = Some f -> empty f = false).
Proof.
  unfold _select_working_dataframe, tab_dataframe.
  destruct (df s) as [d |]; [| discriminate].
  destruct (filtered_df s) as [f |].
  - destruct (empty f) eqn:Hf; cbn [negb].
    + destruct (empty d) eqn:Hd; [discriminate |]. intros [= <-]. split.
      * intros [= ->]. congruence.
      * intros H. specialize (H f eq_refl). congruence.
    + intros [= <-]. split; [intros _ f' [= <-]; exact Hf | intros _; reflexivity].
  - destruct (empty d); [discriminate |]. intros [= <-].
    split; [discriminate | intros _; reflexivity].
Qed.

Lemma tabs_and_regression_agree_unless_filter_is_empty_witness :
  tab_dataframe
    {| df := Some sample_frame;
       filtered_df := Some {| columns := columns sample_frame; rows := [] |};
       numeric_cols := []; categorical_cols := [];
       display_precision := DEFAULT_DISPLAY_PRECISION |}
  = Some sample_frame
  <-> forall f, Some {| columns := columns sample_frame; rows := [] |} = Some f ->
                empty f = false.
Proof.
  apply (tabs_and_regression_agree_unless_filter_is_empty
           {| df := Some sample_frame;
              filtered_df := Some {| columns := columns sample_frame; rows := [] |};
              numeric_cols := []; categorical_cols := [];
              display_precision := DEFAULT_DISPLAY_PRECISION |} sample_frame).
  reflexivity.
Defined.

(** ** The input parsers of the tabs *)

Import Tabs.

Lemma lstrip_list_app_nonspace (l : list ascii) (c : ascii) :
  is_space c = false -> lstrip_list (l ++ [c]) = (lstrip_list l ++ [c])%list.
Proof.
  intros Hc. induction l as [| a l IH]; simpl.
  - now rewrite Hc.
  - destruct (is_space a); [exact IH | reflexivity].
Qed.

Lemma lstrip_list_fixed (l : list ascii) :
  match l with a :: _ => is_space a = false | [] => True end ->
  lstrip_list l = l.
Proof. destruct l as [| a l]; [reflexivity |]. simpl. now intros ->. Qed.







Lemma insert_float_perm (x : pyfloat) (l : list pyfloat) :
  Permutation (insert_float x l) (x :: l).
Proof.
  induction l as [| h t IH]; simpl; [apply Permutation_refl |].
  destruct (fle x h); [apply Permutation_refl |].
  eapply perm_trans; [apply perm_skip, IH | apply perm_swap].
Qed.

Lemma sorted_floats_perm (l : list pyfloat) : Permutation (sorted_floats l) l.
Proof.
  induction l as [| h t IH]; simpl; [constructor |].
  eapply perm_trans; [apply insert_float_perm | now apply perm_skip].
Qed.

Lemma fle_total (x y : pyfloat) :
  x <> NaN -> y <> NaN -> fle x y = false -> fle y x = true.
Proof.
  intros Hx Hy H. pose proof (key_le_total x y) as Htot. unfold key_le in Htot.
  destruct x, y; try (now elim Hx); try (now elim Hy); simpl in *;
    rewrite ?Bool.orb_false_r in Htot; auto.
Qed.

Lemma insert_float_sorted (x : pyfloat) (l : list pyfloat) :
  x <> NaN -> Forall (fun y => y <> NaN) l ->
  Sorted (fun a b => fle a b = true) l ->
  Sorted (fun a b => fle a b = true) (insert_float x l).
Proof.
  intros Hx. induction l as [| h t IH]; intros Hnan Hs; simpl.
  - repeat constructor.
  - inversion Hnan as [| ? ? Hh Hnan']; subst. destruct (fle x h) eqn:E.
    + constructor; [exact Hs | constructor; exact E].
    + inversion Hs as [| ? ? Ht Hhd]; subst.
      constructor; [now apply IH |].
      assert (Hhx : fle h x = true) by now apply fle_total.
      destruct t as [| h' t']; simpl; [now constructor |].
      destruct (fle x h'); constructor; [exact Hhx |].
      now inversion Hhd.
Qed.

Lemma sorted_floats_sorted (l : list pyfloat) :
  Forall (fun y => y <> NaN) l ->
  Sorted (fun a b => fle a b = true) (sorted_floats l).
Proof.
  induction l as [| h t IH]; intros Hnan; simpl; [constructor |].
  inversion Hnan as [| ? ? Hh Hnan']; subst.
  apply insert_float_sorted; [exact Hh | | now apply IH].
  eapply Permutation_Forall; [apply Permutation_sym, sorted_floats_perm | exact Hnan'].
Qed.

(** X25. The confidence levels that [parse_probs] returns are the numbers
    written in the text, none lost and none added, in ascending order; there
    is one at least and each lies strictly between 0 and 1. *)
Theorem parse_probs_returns_sorted_levels (text : string) (vals : list pyfloat) :
  parse_probs text = GrOk vals ->
  vals <> []
  /\ Sorted (fun a b => fle a b = true) vals
  /\ Forall (fun v => flt f0 v = true /\ flt v f1 = true) vals
  /\ exists written,
       floats_of (nonblank_parts text) = Ok written /\ Permutation vals written.
Proof.
  unfold parse_probs.
  destruct (floats_of (nonblank_parts text)) as [written | e]; [| discriminate].
  destruct written as [| w ws]; [discriminate |]. cbn [length Nat.eqb].
  destruct (existsb _ (w :: ws)) eqn:Hout; [discriminate |]. intros [= <-].
  assert (Hall : Forall (fun v => flt f0 v = true /\ flt v f1 = true) (w :: ws)).
  { apply Forall_forall. intros v Hv.
    destruct (flt f0 v && flt v f1) eqn:Hin; [now apply Bool.andb_true_iff in Hin |].
    assert (Hex : existsb (fun v => negb (flt f0 v && flt v f1)) (w :: ws) = true).
    { apply existsb_exists. exists v. split; [exact Hv | now rewrite Hin]. }
    congruence. }
  pose proof (sorted_floats_perm (w :: ws)) as Hperm.
  split; [| split; [| split]].
  - intros Hnil. pose proof (Permutation_length Hperm) as Hlen.
    simpl in Hnil, Hlen. rewrite Hnil in Hlen. discriminate.
  - apply (sorted_floats_sorted (w :: ws)). eapply Forall_impl; [| exact Hall].
    intros v (H0 & _) ->. discriminate.
  - exact (Permutation_Forall (Permutation_sym Hperm) Hall).
  - exists (w :: ws). split; [reflexivity | exact Hperm].
Qed.

Lemma parse_probs_returns_sorted_levels_witness :
  Sorted (fun a b => fle a b = true)
         [Fin (8106479329266893 # 9007199254740992);
          Fin (4278419646001971 # 4503599627370496)].
Proof.
  apply (parse_probs_returns_sorted_levels "0.95, 0.9,").
  vm_compute. reflexivity.
Defined.

Lemma split_not_nil (sep : ascii) (s : string) : split sep s <> [].
Proof.
  destruct s as [| c r]; simpl; [discriminate |].
  destruct (Ascii.eqb c sep); [discriminate |].
  destruct (split sep r); discriminate.
Qed.

Lemma split_trailing_separator (sep : ascii) (s : string) :
  split sep (s ++ String sep EmptyString) = (split sep s ++ [EmptyString])%list.
Proof.
  induction s as [| c r IH]; simpl.
  - now rewrite Ascii.eqb_refl.
  - destruct (Ascii.eqb c sep); [now rewrite IH |].
    rewrite IH. pose proof (split_not_nil sep r) as Hne.
    destruct (split sep r); [now elim Hne | reflexivity].
Qed.

Lemma floats_of_blank_last (parts : list string) :
  fails (floats_of (parts ++ [EmptyString])).
Proof.
  induction parts as [| p r IH]; simpl.
  - unfold fails. eauto.
  - destruct (float_or_raise (strip p)) as [x | e]; cbn [bind]; [| unfold fails; eauto].
    destruct IH as (e & ->). unfold fails. cbn [bind]. eauto.
Qed.

Lemma list_ascii_of_string_app (s t : string) :
  list_ascii_of_string (s ++ t)
  = (list_ascii_of_string s ++ list_ascii_of_string t)%list.
Proof. induction s as [| c r IH]; simpl; [reflexivity | now rewrite IH]. Qed.

Lemma strip_trailing_nonspace (s : string) (c : ascii) :
  is_space c = false -> str_falsy (strip (s ++ String c EmptyString)) = false.
Proof.
  intros Hc. unfold strip, rstrip_list.
  rewrite list_ascii_of_string_app. cbn [list_ascii_of_string].
  rewrite (lstrip_list_app_nonspace _ c Hc), rev_app_distr.
  change (rev [c]) with [c]. cbn [List.app].
  rewrite (lstrip_list_fixed (c :: _)) by exact Hc.
  cbn [rev]. rewrite rev_involutive.
  now destruct (lstrip_list (list_ascii_of_string s)).
Qed.

(** X26. A comma at the end of the text changes nothing for the quantiles
    and for the confidence levels, whose blank parts are skipped; the Winsor
    limits, whose parts are all read as numbers, are refused. *)
Theorem trailing_comma_skipped_except_by_winsor (text : string) :
  parse_quantiles (text ++ ",") = parse_quantiles text
  /\ parse_probs (text ++ ",") = parse_probs text
  /\ fails (parse_winsor (text ++ ",")).
Proof.
  assert (Hparts : nonblank_parts (text ++ ",") = nonblank_parts text).
  { unfold nonblank_parts. rewrite split_trailing_separator, filter_app.
    simpl. apply app_nil_r. }
  split; [| split].
  - unfold parse_quantiles. now rewrite Hparts.
  - unfold parse_probs. now rewrite Hparts.
  - unfold parse_winsor.
    rewrite (strip_trailing_nonspace text "," eq_refl), split_trailing_separator.
    destruct (floats_of_blank_last (split "," text)) as (e & ->).
    unfold fails. cbn [bind]. eauto.
Qed.

(** ** [tests/test_no_tabular_rounding_in_core.py] *)

Import RoundingTest.

Lemma match_here_literals (p : list ascii) (pat : list atom) (rest : list ascii) :
  forall prev,
    p <> [] ->
    exists prev',
      match_here (map Lit p ++ pat) prev (p ++ rest)
      = option_map (List.app p) (match_here pat prev' rest).
Proof.
  induction p as [| a p IH]; intros prev Hp; [now elim Hp |].
  cbn [map List.app match_here]. rewrite Ascii.eqb_refl.
  destruct p as [| b p'].
  - exists (Some a). cbn [map List.app]. now destruct (match_here pat (Some a) rest).
  - destruct (IH (Some a)) as (prev' & ->); [discriminate |].
    exists prev'. now destruct (match_here pat prev' rest).
Qed.

Lemma match_here_spaces_paren (ws rest : list ascii) :
  forallb is_space ws = true ->
  forall prev,
    match_here [SpaceStar; Lit "("] prev (ws ++ "("%char :: rest)
    = Some (ws ++ ["("%char])%list.
Proof.
  intros Hws. induction ws as [| a ws IH]; intros prev.
  - reflexivity.
  - cbn [forallb] in Hws. apply Bool.andb_true_iff in Hws. destruct Hws as (Ha & Hws).
    specialize (IH Hws (Some a)). cbn [match_here List.app] in IH |- *.
    rewrite Ha. now rewrite IH.
Qed.

Lemma finditer_from_finds (pat : list atom) (found : list ascii) :
  found <> [] ->
  (forall prev, exists a m, match_here pat prev found = Some (a :: m)) ->
  forall before prev line,
    finditer_from pat prev 0 line (before ++ found) <> [].
Proof.
  intros Hne Hmatch. induction before as [| x before IH]; intros prev line.
  - destruct found as [| x r]; [now elim Hne |].
    destruct (Hmatch prev) as (a & m & Hm). cbn [List.app finditer_from].
    rewrite Hm. discriminate.
  - cbn [List.app finditer_from].
    destruct (match_here pat prev (x :: before ++ found)) as [[| a m] |];
      [apply IH | discriminate | apply IH].
Qed.

(** X27. The loop of the test records a violation for every file of [core/],
    [hypothesis_tests.py] apart, whose text holds [.round], white space or
    none, and an opening parenthesis. *)
Theorem rounding_call_is_recorded (core_files : list SourceFile) (f : SourceFile)
        (before ws after : string) :
  In f core_files ->
  name f <> "hypothesis_tests.py" ->
  forallb is_space (list_ascii_of_string ws) = true ->
  content f = (before ++ ".round" ++ ws ++ "(" ++ after)%string ->
  exists v, In v (collect_violations core_files) /\ v_path v = path f.
Proof.
  intros Hin Hname Hws Hcontent.
  assert (Hfound : finditer (lits ".round" ++ [SpaceStar; Lit "("%char]) (content f) <> []).
  { unfold finditer. rewrite Hcontent, list_ascii_of_string_app.
    apply finditer_from_finds.
    - rewrite list_ascii_of_string_app. discriminate.
    - intros prev. rewrite !list_ascii_of_string_app.
      destruct (match_here_literals (list_ascii_of_string ".round")
                  [SpaceStar; Lit "("%char]
                  (list_ascii_of_string ws ++ list_ascii_of_string "(" ++
                   list_ascii_of_string after) prev) as (prev' & Hm); [discriminate |].
      unfold lits. rewrite Hm.
      change (list_ascii_of_string "(" ++ list_ascii_of_string after)%list
        with ("("%char :: list_ascii_of_string after).
      rewrite (match_here_spaces_paren _ _ Hws). cbn. eauto. }
  destruct (finditer _ (content f)) as [| m ms] eqn:Hm; [now elim Hfound |].
  exists {| v_path := path f; v_line := m_line m; v_match := m_text m |}.
  split; [| reflexivity].
  unfold collect_violations. apply in_flat_map. exists f. split; [exact Hin |].
  destruct (String.eqb (name f) "hypothesis_tests.py") eqn:E;
    [apply String.eqb_eq in E; now elim Hname |].
  apply in_flat_map. exists (lits ".round" ++ [SpaceStar; Lit "("%char])%list.
  split; [unfold FORBIDDEN_PATTERNS; simpl; tauto |].
  rewrite Hm. now left.
Qed.

Lemma rounding_call_is_recorded_witness :
  exists v, In v (collect_violations [rounding_file]) /\ v_path v = "core/summary.py".
Proof.
  apply (rounding_call_is_recorded [rounding_file] rounding_file
           "def summarize(table):
    return table" "" "2)
").
  - now left.
  - discriminate.
  - reflexivity.
  - reflexivity.
Defined.

Lemma match_here_spaces_paren_inv (s : list ascii) :
  forall prev m,
    match_here [SpaceStar; Lit "("%char] prev s = Some m ->
    exists ws rest,
      m = (ws ++ ["("%char])%list /\ forallb is_space ws = true /\ s = (m ++ rest)%list.
Proof.
  assert (Hparen : forall prev s m,
             match_here [Lit "("%char] prev s = Some m ->
             exists rest, m = ["("%char] /\ s = (m ++ rest)%list).
  { intros prev [| a r] m; cbn [match_here]; [discriminate |].
    destruct (Ascii.eqb a "(") eqn:E; [| discriminate].
    apply Ascii.eqb_eq in E. subst a. cbn. intros [= <-]. now exists r. }
  induction s as [| a r IH]; intros prev m Hm.
  - discriminate.
  - cbn [match_here] in Hm. destruct (is_space a) eqn:Ha.
    + match type of Hm with
      | match ?star with _ => _ end = _ =>
          change star with (match_here [SpaceStar; Lit "("%char] (Some a) r) in Hm;
          destruct (match_here [SpaceStar; Lit "("%char] (Some a) r) as [m' |] eqn:Hm'
      end.
      * injection Hm as <-. destruct (IH (Some a) m' Hm') as (ws & rest & -> & Hws & ->).
        exists (a :: ws), rest. cbn [forallb List.app]. rewrite Ha, Hws.
        repeat split.
      * destruct (Hparen prev (a :: r) m Hm) as (rest & -> & Hs).
        exists [], rest. repeat split. exact Hs.
    + destruct (Hparen prev (a :: r) m Hm) as (rest & -> & Hs).
      exists [], rest. repeat split. exact Hs.
Qed.

Lemma match_here_literals_inv (p : list ascii) (pat : list atom) :
  forall prev s m,
    match_here (map Lit p ++ pat) prev s = Some m ->
    exists prev' m' rest,
      s = (p ++ rest)%list /\ m = (p ++ m')%list /\ match_here pat prev' rest = Some m'.
Proof.
  induction p as [| a p IH]; intros prev s m Hm.
  - exists prev, m, s. repeat split. exact Hm.
  - cbn [map List.app match_here] in Hm. destruct s as [| b r]; [discriminate |].
    destruct (Ascii.eqb b a) eqn:E; [| discriminate]. apply Ascii.eqb_eq in E. subst b.
    destruct (match_here (map Lit p ++ pat) (Some a) r) as [m1 |] eqn:Hm1;
      [| discriminate].
    injection Hm as <-. destruct (IH (Some a) r m1 Hm1) as (prev' & m' & rest & -> & -> & H).
    exists prev', m', rest. repeat split. exact H.
Qed.

(** What a forbidden pattern matches: one of the three names, white space
    or none, an opening parenthesis. *)
Lemma forbidden_match_form (pat : list atom) (prev : option ascii) (s m : list ascii) :
  In pat FORBIDDEN_PATTERNS ->
  match_here pat prev s = Some m ->
  exists pre ws rest,
    In pre ["round"; "np.round"; ".round"]
    /\ forallb is_space ws = true
    /\ m = (list_ascii_of_string pre ++ ws ++ ["("%char])%list
    /\ s = (m ++ rest)%list.
Proof.
  assert (Hform : forall pre prev s m,
             match_here (lits pre ++ [SpaceStar; Lit "("%char]) prev s = Some m ->
             exists ws rest,
               forallb is_space ws = true
               /\ m = (list_ascii_of_string pre ++ ws ++ ["("%char])%list
               /\ s = (m ++ rest)%list).
  { intros pre p0 s0 m0 Hm. unfold lits in Hm.
    destruct (match_here_literals_inv _ _ p0 s0 m0 Hm) as (p1 & m1 & r1 & -> & -> & H1).
    destruct (match_here_spaces_paren_inv r1 p1 m1 H1) as (ws & rest & -> & Hws & ->).
    exists ws, rest. repeat split; [exact Hws |]. now rewrite <- !app_assoc. }
  assert (Hword : forall pat prev s m,
             match_here (WordBoundary :: pat) prev s = Some m ->
             match_here pat prev s = Some m).
  { intros pat0 p0 s0 m0. cbn [match_here].
    now destruct (xorb (word_opt p0) (word_opt (hd_error s0))). }
  unfold FORBIDDEN_PATTERNS. intros [<- | [<- | [<- | []]]] Hm.
  - apply Hword in Hm. destruct (Hform "round" prev s m Hm) as (ws & rest & H).
    exists "round", ws, rest. simpl. tauto.
  - apply Hword in Hm. destruct (Hform "np.round" prev s m Hm) as (ws & rest & H).
    exists "np.round", ws, rest. simpl. tauto.
  - destruct (Hform ".round" prev s m Hm) as (ws & rest & H).
    exists ".round", ws, rest. simpl. tauto.
Qed.

Lemma finditer_from_inv (pat : list atom) (mt : Match) (s : list ascii) :
  forall prev skip line,
    In mt (finditer_from pat prev skip line s) ->
    exists s1 s2 prev' m,
      s = (s1 ++ s2)%list
      /\ match_here pat prev' s2 = Some m
      /\ m_text mt = string_of_list_ascii m
      /\ m_line mt = (line + length (filter (fun c => Ascii.eqb c "010") s1))%nat.
Proof.
  induction s as [| a r IH]; intros prev skip line Hin; [destruct Hin |].
  assert (Hnext : forall k,
             In mt (finditer_from pat (Some a) k
                      (if Ascii.eqb a "010" then S line else line) r) ->
             exists s1 s2 prev' m,
               a :: r = (s1 ++ s2)%list
               /\ match_here pat prev' s2 = Some m
               /\ m_text mt = string_of_list_ascii m
               /\ m_line mt
                  = (line + length (filter (fun c => Ascii.eqb c "010") s1))%nat).
  { intros k Hk. destruct (IH _ _ _ Hk) as (s1 & s2 & prev' & m & -> & Hm & Ht & Hl).
    exists (a :: s1), s2, prev', m. repeat split; [exact Hm | exact Ht |].
    rewrite Hl. cbn [filter]. destruct (Ascii.eqb a "010"); cbn [length]; lia. }
  cbn [finditer_from] in Hin. destruct skip as [| k]; [| exact (Hnext k Hin)].
  destruct (match_here pat prev (a :: r)) as [[| x m] |] eqn:Hm.
  - exact (Hnext _ Hin).
  - destruct Hin as [<- | Hin]; [| exact (Hnext _ Hin)].
    exists [], (a :: r), prev, (x :: m). cbn [m_text m_line filter length List.app].
    repeat split; [exact Hm | lia].
  - exact (Hnext _ Hin).
Qed.

Lemma string_of_list_ascii_app (a b : list ascii) :
  string_of_list_ascii (a ++ b) = (string_of_list_ascii a ++ string_of_list_ascii b)%string.
Proof. induction a as [| c a IH]; simpl; [reflexivity | now rewrite IH]. Qed.

(** X28. Every violation that the loop records stands for a call it forbids:
    the file is a file of [core/] other than [hypothesis_tests.py], the
    matched text occurs in the file and is [round], [np.round] or [.round]
    followed by white space or none and an opening parenthesis, and the line
    number is the number of the line on which the match starts. *)
Theorem recorded_violation_is_a_rounding_call (core_files : list SourceFile)
        (v : Violation) :
  In v (collect_violations core_files) ->
  exists f before after pre ws,
    In f core_files /\ name f <> "hypothesis_tests.py" /\ v_path v = path f
    /\ content f = (before ++ v_match v ++ after)%string
    /\ In pre ["round"; "np.round"; ".round"]
    /\ forallb is_space (list_ascii_of_string ws) = true
    /\ v_match v = (pre ++ ws ++ "(")%string
    /\ v_line v
       = S (length (filter (fun c => Ascii.eqb c "010") (list_ascii_of_string before))).
Proof.
  unfold collect_violations. intros Hin. apply in_flat_map in Hin.
  destruct Hin as (f & Hf & Hin).
  destruct (String.eqb (name f) "hypothesis_tests.py") eqn:Hname; [destruct Hin |].
  apply in_flat_map in Hin. destruct Hin as (pat & Hpat & Hin).
  apply in_map_iff in Hin. destruct Hin as (mt & <- & Hmt).
  unfold finditer in Hmt.
  destruct (finditer_from_inv pat mt _ _ _ _ Hmt) as (s1 & s2 & prev' & m & Hs & Hm & Ht & Hl).
  destruct (forbidden_match_form pat prev' s2 m Hpat Hm)
    as (pre & ws & rest & Hpre & Hws & Hform & Hs2).
  exists f, (string_of_list_ascii s1), (string_of_list_ascii rest), pre,
    (string_of_list_ascii ws).
  cbn [v_path v_line v_match]. rewrite !list_ascii_of_string_of_list_ascii.
  split; [exact Hf |]. split; [| split; [reflexivity |]].
  { intros Heq. rewrite Heq in Hname. discriminate. }
  split; [| split; [| split; [| split]]].
  - rewrite Ht, <- !string_of_list_ascii_app, <- Hs2, <- Hs.
    symmetry. apply string_of_list_ascii_of_string.
  - exact Hpre.
  - exact Hws.
  - rewrite Ht, Hform, !string_of_list_ascii_app.
    now rewrite string_of_list_ascii_of_string.
  - rewrite Hl. reflexivity.
Qed.

Lemma recorded_violation_is_a_rounding_call_witness :
  exists f before after pre ws,
    In f [rounding_file] /\ name f <> "hypothesis_tests.py"
    /\ "core/summary.py" = path f
    /\ content f = (before ++ ".round(" ++ after)%string
    /\ In pre ["round"; "np.round"; ".round"]
    /\ forallb is_space (list_ascii_of_string ws) = true
    /\ ".round(" = (pre ++ ws ++ "(")%string
    /\ 2%nat
       = S (length (filter (fun c => Ascii.eqb c "010") (list_ascii_of_string before))).
Proof.
  apply (recorded_violation_is_a_rounding_call [rounding_file]
           {| v_path := "core/summary.py"; v_line := 2; v_match := ".round(" |}).
  vm_compute. tauto.
Defined.

(** ** A Simple Regression plot over a range that was left blank *)

Import RegressionController.

Section BlankRange.
Context {SM : Statsmodels}.

Lemma plot_simple_regression_needs_x_vector (data : DataFrame) (x y : string)
      (b uf : bool) (latex : string) (m : Model) (al : pyfloat) (ci pi : bool) :
  Core.plot_simple_regression data x y b uf latex m al ci pi false None
  = Err (ValueError "x_vector must be provided when 'fit_to_obs' is False.").
Proof. reflexivity. Qed.

Lemma core_needs_x_vector (a : Core.Args) :
  Core.create_graph a = true ->
  Core.graph_type a = "Simple Regression" ->
  Core.fit_to_obs a = false -> Core.x_vector a = None ->
  fails (Core.run_linear_regression a).
Proof.
  intros Hgraph Htype Hobs Hxv. unfold Core.run_linear_regression.
  rewrite Hgraph, Htype, Hobs, Hxv. cbn [String.eqb Ascii.eqb Bool.eqb].
  destruct (Core.independent_vars a) as [| x [| x' vars]] eqn:Hvars;
    repeat first [rewrite plot_simple_regression_needs_x_vector; cbn [bind]
                 | fail_step].
Qed.

(** X29. With the Simple Regression plot asked for, not on the observed
    values, and the range left blank, the controller reads no abscissa and
    the call ends in an error: no summary, no coefficient table and no
    figure come back. *)
Theorem simple_plot_without_range_is_refused (r : Request) :
  graph_check r = true ->
  graph_type r = "Simple Regression" ->
  fit_to_obs r = false ->
  strip (x_range_text r) = EmptyString ->
  _parse_range (x_range_text r) = Ok None
  /\ fails (run_linear_regression r).
Proof.
  intros Hgraph Htype Hobs Hblank.
  assert (Hrange : _parse_range (x_range_text r) = Ok None).
  { unfold _parse_range. now rewrite Hblank. }
  split; [exact Hrange |].
  unfold run_linear_regression.
  assert (Hwants : wants_simple_plot r = true).
  { unfold wants_simple_plot. now rewrite Hgraph, Htype. }
  rewrite Hwants, Hobs, Hrange. cbn [andb negb].
  destruct (_select_working_dataframe (r_df r) (r_filtered_df r)) as [wd | e];
    cbn [bind]; [| apply fails_err].
  destruct (dependent_var r) as [dep |]; [| apply fails_err].
  do 3 (fail_step; [| apply fails_err]).
  destruct (_parse_confidence_level (alpha_input r)) as [al | e]; cbn [bind];
    [| apply fails_err].
  destruct (core_needs_x_vector (core_args r wd dep al None)) as (e & ->);
    try assumption; try reflexivity.
  apply fails_err.
Qed.

End BlankRange.

Lemma simple_plot_without_range_is_refused_witness :
  _parse_range "  " = Ok None
  /\ fails (run_linear_regression (SM := StandIn.recording_statsmodels)
              (sample_regression ["x"] "0.9" "  " false)).
Proof.
  apply (simple_plot_without_range_is_refused (SM := StandIn.recording_statsmodels)
           (sample_regression ["x"] "0.9" "  " false)); reflexivity.
Defined.
